(** * Pedal cruise control (PCC) of selfdrive/car/tesla/PCC_module.py

    A shallow embedding of the longitudinal controller: the engagement state
    machine [update_stat], the pedal encoder [update_pdl], the follow-speed
    planner [calc_follow_speed_ms] and the envelope helpers.

    Numbers.  Python floats are modelled as rationals ([Q]); results are
    stated up to [==].  Most arithmetic is exact, so that a value of the
    model is the value of the program up to rounding.  Where the rounding of
    the binary64 arithmetic decides an outcome (the argument of [int()] in
    the display rounding, the relative speed recomputed as
    [(actual + rel) - actual] before the 3 kph tests), the operations are
    the rounded ones, [fadd], [fsub], [fmul] and [fdiv].  Integers (frames,
    indices, timestamps in milliseconds) are [Z].  A float division raises
    [ZeroDivisionError] on a zero divisor; this is kept, through the small
    error monad [res]. *)

From Stdlib Require Import QArith Qround Qpower Qabs ZArith List Bool Lia Lqa String.
Import ListNotations.
Open Scope Q_scope.

(** ** Python arithmetic on rationals *)

Definition Qltb (x y : Q) : bool := negb (Qle_bool y x).

Infix "<?" := Qltb (at level 70, no associativity) : Q_scope.
Infix "<=?" := Qle_bool (at level 70, no associativity) : Q_scope.
Infix "=?" := Qeq_bool (at level 70, no associativity) : Q_scope.

(** [max(a, b)], [min(a, b)] and [abs(x)] of Python. *)
Definition pmax (a b : Q) : Q := if a <? b then b else a.
Definition pmin (a b : Q) : Q := if b <? a then b else a.
Definition pabs (x : Q) : Q := if x <? 0 then - x else x.

(** [int(x)]: truncation toward zero. *)
Definition py_int (x : Q) : Z := Z.quot (Qnum x) (Zpos (Qden x)).

Inductive exn : Type := ZeroDivisionError | AttributeError.

Inductive res (A : Type) : Type :=
| Ok (a : A)
| Raise (e : exn).

Arguments Ok {A} a.
Arguments Raise {A} e.

Definition bind {A B : Type} (m : res A) (k : A -> res B) : res B :=
  match m with
  | Ok a => k a
  | Raise e => Raise e
  end.

Notation "x <- m ;; k" := (bind m (fun x => k))
  (at level 61, m at next level, right associativity).

(** [a / b] on floats. *)
Definition py_div (a b : Q) : res Q :=
  if b =? 0 then Raise ZeroDivisionError else Ok (a / b).

(** ** Binary64 rounding

    A Python float is an IEEE 754 binary64 number.  [round64 q] is the
    binary64 number nearest to [q], ties to the even significand, for [q] in
    the normal range (overflow and subnormal numbers are not modelled: the
    speeds and distances of the module are far from both). *)

(** The integer nearest to [q], ties to even. *)
Definition rne (q : Q) : Z :=
  let f := Qfloor q in
  let r := q - inject_Z f in
  if r <? 1 # 2 then f
  else if 1 # 2 <? r then (f + 1)%Z
  else if Z.even f then f else (f + 1)%Z.

(** [floor(log2 |q|)] for [q] other than 0. *)
Definition ilog2 (q : Q) : Z :=
  let e0 := (Z.log2 (Z.abs (Qnum q)) - Z.log2 (Zpos (Qden q)))%Z in
  if 2 ^ e0 <=? Qabs q then e0 else (e0 - 1)%Z.

(** A significand of 53 bits: [q] is scaled into [2^52, 2^53), rounded to an
    integer and scaled back. *)
Definition round64 (q : Q) : Q :=
  if q =? 0 then 0
  else
    let e := ilog2 q in
    Qred (inject_Z (rne (q * 2 ^ (52 - e))) * 2 ^ (e - 52)).

(** The float operations [a + b], [a - b], [a * b] and [a / b]: each operand
    is the binary64 number nearest to it (itself, when it is one), and the
    exact result is rounded. *)
Definition fadd (a b : Q) : Q := round64 (round64 a + round64 b).
Definition fsub (a b : Q) : Q := round64 (round64 a - round64 b).
Definition fmul (a b : Q) : Q := round64 (round64 a * round64 b).
Definition fdiv (a b : Q) : Q := round64 (round64 a / round64 b).

(** The unit roundoff [2^-53]. *)
Definition eps64 : Q := 1 # 9007199254740992.

(** ** Collaborators that are not part of the module *)

(** Modelled from the spec: [clip] of common.numpy_fast, which the module
    imports; the spec calls it clamping a value to a closed range. *)
Definition clip (x lo hi : Q) : Q := pmax lo (pmin hi x).

(** Modelled from the spec: [interp] of common.numpy_fast (section 4.1, the
    curve interpolator): piecewise-linear interpolation over ordered
    breakpoints, clamped to the end values outside the range, constant on a
    single-entry table, without error cases. *)
Fixpoint interp_seg (x x0 y0 : Q) (xp fp : list Q) : Q :=
  match xp, fp with
  | x1 :: xp', y1 :: fp' =>
      if x <=? x1 then y0 + (x - x0) * (y1 - y0) / (x1 - x0)
      else interp_seg x x1 y1 xp' fp'
  | _, _ => y0
  end.

Definition interp (x : Q) (xp fp : list Q) : Q :=
  match xp, fp with
  | x0 :: xp', y0 :: fp' =>
      if x <=? x0 then y0 else interp_seg x x0 y0 xp' fp'
  | _, _ => 0
  end.

(** Modelled from the spec: [Conversions] of selfdrive.config; the spec names
    the units (m/s, kph, mph), the factors are the ones between these units. *)
Module CV.
Definition MPH_TO_KPH : Q := 1.609344.
Definition KPH_TO_MPH : Q := 1 / MPH_TO_KPH.
Definition MS_TO_KPH : Q := 3.6.
Definition KPH_TO_MS : Q := 1 / MS_TO_KPH.
Definition MS_TO_MPH : Q := MS_TO_KPH * KPH_TO_MPH.
Definition MPH_TO_MS : Q := MPH_TO_KPH * KPH_TO_MS.
End CV.

(** Modelled from the spec: [CruiseButtons] of selfdrive.car.tesla.values,
    the driver's input code of a cycle (idle / main / cancel / resume /
    resume2 / decel / decel2). *)
Module CruiseButtons.
Inductive t : Type :=
  IDLE | MAIN | CANCEL | RES_ACCEL | RES_ACCEL_2ND | DECEL_SET | DECEL_2ND.

Definition eqb (a b : t) : bool :=
  match a, b with
  | IDLE, IDLE | MAIN, MAIN | CANCEL, CANCEL | RES_ACCEL, RES_ACCEL
  | RES_ACCEL_2ND, RES_ACCEL_2ND | DECEL_SET, DECEL_SET
  | DECEL_2ND, DECEL_2ND => true
  | _, _ => false
  end.
End CruiseButtons.

(** [LongCtrlState] of the external long-control module, as far as the
    module names its values. *)
Module LongCtrlState.
Inductive t : Type := off | pid | stopping | starting.
End LongCtrlState.

(** ** Module constants *)

Definition _DT : Q := 0.05.
Definition _DT_MPC : Q := _DT.
Definition RESET_PID_ON_DISENGAGE : bool := false.
Definition MAX_RADAR_DISTANCE : Q := 120.
Definition MAX_PEDAL_VALUE : Q := 100.
Definition PEDAL_HYST_GAP : Q := 1.
Definition PEDAL_MAX_UP : Q := MAX_PEDAL_VALUE * _DT / 2.
Definition PEDAL_MAX_DOWN : Q := MAX_PEDAL_VALUE * _DT / 0.4.
Definition MIN_SAFE_DIST_M : Q := 6.
Definition TORQUE_LEVEL_ACC : Q := 0.
Definition TORQUE_LEVEL_DECEL : Q := -30.
Definition MIN_PCC_V_KPH : Q := 0.
Definition MAX_PCC_V_KPH : Q := 270.
Definition ANGLE_STOP_ACCEL : Q := 10.
Definition MIN_CAN_SPEED : Q := 0.3.
Definition STALK_DOUBLE_PULL_MS : Z := 750.

Module PCCState.
Definition OFF : Z := 0.
Definition STANDBY : Z := 1.
Definition ENABLED : Z := 2.
Definition NOT_READY : Z := 9.
End PCCState.

(** ** Inputs *)

(** The lead of a radarState message. *)
Module Lead.
Record t : Type := mk {
  dRel : Q;
  vRel : Q;
  aRel : Q;
  vLeadK : Q;
  aLeadK : Q;
  status : bool
}.
End Lead.

(** liveMapData. *)
Module MapData.
Record t : Type := mk {
  curvatureValid : bool;
  curvature : Q;
  distToTurn : Q
}.
End MapData.

(** The car state [CS], with the fields the module reads.  [button_label2]
    is [CS.cstm_btns.get_button_label2("pedal")], the mode chosen in the UI;
    [CP_startAccel] is [CS.CP.startAccel]. *)
Module CS.
Record t : Type := mk {
  v_ego : Q;
  a_ego : Q;
  angle_steers : Q;
  torqueLevel : Q;
  brake_pressed : bool;
  imperial_speed_units : bool;
  forcePedalOverCC : bool;
  useTeslaRadar : bool;
  useWithoutHarness : bool;
  turn_signal_blinking : bool;
  cruise_buttons : CruiseButtons.t;
  pcm_acc_status : Z;
  pedal_interceptor_state : Z;
  pedal_interceptor_value : Q;
  pedal_idx : Z;
  prev_pedal_idx : Z;
  apFollowTimeInS : Q;
  teslaModel : string;
  button_label2 : string;
  CP_startAccel : Q
}.

(** The car state with another mode chosen in the UI. *)
Definition set_button_label2 (cs : t) (l : string) : t :=
  mk (v_ego cs) (a_ego cs) (angle_steers cs) (torqueLevel cs) (brake_pressed cs)
    (imperial_speed_units cs) (forcePedalOverCC cs) (useTeslaRadar cs)
    (useWithoutHarness cs) (turn_signal_blinking cs) (cruise_buttons cs)
    (pcm_acc_status cs) (pedal_interceptor_state cs) (pedal_interceptor_value cs)
    (pedal_idx cs) (prev_pedal_idx cs) (apFollowTimeInS cs) (teslaModel cs) l
    (CP_startAccel cs).
End CS.

(** ** UI modes *)

Inductive Mode : Type := OpMode | FollowMode.

Definition label (m : Mode) : string :=
  match m with
  | OpMode => "OP"
  | FollowMode => "FOLLOW"
  end.

Module PCCModes.
Definition _all_modes : list Mode := [OpMode; FollowMode].

Definition from_label (l : string) : Mode :=
  match find (fun m => String.eqb (label m) l) _all_modes with
  | Some m => m
  | None => OpMode
  end.

Definition from_buttons (cs : CS.t) : Mode := from_label (CS.button_label2 cs).

Definition is_selected (mode : Mode) (cs : CS.t) : bool :=
  String.eqb (label mode) (label (from_buttons cs)).
End PCCModes.

(** ** Envelope helpers *)

Definition _interp_map (val : Q) (val_map : list (Q * Q)) : Q :=
  interp val (map fst val_map) (map snd val_map).

Definition _visual_radar_adjusted_dist_m (m : Q) (cs : CS.t) : Q :=
  _interp_map m [(7, 0); (1000, 1000)].

Definition _safe_distance_m (v_ego_ms : Q) (cs : CS.t) : Q :=
  pmax (CS.apFollowTimeInS cs * (v_ego_ms + 1)) MIN_SAFE_DIST_M.

Definition _is_present (lead : option Lead.t) : bool :=
  match lead with
  | None => false
  | Some l => 0 <? Lead.dRel l
  end.

Definition _max_safe_speed_kph (lead : option Lead.t) (cs : CS.t) : res Q :=
  match lead with
  | Some l =>
      if _is_present lead then
        q <- py_div (Lead.dRel l - _safe_distance_m (CS.v_ego cs) cs)
                    (CS.apFollowTimeInS cs) ;;
        Ok ((CS.v_ego cs + Lead.vRel l + q) * CV.MS_TO_KPH)
      else Ok MAX_PCC_V_KPH
  | None => Ok MAX_PCC_V_KPH
  end.

Definition _min_safe_vrel_kph (l : Lead.t) (cs : CS.t) (actual_speed_kph : Q) : Q :=
  let m := Lead.dRel l in
  if actual_speed_kph <? Lead.vLeadK l * CV.MS_TO_KPH then -100
  else _interp_map m [(MIN_SAFE_DIST_M, 2); (100, -25); (1000, -50)].

Definition _sec_til_collision (lead : option Lead.t) (cs : CS.t) : res Q :=
  match lead with
  | Some l =>
      if _is_present lead && (Lead.vRel l <? 0) then
        if CS.useTeslaRadar cs then
          q <- py_div (Lead.dRel l)
                 (pabs (Lead.vRel l + pmin 0 (Lead.aRel l) * CS.apFollowTimeInS cs)) ;;
          Ok (pmin 0.1 (-4 + q))
        else
          py_div (_visual_radar_adjusted_dist_m (Lead.dRel l) cs)
                 (pabs (Lead.vRel l + pmin 0 (Lead.aRel l) * CS.apFollowTimeInS cs))
      else Ok 60
  | None => Ok 60
  end.

Definition _accel_limit_multiplier (cs : CS.t) (lead : option Lead.t) : Q :=
  let accel_by_speed :=
    if String.eqb (CS.teslaModel cs) "SP" || String.eqb (CS.teslaModel cs) "SPD"
    then [(0, 0.985); (10, 0.975); (20, 0.95); (30, 0.9)]
    else [(0, 0.95); (10, 0.95); (20, 0.925); (30, 0.875)] in
  let accel_mult := _interp_map (CS.v_ego cs) accel_by_speed in
  match lead with
  | Some l =>
      if _is_present lead then
        let safe_dist_m := _safe_distance_m (CS.v_ego cs) cs in
        let accel_multipliers :=
          [(0.6 * safe_dist_m, 0.15); (1.0 * safe_dist_m, 0.2);
           (3.0 * safe_dist_m, 0.4)] in
        let vrel_multipliers := [(0, 1); (10, 1.5)] in
        pmin (accel_mult * _interp_map (Lead.vRel l) vrel_multipliers
                         * _interp_map (Lead.dRel l) accel_multipliers) 1
      else pmin (accel_mult * 0.4) 1
  | None => pmin (accel_mult * 0.4) 1
  end.

Definition _decel_limit (accel_min v_ego : Q) (lead : option Lead.t) (cs : CS.t)
    (max_speed_kph : Q) : res Q :=
  let safe_dist_m := _safe_distance_m v_ego cs in
  let max_speed_mult :=
    if max_speed_kph <? v_ego * CV.MS_TO_KPH then
      let overshot := v_ego * CV.MS_TO_KPH - max_speed_kph in
      if 5 <=? overshot then 2
      else if 2 <=? overshot then 1.5
      else 1
    else 1 in
  match lead with
  | Some l =>
      if _is_present lead then
        stc <- _sec_til_collision lead cs ;;
        let time_to_brake := pmax 0.1 stc in
        if (0 <? Lead.dRel l) && (Lead.dRel l <? MIN_SAFE_DIST_M) then Ok (-100)
        else if (0.1 * v_ego <=? Lead.vRel l) && (Lead.aRel l <? 0.5)
                && (Lead.dRel l <=? 1.1 * safe_dist_m) then
          Ok (-2 + Lead.aRel l)
        else if (Lead.vRel l <=? 0.1 * v_ego) && (Lead.aLeadK l <? 0.5)
                && (Lead.dRel l <=? 1.1 * safe_dist_m) then
          q <- py_div (3 * Lead.vRel l) time_to_brake ;;
          let accel_to_compensate := pmin q (-0.7) in
          Ok (-2 + Lead.aRel l + accel_to_compensate)
        else if (Lead.vRel l <? -0.1 * v_ego)
                && (Lead.dRel l <=? 1.1 * safe_dist_m) then
          q <- py_div (2 * Lead.vRel l) time_to_brake ;;
          Ok (-3 + q)
        else
          let decel_map := [(0, 10); (4, 1); (7, 0.5); (10, 0.3)] in
          let decel_speed_map := [(0, 10); (4, 5); (7, 2.5); (10, 1)] in
          stc' <- _sec_til_collision lead cs ;;
          Ok (accel_min * max_speed_mult * _interp_map stc' decel_map
              * _interp_map v_ego decel_speed_map)
      else Ok (accel_min * 0.5 * max_speed_mult)
  | None => Ok (accel_min * 0.5 * max_speed_mult)
  end.

Definition _brake_pedal_min (v_ego v_target : Q) (lead : option Lead.t) (cs : CS.t)
    (max_speed_kph : Q) : res Q :=
  if v_ego <=? 7 * CV.MPH_TO_MS then Ok (-1)
  else if max_speed_kph <? v_ego * CV.MS_TO_KPH then Ok (-0.8)
  else
    q <- py_div (100 * (v_ego - v_target)) v_ego ;;
    let speed_delta_perc := q in
    let brake_perc_map := [(0, 0.3); (1.5, 0.5); (5, 0.8); (7, 1); (50, 1)] in
    let brake_mult1 := _interp_map speed_delta_perc brake_perc_map in
    let brake_mult2 :=
      match lead with
      | Some l =>
          if _is_present lead then
            let safe_dist_m := _safe_distance_m (CS.v_ego cs) cs in
            _interp_map (Lead.dRel l)
              [(0.8 * safe_dist_m, 1); (1.0 * safe_dist_m, 0.6);
               (3.0 * safe_dist_m, 0.4)]
          else 0
      | None => 0
      end in
    let brake_mult := pmax brake_mult1 brake_mult2 in
    Ok (- brake_mult).

(** ** Controller state

    The fields of [PCCController] that the modelled methods read or write.
    [LoC] (the long-control object) and [fleet_speed] are objects of external
    modules: their types are parameters.  [button_status] is the status of the
    "pedal" button kept by [CS.cstm_btns], which the controller reads and
    writes.  [vTargetFuture] does not exist until the follow branch assigns
    it.  Each field has its setter. *)

Module PCC.
Section Fields.
Variables LoCt FleetSpeed : Type.

Record t : Type := mk {
  pcc_available : bool;
  prev_pcc_available : bool;
  pedal_timeout_frame : Z;
  accelerator_pedal_pressed : bool;
  prev_accelerator_pedal_pressed : bool;
  lead_1 : option Lead.t;
  enable_pedal_cruise : bool;
  stalk_pull_time_ms : Z;
  prev_stalk_pull_time_ms : Z;
  prev_pcm_acc_status : Z;
  prev_cruise_buttons : CruiseButtons.t;
  pedal_speed_kph : Q;
  speed_limit_kph : Q;
  prev_speed_limit_kph : Q;
  pedal_idx : Z;
  pedal_steady : Q;
  prev_tesla_accel : Q;
  prev_tesla_pedal : Q;
  torqueLevel_last : Q;
  prev_v_ego : Q;
  PedalForZeroTorque : Q;
  lastTorqueForPedalForZeroTorque : Q;
  v_pid : Q;
  last_output_gb : Q;
  last_speed_kph : option Q;
  v_acc_start : Q;
  a_acc_start : Q;
  v_acc : Q;
  v_acc_sol : Q;
  v_acc_future : Q;
  a_acc : Q;
  a_acc_sol : Q;
  v_cruise : Q;
  a_cruise : Q;
  vTargetFuture : option Q;
  LoC : option LoCt;
  lead_last_seen_time_ms : Z;
  continuous_lead_sightings : Z;
  fleet_speed : FleetSpeed;
  button_status : Z
}.

Definition set_pcc_available (self : t) (v : bool) : t :=
  mk v (prev_pcc_available self) (pedal_timeout_frame self) (accelerator_pedal_pressed
     self) (prev_accelerator_pedal_pressed self) (lead_1 self) (enable_pedal_cruise
     self) (stalk_pull_time_ms self) (prev_stalk_pull_time_ms self)
     (prev_pcm_acc_status self) (prev_cruise_buttons self) (pedal_speed_kph self)
     (speed_limit_kph self) (prev_speed_limit_kph self) (pedal_idx self) (pedal_steady
     self) (prev_tesla_accel self) (prev_tesla_pedal self) (torqueLevel_last self)
     (prev_v_ego self) (PedalForZeroTorque self) (lastTorqueForPedalForZeroTorque
     self) (v_pid self) (last_output_gb self) (last_speed_kph self) (v_acc_start self)
     (a_acc_start self) (v_acc self) (v_acc_sol self) (v_acc_future self) (a_acc self)
     (a_acc_sol self) (v_cruise self) (a_cruise self) (vTargetFuture self) (LoC self)
     (lead_last_seen_time_ms self) (continuous_lead_sightings self) (fleet_speed self)
     (button_status self).
Definition set_prev_pcc_available (self : t) (v : bool) : t :=
  mk (pcc_available self) v (pedal_timeout_frame self) (accelerator_pedal_pressed
     self) (prev_accelerator_pedal_pressed self) (lead_1 self) (enable_pedal_cruise
     self) (stalk_pull_time_ms self) (prev_stalk_pull_time_ms self)
     (prev_pcm_acc_status self) (prev_cruise_buttons self) (pedal_speed_kph self)
     (speed_limit_kph self) (prev_speed_limit_kph self) (pedal_idx self) (pedal_steady
     self) (prev_tesla_accel self) (prev_tesla_pedal self) (torqueLevel_last self)
     (prev_v_ego self) (PedalForZeroTorque self) (lastTorqueForPedalForZeroTorque
     self) (v_pid self) (last_output_gb self) (last_speed_kph self) (v_acc_start self)
     (a_acc_start self) (v_acc self) (v_acc_sol self) (v_acc_future self) (a_acc self)
     (a_acc_sol self) (v_cruise self) (a_cruise self) (vTargetFuture self) (LoC self)
     (lead_last_seen_time_ms self) (continuous_lead_sightings self) (fleet_speed self)
     (button_status self).
Definition set_pedal_timeout_frame (self : t) (v : Z) : t :=
  mk (pcc_available self) (prev_pcc_available self) v (accelerator_pedal_pressed self)
     (prev_accelerator_pedal_pressed self) (lead_1 self) (enable_pedal_cruise self)
     (stalk_pull_time_ms self) (prev_stalk_pull_time_ms self) (prev_pcm_acc_status
     self) (prev_cruise_buttons self) (pedal_speed_kph self) (speed_limit_kph self)
     (prev_speed_limit_kph self) (pedal_idx self) (pedal_steady self)
     (prev_tesla_accel self) (prev_tesla_pedal self) (torqueLevel_last self)
     (prev_v_ego self) (PedalForZeroTorque self) (lastTorqueForPedalForZeroTorque
     self) (v_pid self) (last_output_gb self) (last_speed_kph self) (v_acc_start self)
     (a_acc_start self) (v_acc self) (v_acc_sol self) (v_acc_future self) (a_acc self)
     (a_acc_sol self) (v_cruise self) (a_cruise self) (vTargetFuture self) (LoC self)
     (lead_last_seen_time_ms self) (continuous_lead_sightings self) (fleet_speed self)
     (button_status self).
Definition set_accelerator_pedal_pressed (self : t) (v : bool) : t :=
  mk (pcc_available self) (prev_pcc_available self) (pedal_timeout_frame self) v
     (prev_accelerator_pedal_pressed self) (lead_1 self) (enable_pedal_cruise self)
     (stalk_pull_time_ms self) (prev_stalk_pull_time_ms self) (prev_pcm_acc_status
     self) (prev_cruise_buttons self) (pedal_speed_kph self) (speed_limit_kph self)
     (prev_speed_limit_kph self) (pedal_idx self) (pedal_steady self)
     (prev_tesla_accel self) (prev_tesla_pedal self) (torqueLevel_last self)
     (prev_v_ego self) (PedalForZeroTorque self) (lastTorqueForPedalForZeroTorque
     self) (v_pid self) (last_output_gb self) (last_speed_kph self) (v_acc_start self)
     (a_acc_start self) (v_acc self) (v_acc_sol self) (v_acc_future self) (a_acc self)
     (a_acc_sol self) (v_cruise self) (a_cruise self) (vTargetFuture self) (LoC self)
     (lead_last_seen_time_ms self) (continuous_lead_sightings self) (fleet_speed self)
     (button_status self).
Definition set_prev_accelerator_pedal_pressed (self : t) (v : bool) : t :=
  mk (pcc_available self) (prev_pcc_available self) (pedal_timeout_frame self)
     (accelerator_pedal_pressed self) v (lead_1 self) (enable_pedal_cruise self)
     (stalk_pull_time_ms self) (prev_stalk_pull_time_ms self) (prev_pcm_acc_status
     self) (prev_cruise_buttons self) (pedal_speed_kph self) (speed_limit_kph self)
     (prev_speed_limit_kph self) (pedal_idx self) (pedal_steady self)
     (prev_tesla_accel self) (prev_tesla_pedal self) (torqueLevel_last self)
     (prev_v_ego self) (PedalForZeroTorque self) (lastTorqueForPedalForZeroTorque
     self) (v_pid self) (last_output_gb self) (last_speed_kph self) (v_acc_start self)
     (a_acc_start self) (v_acc self) (v_acc_sol self) (v_acc_future self) (a_acc self)
     (a_acc_sol self) (v_cruise self) (a_cruise self) (vTargetFuture self) (LoC self)
     (lead_last_seen_time_ms self) (continuous_lead_sightings self) (fleet_speed self)
     (button_status self).
Definition set_lead_1 (self : t) (v : option Lead.t) : t :=
  mk (pcc_available self) (prev_pcc_available self) (pedal_timeout_frame self)
     (accelerator_pedal_pressed self) (prev_accelerator_pedal_pressed self) v
     (enable_pedal_cruise self) (stalk_pull_time_ms self) (prev_stalk_pull_time_ms
     self) (prev_pcm_acc_status self) (prev_cruise_buttons self) (pedal_speed_kph
     self) (speed_limit_kph self) (prev_speed_limit_kph self) (pedal_idx self)
     (pedal_steady self) (prev_tesla_accel self) (prev_tesla_pedal self)
     (torqueLevel_last self) (prev_v_ego self) (PedalForZeroTorque self)
     (lastTorqueForPedalForZeroTorque self) (v_pid self) (last_output_gb self)
     (last_speed_kph self) (v_acc_start self) (a_acc_start self) (v_acc self)
     (v_acc_sol self) (v_acc_future self) (a_acc self) (a_acc_sol self) (v_cruise
     self) (a_cruise self) (vTargetFuture self) (LoC self) (lead_last_seen_time_ms
     self) (continuous_lead_sightings self) (fleet_speed self) (button_status self).
Definition set_enable_pedal_cruise (self : t) (v : bool) : t :=
  mk (pcc_available self) (prev_pcc_available self) (pedal_timeout_frame self)
     (accelerator_pedal_pressed self) (prev_accelerator_pedal_pressed self) (lead_1
     self) v (stalk_pull_time_ms self) (prev_stalk_pull_time_ms self)
     (prev_pcm_acc_status self) (prev_cruise_buttons self) (pedal_speed_kph self)
     (speed_limit_kph self) (prev_speed_limit_kph self) (pedal_idx self) (pedal_steady
     self) (prev_tesla_accel self) (prev_tesla_pedal self) (torqueLevel_last self)
     (prev_v_ego self) (PedalForZeroTorque self) (lastTorqueForPedalForZeroTorque
     self) (v_pid self) (last_output_gb self) (last_speed_kph self) (v_acc_start self)
     (a_acc_start self) (v_acc self) (v_acc_sol self) (v_acc_future self) (a_acc self)
     (a_acc_sol self) (v_cruise self) (a_cruise self) (vTargetFuture self) (LoC self)
     (lead_last_seen_time_ms self) (continuous_lead_sightings self) (fleet_speed self)
     (button_status self).
Definition set_stalk_pull_time_ms (self : t) (v : Z) : t :=
  mk (pcc_available self) (prev_pcc_available self) (pedal_timeout_frame self)
     (accelerator_pedal_pressed self) (prev_accelerator_pedal_pressed self) (lead_1
     self) (enable_pedal_cruise self) v (prev_stalk_pull_time_ms self)
     (prev_pcm_acc_status self) (prev_cruise_buttons self) (pedal_speed_kph self)
     (speed_limit_kph self) (prev_speed_limit_kph self) (pedal_idx self) (pedal_steady
     self) (prev_tesla_accel self) (prev_tesla_pedal self) (torqueLevel_last self)
     (prev_v_ego self) (PedalForZeroTorque self) (lastTorqueForPedalForZeroTorque
     self) (v_pid self) (last_output_gb self) (last_speed_kph self) (v_acc_start self)
     (a_acc_start self) (v_acc self) (v_acc_sol self) (v_acc_future self) (a_acc self)
     (a_acc_sol self) (v_cruise self) (a_cruise self) (vTargetFuture self) (LoC self)
     (lead_last_seen_time_ms self) (continuous_lead_sightings self) (fleet_speed self)
     (button_status self).
Definition set_prev_stalk_pull_time_ms (self : t) (v : Z) : t :=
  mk (pcc_available self) (prev_pcc_available self) (pedal_timeout_frame self)
     (accelerator_pedal_pressed self) (prev_accelerator_pedal_pressed self) (lead_1
     self) (enable_pedal_cruise self) (stalk_pull_time_ms self) v (prev_pcm_acc_status
     self) (prev_cruise_buttons self) (pedal_speed_kph self) (speed_limit_kph self)
     (prev_speed_limit_kph self) (pedal_idx self) (pedal_steady self)
     (prev_tesla_accel self) (prev_tesla_pedal self) (torqueLevel_last self)
     (prev_v_ego self) (PedalForZeroTorque self) (lastTorqueForPedalForZeroTorque
     self) (v_pid self) (last_output_gb self) (last_speed_kph self) (v_acc_start self)
     (a_acc_start self) (v_acc self) (v_acc_sol self) (v_acc_future self) (a_acc self)
     (a_acc_sol self) (v_cruise self) (a_cruise self) (vTargetFuture self) (LoC self)
     (lead_last_seen_time_ms self) (continuous_lead_sightings self) (fleet_speed self)
     (button_status self).
Definition set_prev_pcm_acc_status (self : t) (v : Z) : t :=
  mk (pcc_available self) (prev_pcc_available self) (pedal_timeout_frame self)
     (accelerator_pedal_pressed self) (prev_accelerator_pedal_pressed self) (lead_1
     self) (enable_pedal_cruise self) (stalk_pull_time_ms self)
     (prev_stalk_pull_time_ms self) v (prev_cruise_buttons self) (pedal_speed_kph
     self) (speed_limit_kph self) (prev_speed_limit_kph self) (pedal_idx self)
     (pedal_steady self) (prev_tesla_accel self) (prev_tesla_pedal self)
     (torqueLevel_last self) (prev_v_ego self) (PedalForZeroTorque self)
     (lastTorqueForPedalForZeroTorque self) (v_pid self) (last_output_gb self)
     (last_speed_kph self) (v_acc_start self) (a_acc_start self) (v_acc self)
     (v_acc_sol self) (v_acc_future self) (a_acc self) (a_acc_sol self) (v_cruise
     self) (a_cruise self) (vTargetFuture self) (LoC self) (lead_last_seen_time_ms
     self) (continuous_lead_sightings self) (fleet_speed self) (button_status self).
Definition set_prev_cruise_buttons (self : t) (v : CruiseButtons.t) : t :=
  mk (pcc_available self) (prev_pcc_available self) (pedal_timeout_frame self)
     (accelerator_pedal_pressed self) (prev_accelerator_pedal_pressed self) (lead_1
     self) (enable_pedal_cruise self) (stalk_pull_time_ms self)
     (prev_stalk_pull_time_ms self) (prev_pcm_acc_status self) v (pedal_speed_kph
     self) (speed_limit_kph self) (prev_speed_limit_kph self) (pedal_idx self)
     (pedal_steady self) (prev_tesla_accel self) (prev_tesla_pedal self)
     (torqueLevel_last self) (prev_v_ego self) (PedalForZeroTorque self)
     (lastTorqueForPedalForZeroTorque self) (v_pid self) (last_output_gb self)
     (last_speed_kph self) (v_acc_start self) (a_acc_start self) (v_acc self)
     (v_acc_sol self) (v_acc_future self) (a_acc self) (a_acc_sol self) (v_cruise
     self) (a_cruise self) (vTargetFuture self) (LoC self) (lead_last_seen_time_ms
     self) (continuous_lead_sightings self) (fleet_speed self) (button_status self).
Definition set_pedal_speed_kph (self : t) (v : Q) : t :=
  mk (pcc_available self) (prev_pcc_available self) (pedal_timeout_frame self)
     (accelerator_pedal_pressed self) (prev_accelerator_pedal_pressed self) (lead_1
     self) (enable_pedal_cruise self) (stalk_pull_time_ms self)
     (prev_stalk_pull_time_ms self) (prev_pcm_acc_status self) (prev_cruise_buttons
     self) v (speed_limit_kph self) (prev_speed_limit_kph self) (pedal_idx self)
     (pedal_steady self) (prev_tesla_accel self) (prev_tesla_pedal self)
     (torqueLevel_last self) (prev_v_ego self) (PedalForZeroTorque self)
     (lastTorqueForPedalForZeroTorque self) (v_pid self) (last_output_gb self)
     (last_speed_kph self) (v_acc_start self) (a_acc_start self) (v_acc self)
     (v_acc_sol self) (v_acc_future self) (a_acc self) (a_acc_sol self) (v_cruise
     self) (a_cruise self) (vTargetFuture self) (LoC self) (lead_last_seen_time_ms
     self) (continuous_lead_sightings self) (fleet_speed self) (button_status self).
Definition set_speed_limit_kph (self : t) (v : Q) : t :=
  mk (pcc_available self) (prev_pcc_available self) (pedal_timeout_frame self)
     (accelerator_pedal_pressed self) (prev_accelerator_pedal_pressed self) (lead_1
     self) (enable_pedal_cruise self) (stalk_pull_time_ms self)
     (prev_stalk_pull_time_ms self) (prev_pcm_acc_status self) (prev_cruise_buttons
     self) (pedal_speed_kph self) v (prev_speed_limit_kph self) (pedal_idx self)
     (pedal_steady self) (prev_tesla_accel self) (prev_tesla_pedal self)
     (torqueLevel_last self) (prev_v_ego self) (PedalForZeroTorque self)
     (lastTorqueForPedalForZeroTorque self) (v_pid self) (last_output_gb self)
     (last_speed_kph self) (v_acc_start self) (a_acc_start self) (v_acc self)
     (v_acc_sol self) (v_acc_future self) (a_acc self) (a_acc_sol self) (v_cruise
     self) (a_cruise self) (vTargetFuture self) (LoC self) (lead_last_seen_time_ms
     self) (continuous_lead_sightings self) (fleet_speed self) (button_status self).
Definition set_prev_speed_limit_kph (self : t) (v : Q) : t :=
  mk (pcc_available self) (prev_pcc_available self) (pedal_timeout_frame self)
     (accelerator_pedal_pressed self) (prev_accelerator_pedal_pressed self) (lead_1
     self) (enable_pedal_cruise self) (stalk_pull_time_ms self)
     (prev_stalk_pull_time_ms self) (prev_pcm_acc_status self) (prev_cruise_buttons
     self) (pedal_speed_kph self) (speed_limit_kph self) v (pedal_idx self)
     (pedal_steady self) (prev_tesla_accel self) (prev_tesla_pedal self)
     (torqueLevel_last self) (prev_v_ego self) (PedalForZeroTorque self)
     (lastTorqueForPedalForZeroTorque self) (v_pid self) (last_output_gb self)
     (last_speed_kph self) (v_acc_start self) (a_acc_start self) (v_acc self)
     (v_acc_sol self) (v_acc_future self) (a_acc self) (a_acc_sol self) (v_cruise
     self) (a_cruise self) (vTargetFuture self) (LoC self) (lead_last_seen_time_ms
     self) (continuous_lead_sightings self) (fleet_speed self) (button_status self).
Definition set_pedal_idx (self : t) (v : Z) : t :=
  mk (pcc_available self) (prev_pcc_available self) (pedal_timeout_frame self)
     (accelerator_pedal_pressed self) (prev_accelerator_pedal_pressed self) (lead_1
     self) (enable_pedal_cruise self) (stalk_pull_time_ms self)
     (prev_stalk_pull_time_ms self) (prev_pcm_acc_status self) (prev_cruise_buttons
     self) (pedal_speed_kph self) (speed_limit_kph self) (prev_speed_limit_kph self) v
     (pedal_steady self) (prev_tesla_accel self) (prev_tesla_pedal self)
     (torqueLevel_last self) (prev_v_ego self) (PedalForZeroTorque self)
     (lastTorqueForPedalForZeroTorque self) (v_pid self) (last_output_gb self)
     (last_speed_kph self) (v_acc_start self) (a_acc_start self) (v_acc self)
     (v_acc_sol self) (v_acc_future self) (a_acc self) (a_acc_sol self) (v_cruise
     self) (a_cruise self) (vTargetFuture self) (LoC self) (lead_last_seen_time_ms
     self) (continuous_lead_sightings self) (fleet_speed self) (button_status self).
Definition set_pedal_steady (self : t) (v : Q) : t :=
  mk (pcc_available self) (prev_pcc_available self) (pedal_timeout_frame self)
     (accelerator_pedal_pressed self) (prev_accelerator_pedal_pressed self) (lead_1
     self) (enable_pedal_cruise self) (stalk_pull_time_ms self)
     (prev_stalk_pull_time_ms self) (prev_pcm_acc_status self) (prev_cruise_buttons
     self) (pedal_speed_kph self) (speed_limit_kph self) (prev_speed_limit_kph self)
     (pedal_idx self) v (prev_tesla_accel self) (prev_tesla_pedal self)
     (torqueLevel_last self) (prev_v_ego self) (PedalForZeroTorque self)
     (lastTorqueForPedalForZeroTorque self) (v_pid self) (last_output_gb self)
     (last_speed_kph self) (v_acc_start self) (a_acc_start self) (v_acc self)
     (v_acc_sol self) (v_acc_future self) (a_acc self) (a_acc_sol self) (v_cruise
     self) (a_cruise self) (vTargetFuture self) (LoC self) (lead_last_seen_time_ms
     self) (continuous_lead_sightings self) (fleet_speed self) (button_status self).
Definition set_prev_tesla_accel (self : t) (v : Q) : t :=
  mk (pcc_available self) (prev_pcc_available self) (pedal_timeout_frame self)
     (accelerator_pedal_pressed self) (prev_accelerator_pedal_pressed self) (lead_1
     self) (enable_pedal_cruise self) (stalk_pull_time_ms self)
     (prev_stalk_pull_time_ms self) (prev_pcm_acc_status self) (prev_cruise_buttons
     self) (pedal_speed_kph self) (speed_limit_kph self) (prev_speed_limit_kph self)
     (pedal_idx self) (pedal_steady self) v (prev_tesla_pedal self) (torqueLevel_last
     self) (prev_v_ego self) (PedalForZeroTorque self)
     (lastTorqueForPedalForZeroTorque self) (v_pid self) (last_output_gb self)
     (last_speed_kph self) (v_acc_start self) (a_acc_start self) (v_acc self)
     (v_acc_sol self) (v_acc_future self) (a_acc self) (a_acc_sol self) (v_cruise
     self) (a_cruise self) (vTargetFuture self) (LoC self) (lead_last_seen_time_ms
     self) (continuous_lead_sightings self) (fleet_speed self) (button_status self).
Definition set_prev_tesla_pedal (self : t) (v : Q) : t :=
  mk (pcc_available self) (prev_pcc_available self) (pedal_timeout_frame self)
     (accelerator_pedal_pressed self) (prev_accelerator_pedal_pressed self) (lead_1
     self) (enable_pedal_cruise self) (stalk_pull_time_ms self)
     (prev_stalk_pull_time_ms self) (prev_pcm_acc_status self) (prev_cruise_buttons
     self) (pedal_speed_kph self) (speed_limit_kph self) (prev_speed_limit_kph self)
     (pedal_idx self) (pedal_steady self) (prev_tesla_accel self) v (torqueLevel_last
     self) (prev_v_ego self) (PedalForZeroTorque self)
     (lastTorqueForPedalForZeroTorque self) (v_pid self) (last_output_gb self)
     (last_speed_kph self) (v_acc_start self) (a_acc_start self) (v_acc self)
     (v_acc_sol self) (v_acc_future self) (a_acc self) (a_acc_sol self) (v_cruise
     self) (a_cruise self) (vTargetFuture self) (LoC self) (lead_last_seen_time_ms
     self) (continuous_lead_sightings self) (fleet_speed self) (button_status self).
Definition set_torqueLevel_last (self : t) (v : Q) : t :=
  mk (pcc_available self) (prev_pcc_available self) (pedal_timeout_frame self)
     (accelerator_pedal_pressed self) (prev_accelerator_pedal_pressed self) (lead_1
     self) (enable_pedal_cruise self) (stalk_pull_time_ms self)
     (prev_stalk_pull_time_ms self) (prev_pcm_acc_status self) (prev_cruise_buttons
     self) (pedal_speed_kph self) (speed_limit_kph self) (prev_speed_limit_kph self)
     (pedal_idx self) (pedal_steady self) (prev_tesla_accel self) (prev_tesla_pedal
     self) v (prev_v_ego self) (PedalForZeroTorque self)
     (lastTorqueForPedalForZeroTorque self) (v_pid self) (last_output_gb self)
     (last_speed_kph self) (v_acc_start self) (a_acc_start self) (v_acc self)
     (v_acc_sol self) (v_acc_future self) (a_acc self) (a_acc_sol self) (v_cruise
     self) (a_cruise self) (vTargetFuture self) (LoC self) (lead_last_seen_time_ms
     self) (continuous_lead_sightings self) (fleet_speed self) (button_status self).
Definition set_prev_v_ego (self : t) (v : Q) : t :=
  mk (pcc_available self) (prev_pcc_available self) (pedal_timeout_frame self)
     (accelerator_pedal_pressed self) (prev_accelerator_pedal_pressed self) (lead_1
     self) (enable_pedal_cruise self) (stalk_pull_time_ms self)
     (prev_stalk_pull_time_ms self) (prev_pcm_acc_status self) (prev_cruise_buttons
     self) (pedal_speed_kph self) (speed_limit_kph self) (prev_speed_limit_kph self)
     (pedal_idx self) (pedal_steady self) (prev_tesla_accel self) (prev_tesla_pedal
     self) (torqueLevel_last self) v (PedalForZeroTorque self)
     (lastTorqueForPedalForZeroTorque self) (v_pid self) (last_output_gb self)
     (last_speed_kph self) (v_acc_start self) (a_acc_start self) (v_acc self)
     (v_acc_sol self) (v_acc_future self) (a_acc self) (a_acc_sol self) (v_cruise
     self) (a_cruise self) (vTargetFuture self) (LoC self) (lead_last_seen_time_ms
     self) (continuous_lead_sightings self) (fleet_speed self) (button_status self).
Definition set_PedalForZeroTorque (self : t) (v : Q) : t :=
  mk (pcc_available self) (prev_pcc_available self) (pedal_timeout_frame self)
     (accelerator_pedal_pressed self) (prev_accelerator_pedal_pressed self) (lead_1
     self) (enable_pedal_cruise self) (stalk_pull_time_ms self)
     (prev_stalk_pull_time_ms self) (prev_pcm_acc_status self) (prev_cruise_buttons
     self) (pedal_speed_kph self) (speed_limit_kph self) (prev_speed_limit_kph self)
     (pedal_idx self) (pedal_steady self) (prev_tesla_accel self) (prev_tesla_pedal
     self) (torqueLevel_last self) (prev_v_ego self) v
     (lastTorqueForPedalForZeroTorque self) (v_pid self) (last_output_gb self)
     (last_speed_kph self) (v_acc_start self) (a_acc_start self) (v_acc self)
     (v_acc_sol self) (v_acc_future self) (a_acc self) (a_acc_sol self) (v_cruise
     self) (a_cruise self) (vTargetFuture self) (LoC self) (lead_last_seen_time_ms
     self) (continuous_lead_sightings self) (fleet_speed self) (button_status self).
Definition set_lastTorqueForPedalForZeroTorque (self : t) (v : Q) : t :=
  mk (pcc_available self) (prev_pcc_available self) (pedal_timeout_frame self)
     (accelerator_pedal_pressed self) (prev_accelerator_pedal_pressed self) (lead_1
     self) (enable_pedal_cruise self) (stalk_pull_time_ms self)
     (prev_stalk_pull_time_ms self) (prev_pcm_acc_status self) (prev_cruise_buttons
     self) (pedal_speed_kph self) (speed_limit_kph self) (prev_speed_limit_kph self)
     (pedal_idx self) (pedal_steady self) (prev_tesla_accel self) (prev_tesla_pedal
     self) (torqueLevel_last self) (prev_v_ego self) (PedalForZeroTorque self) v
     (v_pid self) (last_output_gb self) (last_speed_kph self) (v_acc_start self)
     (a_acc_start self) (v_acc self) (v_acc_sol self) (v_acc_future self) (a_acc self)
     (a_acc_sol self) (v_cruise self) (a_cruise self) (vTargetFuture self) (LoC self)
     (lead_last_seen_time_ms self) (continuous_lead_sightings self) (fleet_speed self)
     (button_status self).
Definition set_v_pid (self : t) (v : Q) : t :=
  mk (pcc_available self) (prev_pcc_available self) (pedal_timeout_frame self)
     (accelerator_pedal_pressed self) (prev_accelerator_pedal_pressed self) (lead_1
     self) (enable_pedal_cruise self) (stalk_pull_time_ms self)
     (prev_stalk_pull_time_ms self) (prev_pcm_acc_status self) (prev_cruise_buttons
     self) (pedal_speed_kph self) (speed_limit_kph self) (prev_speed_limit_kph self)
     (pedal_idx self) (pedal_steady self) (prev_tesla_accel self) (prev_tesla_pedal
     self) (torqueLevel_last self) (prev_v_ego self) (PedalForZeroTorque self)
     (lastTorqueForPedalForZeroTorque self) v (last_output_gb self) (last_speed_kph
     self) (v_acc_start self) (a_acc_start self) (v_acc self) (v_acc_sol self)
     (v_acc_future self) (a_acc self) (a_acc_sol self) (v_cruise self) (a_cruise self)
     (vTargetFuture self) (LoC self) (lead_last_seen_time_ms self)
     (continuous_lead_sightings self) (fleet_speed self) (button_status self).
Definition set_last_output_gb (self : t) (v : Q) : t :=
  mk (pcc_available self) (prev_pcc_available self) (pedal_timeout_frame self)
     (accelerator_pedal_pressed self) (prev_accelerator_pedal_pressed self) (lead_1
     self) (enable_pedal_cruise self) (stalk_pull_time_ms self)
     (prev_stalk_pull_time_ms self) (prev_pcm_acc_status self) (prev_cruise_buttons
     self) (pedal_speed_kph self) (speed_limit_kph self) (prev_speed_limit_kph self)
     (pedal_idx self) (pedal_steady self) (prev_tesla_accel self) (prev_tesla_pedal
     self) (torqueLevel_last self) (prev_v_ego self) (PedalForZeroTorque self)
     (lastTorqueForPedalForZeroTorque self) (v_pid self) v (last_speed_kph self)
     (v_acc_start self) (a_acc_start self) (v_acc self) (v_acc_sol self) (v_acc_future
     self) (a_acc self) (a_acc_sol self) (v_cruise self) (a_cruise self)
     (vTargetFuture self) (LoC self) (lead_last_seen_time_ms self)
     (continuous_lead_sightings self) (fleet_speed self) (button_status self).
Definition set_last_speed_kph (self : t) (v : option Q) : t :=
  mk (pcc_available self) (prev_pcc_available self) (pedal_timeout_frame self)
     (accelerator_pedal_pressed self) (prev_accelerator_pedal_pressed self) (lead_1
     self) (enable_pedal_cruise self) (stalk_pull_time_ms self)
     (prev_stalk_pull_time_ms self) (prev_pcm_acc_status self) (prev_cruise_buttons
     self) (pedal_speed_kph self) (speed_limit_kph self) (prev_speed_limit_kph self)
     (pedal_idx self) (pedal_steady self) (prev_tesla_accel self) (prev_tesla_pedal
     self) (torqueLevel_last self) (prev_v_ego self) (PedalForZeroTorque self)
     (lastTorqueForPedalForZeroTorque self) (v_pid self) (last_output_gb self) v
     (v_acc_start self) (a_acc_start self) (v_acc self) (v_acc_sol self) (v_acc_future
     self) (a_acc self) (a_acc_sol self) (v_cruise self) (a_cruise self)
     (vTargetFuture self) (LoC self) (lead_last_seen_time_ms self)
     (continuous_lead_sightings self) (fleet_speed self) (button_status self).
Definition set_v_acc_start (self : t) (v : Q) : t :=
  mk (pcc_available self) (prev_pcc_available self) (pedal_timeout_frame self)
     (accelerator_pedal_pressed self) (prev_accelerator_pedal_pressed self) (lead_1
     self) (enable_pedal_cruise self) (stalk_pull_time_ms self)
     (prev_stalk_pull_time_ms self) (prev_pcm_acc_status self) (prev_cruise_buttons
     self) (pedal_speed_kph self) (speed_limit_kph self) (prev_speed_limit_kph self)
     (pedal_idx self) (pedal_steady self) (prev_tesla_accel self) (prev_tesla_pedal
     self) (torqueLevel_last self) (prev_v_ego self) (PedalForZeroTorque self)
     (lastTorqueForPedalForZeroTorque self) (v_pid self) (last_output_gb self)
     (last_speed_kph self) v (a_acc_start self) (v_acc self) (v_acc_sol self)
     (v_acc_future self) (a_acc self) (a_acc_sol self) (v_cruise self) (a_cruise self)
     (vTargetFuture self) (LoC self) (lead_last_seen_time_ms self)
     (continuous_lead_sightings self) (fleet_speed self) (button_status self).
Definition set_a_acc_start (self : t) (v : Q) : t :=
  mk (pcc_available self) (prev_pcc_available self) (pedal_timeout_frame self)
     (accelerator_pedal_pressed self) (prev_accelerator_pedal_pressed self) (lead_1
     self) (enable_pedal_cruise self) (stalk_pull_time_ms self)
     (prev_stalk_pull_time_ms self) (prev_pcm_acc_status self) (prev_cruise_buttons
     self) (pedal_speed_kph self) (speed_limit_kph self) (prev_speed_limit_kph self)
     (pedal_idx self) (pedal_steady self) (prev_tesla_accel self) (prev_tesla_pedal
     self) (torqueLevel_last self) (prev_v_ego self) (PedalForZeroTorque self)
     (lastTorqueForPedalForZeroTorque self) (v_pid self) (last_output_gb self)
     (last_speed_kph self) (v_acc_start self) v (v_acc self) (v_acc_sol self)
     (v_acc_future self) (a_acc self) (a_acc_sol self) (v_cruise self) (a_cruise self)
     (vTargetFuture self) (LoC self) (lead_last_seen_time_ms self)
     (continuous_lead_sightings self) (fleet_speed self) (button_status self).
Definition set_v_acc (self : t) (v : Q) : t :=
  mk (pcc_available self) (prev_pcc_available self) (pedal_timeout_frame self)
     (accelerator_pedal_pressed self) (prev_accelerator_pedal_pressed self) (lead_1
     self) (enable_pedal_cruise self) (stalk_pull_time_ms self)
     (prev_stalk_pull_time_ms self) (prev_pcm_acc_status self) (prev_cruise_buttons
     self) (pedal_speed_kph self) (speed_limit_kph self) (prev_speed_limit_kph self)
     (pedal_idx self) (pedal_steady self) (prev_tesla_accel self) (prev_tesla_pedal
     self) (torqueLevel_last self) (prev_v_ego self) (PedalForZeroTorque self)
     (lastTorqueForPedalForZeroTorque self) (v_pid self) (last_output_gb self)
     (last_speed_kph self) (v_acc_start self) (a_acc_start self) v (v_acc_sol self)
     (v_acc_future self) (a_acc self) (a_acc_sol self) (v_cruise self) (a_cruise self)
     (vTargetFuture self) (LoC self) (lead_last_seen_time_ms self)
     (continuous_lead_sightings self) (fleet_speed self) (button_status self).
Definition set_v_acc_sol (self : t) (v : Q) : t :=
  mk (pcc_available self) (prev_pcc_available self) (pedal_timeout_frame self)
     (accelerator_pedal_pressed self) (prev_accelerator_pedal_pressed self) (lead_1
     self) (enable_pedal_cruise self) (stalk_pull_time_ms self)
     (prev_stalk_pull_time_ms self) (prev_pcm_acc_status self) (prev_cruise_buttons
     self) (pedal_speed_kph self) (speed_limit_kph self) (prev_speed_limit_kph self)
     (pedal_idx self) (pedal_steady self) (prev_tesla_accel self) (prev_tesla_pedal
     self) (torqueLevel_last self) (prev_v_ego self) (PedalForZeroTorque self)
     (lastTorqueForPedalForZeroTorque self) (v_pid self) (last_output_gb self)
     (last_speed_kph self) (v_acc_start self) (a_acc_start self) (v_acc self) v
     (v_acc_future self) (a_acc self) (a_acc_sol self) (v_cruise self) (a_cruise self)
     (vTargetFuture self) (LoC self) (lead_last_seen_time_ms self)
     (continuous_lead_sightings self) (fleet_speed self) (button_status self).
Definition set_v_acc_future (self : t) (v : Q) : t :=
  mk (pcc_available self) (prev_pcc_available self) (pedal_timeout_frame self)
     (accelerator_pedal_pressed self) (prev_accelerator_pedal_pressed self) (lead_1
     self) (enable_pedal_cruise self) (stalk_pull_time_ms self)
     (prev_stalk_pull_time_ms self) (prev_pcm_acc_status self) (prev_cruise_buttons
     self) (pedal_speed_kph self) (speed_limit_kph self) (prev_speed_limit_kph self)
     (pedal_idx self) (pedal_steady self) (prev_tesla_accel self) (prev_tesla_pedal
     self) (torqueLevel_last self) (prev_v_ego self) (PedalForZeroTorque self)
     (lastTorqueForPedalForZeroTorque self) (v_pid self) (last_output_gb self)
     (last_speed_kph self) (v_acc_start self) (a_acc_start self) (v_acc self)
     (v_acc_sol self) v (a_acc self) (a_acc_sol self) (v_cruise self) (a_cruise self)
     (vTargetFuture self) (LoC self) (lead_last_seen_time_ms self)
     (continuous_lead_sightings self) (fleet_speed self) (button_status self).
Definition set_a_acc (self : t) (v : Q) : t :=
  mk (pcc_available self) (prev_pcc_available self) (pedal_timeout_frame self)
     (accelerator_pedal_pressed self) (prev_accelerator_pedal_pressed self) (lead_1
     self) (enable_pedal_cruise self) (stalk_pull_time_ms self)
     (prev_stalk_pull_time_ms self) (prev_pcm_acc_status self) (prev_cruise_buttons
     self) (pedal_speed_kph self) (speed_limit_kph self) (prev_speed_limit_kph self)
     (pedal_idx self) (pedal_steady self) (prev_tesla_accel self) (prev_tesla_pedal
     self) (torqueLevel_last self) (prev_v_ego self) (PedalForZeroTorque self)
     (lastTorqueForPedalForZeroTorque self) (v_pid self) (last_output_gb self)
     (last_speed_kph self) (v_acc_start self) (a_acc_start self) (v_acc self)
     (v_acc_sol self) (v_acc_future self) v (a_acc_sol self) (v_cruise self) (a_cruise
     self) (vTargetFuture self) (LoC self) (lead_last_seen_time_ms self)
     (continuous_lead_sightings self) (fleet_speed self) (button_status self).
Definition set_a_acc_sol (self : t) (v : Q) : t :=
  mk (pcc_available self) (prev_pcc_available self) (pedal_timeout_frame self)
     (accelerator_pedal_pressed self) (prev_accelerator_pedal_pressed self) (lead_1
     self) (enable_pedal_cruise self) (stalk_pull_time_ms self)
     (prev_stalk_pull_time_ms self) (prev_pcm_acc_status self) (prev_cruise_buttons
     self) (pedal_speed_kph self) (speed_limit_kph self) (prev_speed_limit_kph self)
     (pedal_idx self) (pedal_steady self) (prev_tesla_accel self) (prev_tesla_pedal
     self) (torqueLevel_last self) (prev_v_ego self) (PedalForZeroTorque self)
     (lastTorqueForPedalForZeroTorque self) (v_pid self) (last_output_gb self)
     (last_speed_kph self) (v_acc_start self) (a_acc_start self) (v_acc self)
     (v_acc_sol self) (v_acc_future self) (a_acc self) v (v_cruise self) (a_cruise
     self) (vTargetFuture self) (LoC self) (lead_last_seen_time_ms self)
     (continuous_lead_sightings self) (fleet_speed self) (button_status self).
Definition set_v_cruise (self : t) (v : Q) : t :=
  mk (pcc_available self) (prev_pcc_available self) (pedal_timeout_frame self)
     (accelerator_pedal_pressed self) (prev_accelerator_pedal_pressed self) (lead_1
     self) (enable_pedal_cruise self) (stalk_pull_time_ms self)
     (prev_stalk_pull_time_ms self) (prev_pcm_acc_status self) (prev_cruise_buttons
     self) (pedal_speed_kph self) (speed_limit_kph self) (prev_speed_limit_kph self)
     (pedal_idx self) (pedal_steady self) (prev_tesla_accel self) (prev_tesla_pedal
     self) (torqueLevel_last self) (prev_v_ego self) (PedalForZeroTorque self)
     (lastTorqueForPedalForZeroTorque self) (v_pid self) (last_output_gb self)
     (last_speed_kph self) (v_acc_start self) (a_acc_start self) (v_acc self)
     (v_acc_sol self) (v_acc_future self) (a_acc self) (a_acc_sol self) v (a_cruise
     self) (vTargetFuture self) (LoC self) (lead_last_seen_time_ms self)
     (continuous_lead_sightings self) (fleet_speed self) (button_status self).
Definition set_a_cruise (self : t) (v : Q) : t :=
  mk (pcc_available self) (prev_pcc_available self) (pedal_timeout_frame self)
     (accelerator_pedal_pressed self) (prev_accelerator_pedal_pressed self) (lead_1
     self) (enable_pedal_cruise self) (stalk_pull_time_ms self)
     (prev_stalk_pull_time_ms self) (prev_pcm_acc_status self) (prev_cruise_buttons
     self) (pedal_speed_kph self) (speed_limit_kph self) (prev_speed_limit_kph self)
     (pedal_idx self) (pedal_steady self) (prev_tesla_accel self) (prev_tesla_pedal
     self) (torqueLevel_last self) (prev_v_ego self) (PedalForZeroTorque self)
     (lastTorqueForPedalForZeroTorque self) (v_pid self) (last_output_gb self)
     (last_speed_kph self) (v_acc_start self) (a_acc_start self) (v_acc self)
     (v_acc_sol self) (v_acc_future self) (a_acc self) (a_acc_sol self) (v_cruise
     self) v (vTargetFuture self) (LoC self) (lead_last_seen_time_ms self)
     (continuous_lead_sightings self) (fleet_speed self) (button_status self).
Definition set_vTargetFuture (self : t) (v : option Q) : t :=
  mk (pcc_available self) (prev_pcc_available self) (pedal_timeout_frame self)
     (accelerator_pedal_pressed self) (prev_accelerator_pedal_pressed self) (lead_1
     self) (enable_pedal_cruise self) (stalk_pull_time_ms self)
     (prev_stalk_pull_time_ms self) (prev_pcm_acc_status self) (prev_cruise_buttons
     self) (pedal_speed_kph self) (speed_limit_kph self) (prev_speed_limit_kph self)
     (pedal_idx self) (pedal_steady self) (prev_tesla_accel self) (prev_tesla_pedal
     self) (torqueLevel_last self) (prev_v_ego self) (PedalForZeroTorque self)
     (lastTorqueForPedalForZeroTorque self) (v_pid self) (last_output_gb self)
     (last_speed_kph self) (v_acc_start self) (a_acc_start self) (v_acc self)
     (v_acc_sol self) (v_acc_future self) (a_acc self) (a_acc_sol self) (v_cruise
     self) (a_cruise self) v (LoC self) (lead_last_seen_time_ms self)
     (continuous_lead_sightings self) (fleet_speed self) (button_status self).
Definition set_LoC (self : t) (v : option LoCt) : t :=
  mk (pcc_available self) (prev_pcc_available self) (pedal_timeout_frame self)
     (accelerator_pedal_pressed self) (prev_accelerator_pedal_pressed self) (lead_1
     self) (enable_pedal_cruise self) (stalk_pull_time_ms self)
     (prev_stalk_pull_time_ms self) (prev_pcm_acc_status self) (prev_cruise_buttons
     self) (pedal_speed_kph self) (speed_limit_kph self) (prev_speed_limit_kph self)
     (pedal_idx self) (pedal_steady self) (prev_tesla_accel self) (prev_tesla_pedal
     self) (torqueLevel_last self) (prev_v_ego self) (PedalForZeroTorque self)
     (lastTorqueForPedalForZeroTorque self) (v_pid self) (last_output_gb self)
     (last_speed_kph self) (v_acc_start self) (a_acc_start self) (v_acc self)
     (v_acc_sol self) (v_acc_future self) (a_acc self) (a_acc_sol self) (v_cruise
     self) (a_cruise self) (vTargetFuture self) v (lead_last_seen_time_ms self)
     (continuous_lead_sightings self) (fleet_speed self) (button_status self).
Definition set_lead_last_seen_time_ms (self : t) (v : Z) : t :=
  mk (pcc_available self) (prev_pcc_available self) (pedal_timeout_frame self)
     (accelerator_pedal_pressed self) (prev_accelerator_pedal_pressed self) (lead_1
     self) (enable_pedal_cruise self) (stalk_pull_time_ms self)
     (prev_stalk_pull_time_ms self) (prev_pcm_acc_status self) (prev_cruise_buttons
     self) (pedal_speed_kph self) (speed_limit_kph self) (prev_speed_limit_kph self)
     (pedal_idx self) (pedal_steady self) (prev_tesla_accel self) (prev_tesla_pedal
     self) (torqueLevel_last self) (prev_v_ego self) (PedalForZeroTorque self)
     (lastTorqueForPedalForZeroTorque self) (v_pid self) (last_output_gb self)
     (last_speed_kph self) (v_acc_start self) (a_acc_start self) (v_acc self)
     (v_acc_sol self) (v_acc_future self) (a_acc self) (a_acc_sol self) (v_cruise
     self) (a_cruise self) (vTargetFuture self) (LoC self) v
     (continuous_lead_sightings self) (fleet_speed self) (button_status self).
Definition set_continuous_lead_sightings (self : t) (v : Z) : t :=
  mk (pcc_available self) (prev_pcc_available self) (pedal_timeout_frame self)
     (accelerator_pedal_pressed self) (prev_accelerator_pedal_pressed self) (lead_1
     self) (enable_pedal_cruise self) (stalk_pull_time_ms self)
     (prev_stalk_pull_time_ms self) (prev_pcm_acc_status self) (prev_cruise_buttons
     self) (pedal_speed_kph self) (speed_limit_kph self) (prev_speed_limit_kph self)
     (pedal_idx self) (pedal_steady self) (prev_tesla_accel self) (prev_tesla_pedal
     self) (torqueLevel_last self) (prev_v_ego self) (PedalForZeroTorque self)
     (lastTorqueForPedalForZeroTorque self) (v_pid self) (last_output_gb self)
     (last_speed_kph self) (v_acc_start self) (a_acc_start self) (v_acc self)
     (v_acc_sol self) (v_acc_future self) (a_acc self) (a_acc_sol self) (v_cruise
     self) (a_cruise self) (vTargetFuture self) (LoC self) (lead_last_seen_time_ms
     self) v (fleet_speed self) (button_status self).
Definition set_fleet_speed (self : t) (v : FleetSpeed) : t :=
  mk (pcc_available self) (prev_pcc_available self) (pedal_timeout_frame self)
     (accelerator_pedal_pressed self) (prev_accelerator_pedal_pressed self) (lead_1
     self) (enable_pedal_cruise self) (stalk_pull_time_ms self)
     (prev_stalk_pull_time_ms self) (prev_pcm_acc_status self) (prev_cruise_buttons
     self) (pedal_speed_kph self) (speed_limit_kph self) (prev_speed_limit_kph self)
     (pedal_idx self) (pedal_steady self) (prev_tesla_accel self) (prev_tesla_pedal
     self) (torqueLevel_last self) (prev_v_ego self) (PedalForZeroTorque self)
     (lastTorqueForPedalForZeroTorque self) (v_pid self) (last_output_gb self)
     (last_speed_kph self) (v_acc_start self) (a_acc_start self) (v_acc self)
     (v_acc_sol self) (v_acc_future self) (a_acc self) (a_acc_sol self) (v_cruise
     self) (a_cruise self) (vTargetFuture self) (LoC self) (lead_last_seen_time_ms
     self) (continuous_lead_sightings self) v (button_status self).
Definition set_button_status (self : t) (v : Z) : t :=
  mk (pcc_available self) (prev_pcc_available self) (pedal_timeout_frame self)
     (accelerator_pedal_pressed self) (prev_accelerator_pedal_pressed self) (lead_1
     self) (enable_pedal_cruise self) (stalk_pull_time_ms self)
     (prev_stalk_pull_time_ms self) (prev_pcm_acc_status self) (prev_cruise_buttons
     self) (pedal_speed_kph self) (speed_limit_kph self) (prev_speed_limit_kph self)
     (pedal_idx self) (pedal_steady self) (prev_tesla_accel self) (prev_tesla_pedal
     self) (torqueLevel_last self) (prev_v_ego self) (PedalForZeroTorque self)
     (lastTorqueForPedalForZeroTorque self) (v_pid self) (last_output_gb self)
     (last_speed_kph self) (v_acc_start self) (a_acc_start self) (v_acc self)
     (v_acc_sol self) (v_acc_future self) (a_acc self) (a_acc_sol self) (v_cruise
     self) (a_cruise self) (vTargetFuture self) (LoC self) (lead_last_seen_time_ms
     self) (continuous_lead_sightings self) (fleet_speed self) v.
End Fields.

Arguments pcc_available {LoCt FleetSpeed} _.
Arguments set_pcc_available {LoCt FleetSpeed} self v.
Arguments prev_pcc_available {LoCt FleetSpeed} _.
Arguments set_prev_pcc_available {LoCt FleetSpeed} self v.
Arguments pedal_timeout_frame {LoCt FleetSpeed} _.
Arguments set_pedal_timeout_frame {LoCt FleetSpeed} self v.
Arguments accelerator_pedal_pressed {LoCt FleetSpeed} _.
Arguments set_accelerator_pedal_pressed {LoCt FleetSpeed} self v.
Arguments prev_accelerator_pedal_pressed {LoCt FleetSpeed} _.
Arguments set_prev_accelerator_pedal_pressed {LoCt FleetSpeed} self v.
Arguments lead_1 {LoCt FleetSpeed} _.
Arguments set_lead_1 {LoCt FleetSpeed} self v.
Arguments enable_pedal_cruise {LoCt FleetSpeed} _.
Arguments set_enable_pedal_cruise {LoCt FleetSpeed} self v.
Arguments stalk_pull_time_ms {LoCt FleetSpeed} _.
Arguments set_stalk_pull_time_ms {LoCt FleetSpeed} self v.
Arguments prev_stalk_pull_time_ms {LoCt FleetSpeed} _.
Arguments set_prev_stalk_pull_time_ms {LoCt FleetSpeed} self v.
Arguments prev_pcm_acc_status {LoCt FleetSpeed} _.
Arguments set_prev_pcm_acc_status {LoCt FleetSpeed} self v.
Arguments prev_cruise_buttons {LoCt FleetSpeed} _.
Arguments set_prev_cruise_buttons {LoCt FleetSpeed} self v.
Arguments pedal_speed_kph {LoCt FleetSpeed} _.
Arguments set_pedal_speed_kph {LoCt FleetSpeed} self v.
Arguments speed_limit_kph {LoCt FleetSpeed} _.
Arguments set_speed_limit_kph {LoCt FleetSpeed} self v.
Arguments prev_speed_limit_kph {LoCt FleetSpeed} _.
Arguments set_prev_speed_limit_kph {LoCt FleetSpeed} self v.
Arguments pedal_idx {LoCt FleetSpeed} _.
Arguments set_pedal_idx {LoCt FleetSpeed} self v.
Arguments pedal_steady {LoCt FleetSpeed} _.
Arguments set_pedal_steady {LoCt FleetSpeed} self v.
Arguments prev_tesla_accel {LoCt FleetSpeed} _.
Arguments set_prev_tesla_accel {LoCt FleetSpeed} self v.
Arguments prev_tesla_pedal {LoCt FleetSpeed} _.
Arguments set_prev_tesla_pedal {LoCt FleetSpeed} self v.
Arguments torqueLevel_last {LoCt FleetSpeed} _.
Arguments set_torqueLevel_last {LoCt FleetSpeed} self v.
Arguments prev_v_ego {LoCt FleetSpeed} _.
Arguments set_prev_v_ego {LoCt FleetSpeed} self v.
Arguments PedalForZeroTorque {LoCt FleetSpeed} _.
Arguments set_PedalForZeroTorque {LoCt FleetSpeed} self v.
Arguments lastTorqueForPedalForZeroTorque {LoCt FleetSpeed} _.
Arguments set_lastTorqueForPedalForZeroTorque {LoCt FleetSpeed} self v.
Arguments v_pid {LoCt FleetSpeed} _.
Arguments set_v_pid {LoCt FleetSpeed} self v.
Arguments last_output_gb {LoCt FleetSpeed} _.
Arguments set_last_output_gb {LoCt FleetSpeed} self v.
Arguments last_speed_kph {LoCt FleetSpeed} _.
Arguments set_last_speed_kph {LoCt FleetSpeed} self v.
Arguments v_acc_start {LoCt FleetSpeed} _.
Arguments set_v_acc_start {LoCt FleetSpeed} self v.
Arguments a_acc_start {LoCt FleetSpeed} _.
Arguments set_a_acc_start {LoCt FleetSpeed} self v.
Arguments v_acc {LoCt FleetSpeed} _.
Arguments set_v_acc {LoCt FleetSpeed} self v.
Arguments v_acc_sol {LoCt FleetSpeed} _.
Arguments set_v_acc_sol {LoCt FleetSpeed} self v.
Arguments v_acc_future {LoCt FleetSpeed} _.
Arguments set_v_acc_future {LoCt FleetSpeed} self v.
Arguments a_acc {LoCt FleetSpeed} _.
Arguments set_a_acc {LoCt FleetSpeed} self v.
Arguments a_acc_sol {LoCt FleetSpeed} _.
Arguments set_a_acc_sol {LoCt FleetSpeed} self v.
Arguments v_cruise {LoCt FleetSpeed} _.
Arguments set_v_cruise {LoCt FleetSpeed} self v.
Arguments a_cruise {LoCt FleetSpeed} _.
Arguments set_a_cruise {LoCt FleetSpeed} self v.
Arguments vTargetFuture {LoCt FleetSpeed} _.
Arguments set_vTargetFuture {LoCt FleetSpeed} self v.
Arguments LoC {LoCt FleetSpeed} _.
Arguments set_LoC {LoCt FleetSpeed} self v.
Arguments lead_last_seen_time_ms {LoCt FleetSpeed} _.
Arguments set_lead_last_seen_time_ms {LoCt FleetSpeed} self v.
Arguments continuous_lead_sightings {LoCt FleetSpeed} _.
Arguments set_continuous_lead_sightings {LoCt FleetSpeed} self v.
Arguments fleet_speed {LoCt FleetSpeed} _.
Arguments set_fleet_speed {LoCt FleetSpeed} self v.
Arguments button_status {LoCt FleetSpeed} _.
Arguments set_button_status {LoCt FleetSpeed} self v.
Arguments mk {LoCt FleetSpeed}.
End PCC.

(** ** External collaborators

    The functions and objects the module imports from the rest of the system
    (planner limits, speed smoother, long control, fleet speed, cruise-state
    codes, [math.sqrt]).  They are parameters of the model; [LongControl_new]
    stands for the construction of the long-control object followed by
    [load_pid], whose outcome depends on the stored gains. *)
Record Externals (LoCt FleetSpeed : Type) : Type := {
  calc_cruise_accel_limits : Q -> bool -> Q * Q;
  limit_accel_in_turns : Q -> Q -> Q * Q -> Q * Q;
  speed_smoother : Q -> Q -> Q -> Q -> Q -> Q -> Q -> Q -> Q * Q;
  math_sqrt : Q -> Q;
  CruiseState_is_off : Z -> bool;
  LongControl_new : CS.t -> LoCt;
  long_control_state : LoCt -> LongCtrlState.t;
  LoC_update : LoCt -> bool -> Q -> Q -> Q -> Q -> LoCt * (Q * Q);
  LoC_reset : LoCt -> Q -> LoCt;
  FleetSpeed_new : Z -> FleetSpeed;
  fleet_speed_adjust : FleetSpeed -> CS.t -> Q -> Z -> FleetSpeed * Q;
  reset_averager : FleetSpeed -> FleetSpeed
}.

Arguments calc_cruise_accel_limits {LoCt FleetSpeed} _.
Arguments limit_accel_in_turns {LoCt FleetSpeed} _.
Arguments speed_smoother {LoCt FleetSpeed} _.
Arguments math_sqrt {LoCt FleetSpeed} _.
Arguments CruiseState_is_off {LoCt FleetSpeed} _.
Arguments LongControl_new {LoCt FleetSpeed} _.
Arguments long_control_state {LoCt FleetSpeed} _.
Arguments LoC_update {LoCt FleetSpeed} _.
Arguments LoC_reset {LoCt FleetSpeed} _.
Arguments FleetSpeed_new {LoCt FleetSpeed} _.
Arguments fleet_speed_adjust {LoCt FleetSpeed} _.
Arguments reset_averager {LoCt FleetSpeed} _.

(** Side-channel outputs of a cycle: alerts, the UI reconfiguration and the
    write of the gains. *)
Inductive event : Type :=
| AlertPedalTimedOut
| AlertPedalFault (state : Z)
| AlertPCCDisabled
| AlertPCCEnabled
| ConfigUiButtons (available blocked_by_cruise : bool)
| SavePid.

(** [teslacan.create_pedal_command_msg(value, enable, idx, pedalcan)]. *)
Definition pedal_msg : Type := (Q * Z * Z * Z)%type.

(** The transitions of the engagement machine, numbered as in section 4.3 of
    the spec (2 to 7).  [update_stat] records, in a ghost list, the branch
    bodies it ran; the list influences nothing. *)
Inductive Transition : Type :=
| T2_brake_disable
| T3_main_pull (engaged : bool)
| T4_cancel
| T5_speed_adjust
| T6_cruise_takeover
| T7_single_pull_disable.

Record StatOut : Type := mkStatOut {
  can_sends : list pedal_msg;
  events : list event;
  fired : list Transition
}.

Module Actuators.
Record t : Type := mk { gas : Q; brake : Q }.
End Actuators.

(** What a cycle of [update_pdl] receives from its sockets and the clock:
    the latest radarState lead and liveMapData (or none) and the time. *)
Module Env.
Record t : Type := mk {
  radSt : option Lead.t;
  mapd : option MapData.t;
  time_ms : Z
}.
End Env.

Definition max_v_in_mapped_curve_ms {LoCt FleetSpeed} (E : Externals LoCt FleetSpeed)
    (map_data : option MapData.t) (pedal_set_speed_kph : Q) : option Q :=
  match map_data with
  | Some md =>
      if MapData.curvatureValid md then
        let pedal_set_speed_ms := pedal_set_speed_kph * CV.KPH_TO_MS in
        let a_y_max := 1.85 in
        let curvature := pabs (MapData.curvature md) in
        let v_curvature_ms := math_sqrt E (a_y_max / pmax 1e-4 curvature) in
        let time_to_turn_s :=
          pmax 0 (MapData.distToTurn md / pmax pedal_set_speed_ms 1) in
        Some (_interp_map time_to_turn_s
                [(0, pedal_set_speed_ms); (8, v_curvature_ms)])
      else None
  | None => None
  end.

Section Controller.
Context {LoCt FleetSpeed : Type}.
Variable E : Externals LoCt FleetSpeed.

#[local] Abbreviation self_t := (PCC.t LoCt FleetSpeed).

(** [__init__]; [btn] is the status of the UI button at start. *)
Definition init (btn : Z) : self_t :=
  PCC.mk false false 0 false false None false 0 (-1000) 0 CruiseButtons.IDLE
    0 0 0 0 0 0 0 0 0 18 TORQUE_LEVEL_DECEL 0 0 None
    0 0 0 0 0 0 0 0 0 None None 0 0 (FleetSpeed_new E 6) btn.

(** [reset]: with [RESET_PID_ON_DISENGAGE = False] nothing is reset. *)
Definition reset (self : self_t) (v_pid : Q) : self_t :=
  match PCC.LoC self with
  | Some loc =>
      if RESET_PID_ON_DISENGAGE
      then PCC.set_LoC self (Some (LoC_reset E loc v_pid))
      else self
  | None => self
  end.

Definition _update_pedal_state (self : self_t) (cs : CS.t) (frame : Z)
    : self_t * list event :=
  let self :=
    if negb (CS.pedal_idx cs =? CS.prev_pedal_idx cs)%Z
    then PCC.set_pedal_timeout_frame self (frame + 50)%Z else self in
  let self := PCC.set_prev_pcc_available self (PCC.pcc_available self) in
  let pedal_ready :=
    (frame <? PCC.pedal_timeout_frame self)%Z
    && (CS.pedal_interceptor_state cs =? 0)%Z in
  let acc_disabled :=
    CS.forcePedalOverCC cs || CruiseState_is_off E (CS.pcm_acc_status cs) in
  let self := PCC.set_pcc_available self (pedal_ready && acc_disabled) in
  if negb (Bool.eqb (PCC.pcc_available self) (PCC.prev_pcc_available self))
  then (self, [ConfigUiButtons (PCC.pcc_available self)
                 (pedal_ready && negb acc_disabled)])
  else (self, []).

(** The speed shown to the driver: [int(v_ego * MS_TO_KPH / uom + 0.5) * uom].
    The argument of [int] is computed in binary64, whose rounding decides the
    integer at half-unit speeds. *)
Definition speed_kph_uom_rounded (cs : CS.t) (speed_uom_kph : Q) : Q :=
  inject_Z (py_int (fadd (fdiv (fmul (CS.v_ego cs) CV.MS_TO_KPH) speed_uom_kph)
                         0.5))
  * speed_uom_kph.

(** The chain of stalk and button transitions of [update_stat]
    (the if / elif chain after the brake check). *)
Definition stalk_chain (self : self_t) (cs : CS.t) (curr_time_ms : Z)
    : self_t * list Transition :=
  let speed_uom_kph := if CS.imperial_speed_units cs then CV.MPH_TO_KPH else 1 in
  if CruiseButtons.eqb (CS.cruise_buttons cs) CruiseButtons.MAIN
     && negb (CruiseButtons.eqb (PCC.prev_cruise_buttons self) CruiseButtons.MAIN)
  then
    let self := PCC.set_prev_stalk_pull_time_ms self (PCC.stalk_pull_time_ms self) in
    let self := PCC.set_stalk_pull_time_ms self curr_time_ms in
    let double_pull :=
      (PCC.stalk_pull_time_ms self - PCC.prev_stalk_pull_time_ms self
       <? STALK_DOUBLE_PULL_MS)%Z in
    let ready :=
      (PCCState.OFF <? PCC.button_status self)%Z
      && CruiseState_is_off E (CS.pcm_acc_status cs)
      || CS.forcePedalOverCC cs in
    if ready && double_pull then
      let self := PCC.set_enable_pedal_cruise self true in
      let self := reset self (CS.v_ego cs) in
      let current_speed_kph_uom_rounded := speed_kph_uom_rounded cs speed_uom_kph in
      let self :=
        PCC.set_pedal_speed_kph self
          (pmax current_speed_kph_uom_rounded (PCC.speed_limit_kph self)) in
      (self, [T3_main_pull true])
    else (self, [T3_main_pull false])
  else if CruiseButtons.eqb (CS.cruise_buttons cs) CruiseButtons.CANCEL then
    let self := PCC.set_enable_pedal_cruise self false in
    let self := PCC.set_pedal_speed_kph self 0 in
    let self := PCC.set_stalk_pull_time_ms self 0 in
    let self := PCC.set_prev_stalk_pull_time_ms self (-1000) in
    (self, [T4_cancel])
  else if PCC.enable_pedal_cruise self
          && negb (CruiseButtons.eqb (CS.cruise_buttons cs)
                     (PCC.prev_cruise_buttons self)) then
    let actual_speed_kph_uom_rounded := speed_kph_uom_rounded cs speed_uom_kph in
    let self :=
      match CS.cruise_buttons cs with
      | CruiseButtons.RES_ACCEL =>
          PCC.set_pedal_speed_kph self
            (pmax (PCC.pedal_speed_kph self) actual_speed_kph_uom_rounded
             + speed_uom_kph)
      | CruiseButtons.RES_ACCEL_2ND =>
          PCC.set_pedal_speed_kph self
            (pmax (PCC.pedal_speed_kph self) actual_speed_kph_uom_rounded
             + 5 * speed_uom_kph)
      | CruiseButtons.DECEL_SET =>
          PCC.set_pedal_speed_kph self (PCC.pedal_speed_kph self - speed_uom_kph)
      | CruiseButtons.DECEL_2ND =>
          PCC.set_pedal_speed_kph self
            (PCC.pedal_speed_kph self - 5 * speed_uom_kph)
      | _ => self
      end in
    let self :=
      PCC.set_pedal_speed_kph self
        (clip (PCC.pedal_speed_kph self) MIN_PCC_V_KPH MAX_PCC_V_KPH) in
    (self, [T5_speed_adjust])
  else if PCC.enable_pedal_cruise self
          && negb (CS.pcm_acc_status cs =? 0)%Z
          && negb (CS.forcePedalOverCC cs) then
    (PCC.set_enable_pedal_cruise self false, [T6_cruise_takeover])
  else if PCC.enable_pedal_cruise self
          && (STALK_DOUBLE_PULL_MS <? curr_time_ms - PCC.stalk_pull_time_ms self)%Z
          && (STALK_DOUBLE_PULL_MS
              <? PCC.stalk_pull_time_ms self - PCC.prev_stalk_pull_time_ms self)%Z
  then
    (PCC.set_enable_pedal_cruise self false, [T7_single_pull_disable])
  else (self, []).

(** The notifications and the UI status at the end of [update_stat]. *)
Definition notify_toggle (self : self_t) (cs : CS.t) (prev_enable_pedal_cruise : bool)
    : self_t * list event :=
  let '(self, ev) :=
    if prev_enable_pedal_cruise && negb (PCC.enable_pedal_cruise self) then
      let self := PCC.set_button_status self PCCState.STANDBY in
      let self := PCC.set_fleet_speed self (reset_averager E (PCC.fleet_speed self)) in
      (self, [AlertPCCDisabled; SavePid])
    else if PCC.enable_pedal_cruise self && negb prev_enable_pedal_cruise then
      (PCC.set_button_status self PCCState.ENABLED, [AlertPCCEnabled])
    else (self, []) in
  let self :=
    if (PCC.button_status self =? PCCState.STANDBY)%Z
       || (PCC.button_status self =? PCCState.NOT_READY)%Z then
      if CruiseState_is_off E (CS.pcm_acc_status cs) || CS.forcePedalOverCC cs
      then PCC.set_button_status self PCCState.STANDBY
      else PCC.set_button_status self PCCState.NOT_READY
    else self in
  (self, ev).

(** The creation of the long-control object on the first cycle. *)
Definition ensure_LoC (self : self_t) (cs : CS.t) : self_t :=
  match PCC.LoC self with
  | None => PCC.set_LoC self (Some (LongControl_new E cs))
  | Some _ => self
  end.

(** "disable on brake", the check before the chain. *)
Definition brake_check (self : self_t) (cs : CS.t) : self_t * list Transition :=
  if CS.brake_pressed cs && PCC.enable_pedal_cruise self then
    (reset (PCC.set_enable_pedal_cruise self false) 0, [T2_brake_disable])
  else (self, []).

(** The cycle when the pedal path is not available: the periodic reset
command, no driver input. *)
Definition unavailable_cycle (self : self_t) (cs : CS.t) (frame : Z)
    (ev0 : list event) : self_t * StatOut :=
  let timed_out := (PCC.pedal_timeout_frame self <=? frame)%Z in
  if timed_out || (0 <? CS.pedal_interceptor_state cs)%Z then
    let ev1 :=
      if PCC.prev_pcc_available self then
        [if timed_out then AlertPedalTimedOut
         else AlertPedalFault (CS.pedal_interceptor_state cs)]
      else [] in
    if (frame mod 50 =? 0)%Z then
      let idx := PCC.pedal_idx self in
      let self := PCC.set_pedal_idx self ((PCC.pedal_idx self + 1) mod 16)%Z in
      let pedalcan := if CS.useWithoutHarness cs then 0%Z else 2%Z in
      (self, mkStatOut [(0, 0%Z, idx, pedalcan)] (ev0 ++ ev1) [])
    else (self, mkStatOut [] (ev0 ++ ev1) [])
  else (self, mkStatOut [] ev0 []).

(** [update_stat(CS, frame)]; [curr_time_ms] is what [_current_time_millis()]
returns in the cycle. *)
Definition update_stat (self : self_t) (cs : CS.t) (frame : Z) (curr_time_ms : Z)
    : self_t * StatOut :=
  let self := ensure_LoC self cs in
  let '(self, ev0) := _update_pedal_state self cs frame in
  if negb (PCC.pcc_available self) then unavailable_cycle self cs frame ev0
  else
    let prev_enable_pedal_cruise := PCC.enable_pedal_cruise self in
    let '(self, f2) := brake_check self cs in
    let '(self, f3) := stalk_chain self cs curr_time_ms in
    let '(self, ev2) := notify_toggle self cs prev_enable_pedal_cruise in
    let self := PCC.set_prev_cruise_buttons self (CS.cruise_buttons cs) in
    let self := PCC.set_prev_pcm_acc_status self (CS.pcm_acc_status cs) in
    (self, mkStatOut [] (ev0 ++ ev2) (f2 ++ f3)).

(** *** The follow-speed planner *)

(** The block "Logic to determine best cruise speed" of
  [calc_follow_speed_ms], run when [enable_pedal_cruise] holds; it yields the
  new values of [new_speed_kph] and [rel_speed_kph].  With a lead in range
  the relative speed is recomputed as [(actual + rel) - actual]; in binary64
  the result differs from [rel] in the last digits, which decides the tests
  against 3 kph for a relative speed next to 3. *)
Definition follow_speed_logic (self : self_t) (cs : CS.t) (l : Lead.t)
    (lead_dist_m rel_speed_kph safe_dist_m actual_speed_kph new_speed_kph : Q)
    : res (Q * Q) :=
  if (lead_dist_m =? 0) || (MAX_RADAR_DISTANCE <? lead_dist_m) then
    Ok (PCC.pedal_speed_kph self, rel_speed_kph)
  else if 0 <? lead_dist_m then
    let lead_absolute_speed_kph := fadd actual_speed_kph rel_speed_kph in
    let rel_speed_kph := fsub lead_absolute_speed_kph actual_speed_kph in
    if (lead_dist_m <? MIN_SAFE_DIST_M) && (3 <=? rel_speed_kph) then
      Ok (actual_speed_kph, rel_speed_kph)
    else if lead_dist_m <? MIN_SAFE_DIST_M then
      Ok (MIN_PCC_V_KPH, rel_speed_kph)
    else if (lead_dist_m <? safe_dist_m + 2) && (MIN_SAFE_DIST_M <? lead_dist_m) then
      let min_vrel_kph_map :=
        [(0.5 * safe_dist_m, 3); (0.8 * safe_dist_m, 2); (1.0 * safe_dist_m, 0)] in
      let min_vrel_kph := _interp_map lead_dist_m min_vrel_kph_map in
      Ok (lead_absolute_speed_kph - min_vrel_kph, rel_speed_kph)
    else
      let min_vrel_kph_map :=
        [(0.5 * safe_dist_m, 3);
         (1.0 * safe_dist_m, -1 - 0.025 * CS.v_ego cs * CV.MS_TO_KPH);
         (1.5 * safe_dist_m, -5 - 0.05 * CS.v_ego cs * CV.MS_TO_KPH);
         (3.0 * safe_dist_m, -10 - 0.1 * CS.v_ego cs * CV.MS_TO_KPH)] in
      let min_vrel_kph := _interp_map lead_dist_m min_vrel_kph_map in
      let max_vrel_kph_map :=
        [(0.5 * safe_dist_m, 6); (1.0 * safe_dist_m, 2);
         (1.5 * safe_dist_m, -3); (3 * safe_dist_m, -7)] in
      let max_vrel_kph := _interp_map lead_dist_m max_vrel_kph_map in
      let min_kph := lead_absolute_speed_kph - max_vrel_kph in
      let max_kph := lead_absolute_speed_kph - min_vrel_kph in
      let new_speed_kph :=
        if (0.8 * safe_dist_m <=? lead_dist_m)
           && (actual_speed_kph <? lead_absolute_speed_kph)
           && (0 <=? Lead.aLeadK l)
        then lead_absolute_speed_kph else new_speed_kph in
      let new_speed_kph := clip new_speed_kph min_kph max_kph in
      let new_speed_kph :=
        if (new_speed_kph <? actual_speed_kph)
           && ((min_kph <? actual_speed_kph) && (actual_speed_kph <? max_kph))
           && (30 <? lead_absolute_speed_kph)
        then actual_speed_kph else new_speed_kph in
      mss <- _max_safe_speed_kph (PCC.lead_1 self) cs ;;
      Ok (pmin (pmin new_speed_kph mss)
               (pmax (lead_absolute_speed_kph
                      - _min_safe_vrel_kph l cs actual_speed_kph) 2),
          rel_speed_kph)
  else Ok (new_speed_kph, rel_speed_kph).

(** [calc_follow_speed_ms(CS, alca_enabled)]: [None] when no lead was ever
  received, else the target speed in m/s. *)
Definition calc_follow_speed_ms (self : self_t) (cs : CS.t) (alca_enabled : bool)
    : res (self_t * option Q) :=
  match PCC.lead_1 self with
  | None => Ok (self, None)
  | Some l =>
      let lead_dist_m := Lead.dRel l in
      let lead_dist_m :=
        if negb (CS.useTeslaRadar cs)
        then _visual_radar_adjusted_dist_m lead_dist_m cs else lead_dist_m in
      let v_rel := if 0.5 <? pabs (Lead.vRel l) then Lead.vRel l else 0 in
      let a_rel := if 0.5 <? pabs (Lead.aRel l) then Lead.aRel l else 0 in
      let rel_speed_kph :=
        (v_rel + 0 * CS.apFollowTimeInS cs * a_rel) * CV.MS_TO_KPH in
      let safe_dist_m := _safe_distance_m (CS.v_ego cs) cs in
      let actual_speed_kph := CS.v_ego cs * CV.MS_TO_KPH in
      let last_speed_kph :=
        match PCC.last_speed_kph self with
        | None => actual_speed_kph
        | Some v => v
        end in
      let self := PCC.set_last_speed_kph self (Some last_speed_kph) in
      let new_speed_kph := last_speed_kph in
      r <- (if PCC.enable_pedal_cruise self then
              follow_speed_logic self cs l lead_dist_m rel_speed_kph safe_dist_m
                actual_speed_kph new_speed_kph
            else Ok (new_speed_kph, rel_speed_kph)) ;;
      let '(new_speed_kph, rel_speed_kph) := r in
      let new_speed_kph := clip new_speed_kph MIN_PCC_V_KPH MAX_PCC_V_KPH in
      let new_speed_kph :=
        clip new_speed_kph MIN_PCC_V_KPH (PCC.pedal_speed_kph self) in
      let new_speed_kph :=
        if CS.turn_signal_blinking cs
           || (ANGLE_STOP_ACCEL <? pabs (CS.angle_steers cs))
           || alca_enabled
        then pmin new_speed_kph last_speed_kph else new_speed_kph in
      let new_speed_kph :=
        if ((lead_dist_m <? MIN_SAFE_DIST_M) && (0 <? lead_dist_m))
           && (rel_speed_kph <? 3)
        then MIN_PCC_V_KPH else new_speed_kph in
      let self := PCC.set_last_speed_kph self (Some new_speed_kph) in
      Ok (self, Some (new_speed_kph * CV.KPH_TO_MS))
  end.

(** *** The pedal encoder *)

Definition pedal_hysteresis (self : self_t) (pedal : Q) (enabled : bool)
    : self_t * Q :=
  let self :=
    if negb enabled then PCC.set_pedal_steady self 0
    else if PCC.pedal_steady self + PEDAL_HYST_GAP <? pedal then
      PCC.set_pedal_steady self (pedal - PEDAL_HYST_GAP)
    else if pedal <? PCC.pedal_steady self - PEDAL_HYST_GAP then
      PCC.set_pedal_steady self (pedal + PEDAL_HYST_GAP)
    else self in
  (self, PCC.pedal_steady self).

(** "Determine pedal zero": the self-calibration of the zero-torque point. *)
Definition calibrate_pedal_zero (self : self_t) (cs : CS.t) : self_t :=
  if (CS.torqueLevel cs <? TORQUE_LEVEL_ACC)
     && (TORQUE_LEVEL_DECEL <? CS.torqueLevel cs)
     && (10 * CV.MPH_TO_MS <=? CS.v_ego cs)
     && (pabs (CS.torqueLevel cs) <? pabs (PCC.lastTorqueForPedalForZeroTorque self))
     && (0 <? PCC.prev_tesla_accel self)
  then
    let self := PCC.set_PedalForZeroTorque self (PCC.prev_tesla_accel self) in
    PCC.set_lastTorqueForPedalForZeroTorque self (CS.torqueLevel cs)
  else self.

(** The speed-limit block of [update_pdl].  The integer parts are those of
    the exact values. *)
Definition apply_speed_limit (self : self_t) (speed_limit_ms : Q)
    (set_speed_limit_active : bool) (speed_limit_offset : Q) : self_t :=
  if set_speed_limit_active && (0 <? speed_limit_ms) then
    let self :=
      PCC.set_speed_limit_kph self
        ((speed_limit_ms + speed_limit_offset) * CV.MS_TO_KPH) in
    if negb (py_int (PCC.prev_speed_limit_kph self)
             =? py_int (PCC.speed_limit_kph self))%Z then
      let self := PCC.set_pedal_speed_kph self (PCC.speed_limit_kph self) in
      PCC.set_fleet_speed self (reset_averager E (PCC.fleet_speed self))
    else self
  else PCC.set_speed_limit_kph self 0.

(** The lead tracker: the radarState sample of the cycle, if any. *)
Definition ingest_lead (self : self_t) (env : Env.t) : self_t :=
  match Env.radSt env with
  | Some leadOne =>
      let self := PCC.set_lead_1 self (Some leadOne) in
      if _is_present (PCC.lead_1 self) then
        let self := PCC.set_lead_last_seen_time_ms self (Env.time_ms env) in
        PCC.set_continuous_lead_sightings self
          (PCC.continuous_lead_sightings self + 1)%Z
      else PCC.set_continuous_lead_sightings self 0%Z
  | None => self
  end.

(** The acceleration and jerk limits of the cycle:
  [(accel_limits, jerk_limits)]. *)
Definition envelope (self : self_t) (cs : CS.t) : res ((Q * Q) * (Q * Q)) :=
  let v_ego := CS.v_ego cs in
  let following :=
    match PCC.lead_1 self with
    | Some l =>
        Lead.status l && (Lead.dRel l <? MAX_RADAR_DISTANCE)
        && (v_ego <? Lead.vLeadK l) && (0 <? Lead.aLeadK l)
    | None => false
    end in
  let accel_limits := calc_cruise_accel_limits E v_ego following in
  let accel_limits :=
    (fst accel_limits,
     snd accel_limits * _accel_limit_multiplier cs (PCC.lead_1 self)) in
  dl <- _decel_limit (fst accel_limits) (CS.v_ego cs) (PCC.lead_1 self) cs
          (PCC.pedal_speed_kph self) ;;
  let accel_limits := (dl, snd accel_limits) in
  let jerk_limits :=
    (pmin (-0.1) (fst accel_limits / 2), pmax 0.1 (snd accel_limits / 2)) in
  let accel_limits :=
    limit_accel_in_turns E v_ego (CS.angle_steers cs) accel_limits in
  Ok (accel_limits, jerk_limits).

(** The split of the request into the pedal value, from
"self.last_output_gb = output_gb" to the end of [update_pdl]. *)
Definition encode_pedal (self : self_t) (cs : CS.t) (enabled : bool)
    (output_gb MPC_BRAKE_MULTIPLIER : Q) (idx : Z) : res (self_t * (Q * Q * Z)) :=
  let self := PCC.set_last_output_gb self output_gb in
  let apply_accel := clip output_gb 0 1 in
  bpm <- _brake_pedal_min (CS.v_ego cs) (PCC.v_pid self) (PCC.lead_1 self) cs
           (PCC.pedal_speed_kph self) ;;
  let apply_brake := - clip (output_gb * MPC_BRAKE_MULTIPLIER) bpm 0 in
  let pedal_zero :=
    if 5 * CV.MPH_TO_MS <=? CS.v_ego cs then PCC.PedalForZeroTorque self else 0 in
  let tesla_brake := clip ((1 - apply_brake) * pedal_zero) 0 pedal_zero in
  let tesla_accel :=
    clip (apply_accel * (MAX_PEDAL_VALUE - pedal_zero)) 0
      (MAX_PEDAL_VALUE - pedal_zero) in
  let tesla_pedal := tesla_brake + tesla_accel in
  let '(self, tesla_pedal) := pedal_hysteresis self tesla_pedal enabled in
  let tesla_pedal :=
    clip tesla_pedal (PCC.prev_tesla_pedal self - PEDAL_MAX_DOWN)
      (PCC.prev_tesla_pedal self + PEDAL_MAX_UP) in
  let tesla_pedal :=
    if PCC.enable_pedal_cruise self then clip tesla_pedal 0 MAX_PEDAL_VALUE
    else 0 in
  let enable_pedal := if PCC.enable_pedal_cruise self then 1 else 0 in
  let self := PCC.set_torqueLevel_last self (CS.torqueLevel cs) in
  let self := PCC.set_prev_tesla_pedal self (tesla_pedal * enable_pedal) in
  let self := PCC.set_prev_tesla_accel self (apply_accel * enable_pedal) in
  let self := PCC.set_prev_v_ego self (CS.v_ego cs) in
  Ok (self, (PCC.prev_tesla_pedal self, enable_pedal, idx)).

Definition get_LoC (self : self_t) : res LoCt :=
  match PCC.LoC self with
  | Some loc => Ok loc
  | None => Raise AttributeError
  end.

(** The body of the follow mode (the branch under the literal [False] of
[update_pdl]); it yields the state, [output_gb], [MPC_BRAKE_MULTIPLIER] and
the reassigned [enabled]. *)
Definition follow_branch (self : self_t) (cs : CS.t) (frame : Z)
    (alca_enabled : bool) (mapd : option MapData.t) (accel_limits jerk_limits : Q * Q)
    : res (self_t * Q * Q * bool) :=
  let MPC_BRAKE_MULTIPLIER := 6 in
  enabled <- (if PCC.enable_pedal_cruise self then
                loc <- get_LoC self ;;
                Ok match long_control_state E loc with
                   | LongCtrlState.pid | LongCtrlState.stopping => true
                   | _ => false
                   end
              else Ok false) ;;
  let self :=
    PCC.set_prev_accelerator_pedal_pressed self
      (PCC.accelerator_pedal_pressed self) in
  let self :=
    PCC.set_accelerator_pedal_pressed self (5 <? CS.pedal_interceptor_value cs) in
  let self :=
    if negb (PCC.accelerator_pedal_pressed self)
       && PCC.prev_accelerator_pedal_pressed self
    then reset self (CS.v_ego cs) else self in
  if PCC.enable_pedal_cruise self && negb (PCC.accelerator_pedal_pressed self) then
    r <- calc_follow_speed_ms self cs alca_enabled ;;
    let '(self, v) := r in
    let self := PCC.set_v_pid self match v with Some v => v | None => 0 end in
    let self :=
      match mapd with
      | Some md =>
          match max_v_in_mapped_curve_ms E (Some md) (PCC.pedal_speed_kph self) with
          | Some v_curve =>
              if v_curve =? 0 then self
              else PCC.set_v_pid self (pmin (PCC.v_pid self) v_curve)
          | None => self
          end
      | None => self
      end in
    let '(fs, adj) :=
      fleet_speed_adjust E (PCC.fleet_speed self) cs
        (PCC.pedal_speed_kph self * CV.KPH_TO_MS) frame in
    let self := PCC.set_fleet_speed self fs in
    let self := PCC.set_v_pid self (pmin (PCC.v_pid self) adj) in
    let self := PCC.set_v_pid self (pmax (PCC.v_pid self) 0) in
    let '(vc, ac) :=
      speed_smoother E (PCC.v_acc_start self) (PCC.a_acc_start self)
        (PCC.v_pid self) (snd accel_limits) (fst accel_limits)
        (snd jerk_limits) (fst jerk_limits) _DT_MPC in
    let self := PCC.set_v_cruise self vc in
    let self := PCC.set_a_cruise self ac in
    let self := PCC.set_v_cruise self (pmax (PCC.v_cruise self) 0) in
    let self := PCC.set_v_acc self (PCC.v_cruise self) in
    let self := PCC.set_a_acc self (PCC.a_cruise self) in
    let self := PCC.set_v_acc_future self (PCC.v_pid self) in
    let self :=
      PCC.set_a_acc_sol self
        (PCC.a_acc_start self
         + (_DT / _DT_MPC) * (PCC.a_acc self - PCC.a_acc_start self)) in
    let self :=
      PCC.set_v_acc_sol self
        (PCC.v_acc_start self
         + _DT * (PCC.a_acc_sol self + PCC.a_acc_start self) / 2) in
    let self := PCC.set_v_acc_start self (PCC.v_acc_sol self) in
    let self := PCC.set_a_acc_start self (PCC.a_acc_sol self) in
    let vTarget := clip (PCC.v_acc_sol self) 0 (PCC.v_cruise self) in
    let vTargetFuture := clip (PCC.v_acc_future self) 0 (PCC.v_pid self) in
    let self := PCC.set_vTargetFuture self (Some vTargetFuture) in
    let feedforward := PCC.a_acc_sol self in
    loc <- get_LoC self ;;
    let '(loc, (t_go, t_brake)) :=
      LoC_update E loc (PCC.enable_pedal_cruise self) (PCC.v_cruise self) vTarget
        vTargetFuture feedforward in
    let self := PCC.set_LoC self (Some loc) in
    Ok (self, t_go - t_brake, MPC_BRAKE_MULTIPLIER, enabled)
  else
    let self := reset self (CS.v_ego cs) in
    loc <- get_LoC self ;;
    let starting :=
      match long_control_state E loc with
      | LongCtrlState.starting => true
      | _ => false
      end in
    let a_ego := pmin (CS.a_ego cs) 0 in
    let reset_speed := if starting then MIN_CAN_SPEED else CS.v_ego cs in
    let reset_accel := if starting then CS.CP_startAccel cs else a_ego in
    let self := PCC.set_v_acc self reset_speed in
    let self := PCC.set_a_acc self reset_accel in
    let self := PCC.set_v_acc_start self reset_speed in
    let self := PCC.set_a_acc_start self reset_accel in
    let self := PCC.set_v_cruise self reset_speed in
    let self := PCC.set_a_cruise self reset_accel in
    let self := PCC.set_v_acc_sol self reset_speed in
    let self := PCC.set_a_acc_sol self reset_accel in
    let self := PCC.set_v_pid self reset_speed in
    let self := PCC.set_last_speed_kph self None in
    Ok (self, 0, MPC_BRAKE_MULTIPLIER, enabled).

(** The mode that takes the request of the upstream planner
([actuators.gas], [actuators.brake]). *)
Definition op_branch (self : self_t) (actuators : Actuators.t) (pcm_speed : Q)
    (enabled : bool) : res (self_t * Q * Q * bool) :=
  let output_gb := Actuators.gas actuators - Actuators.brake actuators in
  let self := PCC.set_v_pid self pcm_speed in
  let MPC_BRAKE_MULTIPLIER := 12 in
  Ok (self, output_gb, MPC_BRAKE_MULTIPLIER, enabled).

(** [update_pdl]: the pedal command [(value, enable, idx)] of the cycle. *)
Definition update_pdl (self : self_t) (enabled : bool) (cs : CS.t) (frame : Z)
    (actuators : Actuators.t) (pcm_speed : Q) (pcm_override : bool)
    (speed_limit_ms : Q) (set_speed_limit_active : bool) (speed_limit_offset : Q)
    (alca_enabled : bool) (env : Env.t) : res (self_t * (Q * Q * Z)) :=
  let idx := PCC.pedal_idx self in
  let self := PCC.set_prev_speed_limit_kph self (PCC.speed_limit_kph self) in
  let self := calibrate_pedal_zero self cs in
  let self :=
    apply_speed_limit self speed_limit_ms set_speed_limit_active
      speed_limit_offset in
  let self := PCC.set_pedal_idx self ((PCC.pedal_idx self + 1) mod 16)%Z in
  if negb (PCC.pcc_available self) || negb enabled then Ok (self, (0, 0, idx))
  else
    let self := ingest_lead self env in
    lim <- envelope self cs ;;
    let '(accel_limits, jerk_limits) := lim in
    r <- (if false then
            follow_branch self cs frame alca_enabled (Env.mapd env)
              accel_limits jerk_limits
          else op_branch self actuators pcm_speed enabled) ;;
    let '(self, output_gb, MPC_BRAKE_MULTIPLIER, enabled) := r in
    encode_pedal self cs enabled output_gb MPC_BRAKE_MULTIPLIER idx.

(** The controller with the follow branch removed: the request always comes
from [actuators], with brake multiplier 12.  It reads no UI mode. *)
Definition update_pdl_op_only (self : self_t) (enabled : bool) (cs : CS.t)
    (frame : Z) (actuators : Actuators.t) (pcm_speed : Q) (pcm_override : bool)
    (speed_limit_ms : Q) (set_speed_limit_active : bool) (speed_limit_offset : Q)
    (alca_enabled : bool) (env : Env.t) : res (self_t * (Q * Q * Z)) :=
  let idx := PCC.pedal_idx self in
  let self := PCC.set_prev_speed_limit_kph self (PCC.speed_limit_kph self) in
  let self := calibrate_pedal_zero self cs in
  let self :=
    apply_speed_limit self speed_limit_ms set_speed_limit_active
      speed_limit_offset in
  let self := PCC.set_pedal_idx self ((PCC.pedal_idx self + 1) mod 16)%Z in
  if negb (PCC.pcc_available self) || negb enabled then Ok (self, (0, 0, idx))
  else
    let self := ingest_lead self env in
    lim <- envelope self cs ;;
    let output_gb := Actuators.gas actuators - Actuators.brake actuators in
    let self := PCC.set_v_pid self pcm_speed in
    encode_pedal self cs enabled output_gb 12 idx.

End Controller.

(** ** Concrete inputs

    The values used to run the model: a car state with the given speed,
    button, brake flag, radar flag and interceptor state (metric units, follow
    time 1.8 s, interceptor index moving), and stand-ins for the external
    collaborators. *)

Definition car (v_ego : Q) (btn : CruiseButtons.t) (brake radar : bool)
    (interceptor_state : Z) : CS.t :=
  CS.mk v_ego 0 0 0 brake false false radar false false btn 0
    interceptor_state 0 1 0 1.8 "S" "OP" 0.

Definition stub : Externals LongCtrlState.t unit := {|
  calc_cruise_accel_limits := fun _ _ => (-3, 1.2);
  limit_accel_in_turns := fun _ _ lim => lim;
  speed_smoother := fun _ a v_target _ _ _ _ _ => (v_target, a);
  math_sqrt := fun x => x;
  CruiseState_is_off := fun st => (st =? 0)%Z;
  LongControl_new := fun _ => LongCtrlState.off;
  long_control_state := fun loc => loc;
  LoC_update := fun loc _ _ _ _ _ => (loc, (0, 0));
  LoC_reset := fun loc _ => loc;
  FleetSpeed_new := fun _ => tt;
  fleet_speed_adjust := fun fs _ v _ => (fs, v);
  reset_averager := fun fs => fs
|}.

(** A lead 5 m ahead that closes at 1 m/s, a lead 1 m ahead that closes at
1 m/s, and the "no lead" sample of the radar (distance 0). *)
Definition lead_5m_closing : Lead.t := Lead.mk 5 (-1) 0 19 0 true.
Definition lead_0m : Lead.t := Lead.mk 0 0 0 0 0 false.

(** The lead distance the planner works with: [dRel], rescaled by
[_visual_radar_adjusted_dist_m] when the car has no dedicated radar (the
value of [lead_dist_m] in [calc_follow_speed_ms]). *)
Definition adjusted_lead_dist_m (l : Lead.t) (cs : CS.t) : Q :=
  if negb (CS.useTeslaRadar cs)
  then _visual_radar_adjusted_dist_m (Lead.dRel l) cs else Lead.dRel l.

(** The transitions 3 to 7, those of the if / elif chain. *)
Definition is_chain_transition (tr : Transition) : bool :=
  match tr with
  | T2_brake_disable => false
  | _ => true
  end.

(** The lists of transitions a cycle may run: none, one, or the brake
disable followed by the main-stalk press or by the cancel. *)
Definition allowed_firing (f : list Transition) : bool :=
  match f with
  | [] | [_] => true
  | [T2_brake_disable; T3_main_pull _] | [T2_brake_disable; T4_cancel] => true
  | _ => false
  end.

(** A run of [update_stat] over the cycles [(CS, frame, time)]. *)
Fixpoint run_stat {LoCt FleetSpeed : Type} (E : Externals LoCt FleetSpeed)
    (self : PCC.t LoCt FleetSpeed) (cycles : list (CS.t * Z * Z))
    : PCC.t LoCt FleetSpeed :=
  match cycles with
  | [] => self
  | (cs, frame, t) :: rest => run_stat E (fst (update_stat E self cs frame t)) rest
  end.

(** The controller after a first pull of the stalk and its release, at
20 m/s, and the controller engaged by a second pull 300 ms after the first
(and its release). *)
Definition pulled_once : PCC.t LongCtrlState.t unit :=
  run_stat stub (init stub PCCState.STANDBY)
    [(car 20 CruiseButtons.MAIN false false 0, 1, 1000000);
     (car 20 CruiseButtons.IDLE false false 0, 2, 1000050)]%Z.

Definition engaged : PCC.t LongCtrlState.t unit :=
  run_stat stub pulled_once
    [(car 20 CruiseButtons.MAIN false false 0, 3, 1000300);
     (car 20 CruiseButtons.IDLE false false 0, 4, 1000350)]%Z.

(** The arguments of a call of [update_pdl], with what the call receives
from its sockets and the clock. *)
Module PdlArgs.
Record t : Type := mk {
  enabled : bool;
  cs : CS.t;
  frame : Z;
  actuators : Actuators.t;
  pcm_speed : Q;
  pcm_override : bool;
  speed_limit_ms : Q;
  set_speed_limit_active : bool;
  speed_limit_offset : Q;
  alca_enabled : bool;
  env : Env.t
}.
End PdlArgs.

Definition update_pdl_with {LoCt FleetSpeed : Type} (E : Externals LoCt FleetSpeed)
    (self : PCC.t LoCt FleetSpeed) (a : PdlArgs.t)
    : res (PCC.t LoCt FleetSpeed * (Q * Q * Z)) :=
  update_pdl E self (PdlArgs.enabled a) (PdlArgs.cs a) (PdlArgs.frame a)
    (PdlArgs.actuators a) (PdlArgs.pcm_speed a) (PdlArgs.pcm_override a)
    (PdlArgs.speed_limit_ms a) (PdlArgs.set_speed_limit_active a)
    (PdlArgs.speed_limit_offset a) (PdlArgs.alca_enabled a) (PdlArgs.env a).

(** [n] calls of [update_pdl] in a row with the same arguments: the state
after them and the pedal value of the last call (the given [last] when
[n = 0]). *)
Fixpoint run_pdl {LoCt FleetSpeed : Type} (E : Externals LoCt FleetSpeed)
    (n : nat) (a : PdlArgs.t) (self : PCC.t LoCt FleetSpeed) (last : Q)
    : res (PCC.t LoCt FleetSpeed * Q) :=
  match n with
  | O => Ok (self, last)
  | S n' =>
      r <- update_pdl_with E self a ;;
      run_pdl E n' a (fst r) (fst (fst (snd r)))
  end.

(** Full request for acceleration at 20 m/s, no lead, no speed limit; the
same with [enabled] false; and the same with a speed limit of 2 m/s and an
offset of -3 m/s. *)
Definition full_gas : PdlArgs.t :=
  PdlArgs.mk true (car 20 CruiseButtons.IDLE false false 0) 5
    (Actuators.mk 1 0) 20 false 0 false 0 false (Env.mk None None 1000400).

Definition full_gas_not_enabled : PdlArgs.t :=
  PdlArgs.mk false (car 20 CruiseButtons.IDLE false false 0) 5
    (Actuators.mk 1 0) 20 false 0 false 0 false (Env.mk None None 1000400).

Definition low_speed_limit : PdlArgs.t :=
  PdlArgs.mk true (car 20 CruiseButtons.IDLE false false 0) 5
    (Actuators.mk 1 0) 20 false 2 true (-3) false (Env.mk None None 1000400).

(** The engaged controller after one call of [update_pdl] with full gas,
and what the call and the next one return. *)
Definition after_one : PCC.t LongCtrlState.t unit :=
  match update_pdl_with stub engaged full_gas with
  | Ok (s, _) => s
  | Raise _ => engaged
  end.

Definition out_one : Q * Q * Z :=
  match update_pdl_with stub engaged full_gas with
  | Ok (_, out) => out
  | Raise _ => (0, 0, 0%Z)
  end.

Definition after_two : PCC.t LongCtrlState.t unit :=
  match update_pdl_with stub after_one full_gas with
  | Ok (s, _) => s
  | Raise _ => after_one
  end.

Definition out_two : Q * Q * Z :=
  match update_pdl_with stub after_one full_gas with
  | Ok (_, out) => out
  | Raise _ => (0, 0, 0%Z)
  end.

(** The fields the driver's gestures act on, and the fields the encoder
works on: two states agree on them. *)
Definition same_driver_fields {LoCt FleetSpeed : Type}
    (s s' : PCC.t LoCt FleetSpeed) : Prop :=
  PCC.enable_pedal_cruise s' = PCC.enable_pedal_cruise s
  /\ PCC.prev_cruise_buttons s' = PCC.prev_cruise_buttons s
  /\ PCC.button_status s' = PCC.button_status s
  /\ PCC.stalk_pull_time_ms s' = PCC.stalk_pull_time_ms s
  /\ PCC.prev_stalk_pull_time_ms s' = PCC.prev_stalk_pull_time_ms s
  /\ PCC.speed_limit_kph s' = PCC.speed_limit_kph s
  /\ PCC.pedal_speed_kph s' = PCC.pedal_speed_kph s.

Definition same_pedal_fields {LoCt FleetSpeed : Type}
    (s s' : PCC.t LoCt FleetSpeed) : Prop :=
  PCC.pcc_available s' = PCC.pcc_available s
  /\ PCC.prev_tesla_pedal s' = PCC.prev_tesla_pedal s
  /\ PCC.enable_pedal_cruise s' = PCC.enable_pedal_cruise s
  /\ PCC.pedal_steady s' = PCC.pedal_steady s.

(** Collaborators whose [CruiseState.is_off] holds for every status code,
and a car state in which the standard cruise reports the status 2. *)
Definition lenient_off : Externals LongCtrlState.t unit := {|
  calc_cruise_accel_limits := calc_cruise_accel_limits stub;
  limit_accel_in_turns := limit_accel_in_turns stub;
  speed_smoother := speed_smoother stub;
  math_sqrt := math_sqrt stub;
  CruiseState_is_off := fun _ => true;
  LongControl_new := LongControl_new stub;
  long_control_state := long_control_state stub;
  LoC_update := LoC_update stub;
  LoC_reset := LoC_reset stub;
  FleetSpeed_new := FleetSpeed_new stub;
  fleet_speed_adjust := fleet_speed_adjust stub;
  reset_averager := reset_averager stub
|}.

Definition car_cruise_active : CS.t :=
  CS.mk 20 0 0 0 false false false false false false CruiseButtons.IDLE 2
    0 0 1 0 1.8 "S" "OP" 0.

(** The invariants kept across cycles: the lead counter is positive only
while the stored lead is present; the zero-torque pedal value stays in
(0, 18] and the stored acceleration request in [0, 1]. *)
Definition lead_counter_ok {LoCt FleetSpeed : Type}
    (s : PCC.t LoCt FleetSpeed) : Prop :=
  (0 <= PCC.continuous_lead_sightings s)%Z
  /\ ((0 < PCC.continuous_lead_sightings s)%Z -> _is_present (PCC.lead_1 s) = true).

Definition calibration_ok {LoCt FleetSpeed : Type}
    (s : PCC.t LoCt FleetSpeed) : Prop :=
  0 <= PCC.prev_tesla_accel s <= 1
  /\ 0 < PCC.PedalForZeroTorque s <= 18.

(** The fields of the controller that [update_stat] never writes. *)
Definition same_pdl_fields {LoCt FleetSpeed : Type}
    (s s' : PCC.t LoCt FleetSpeed) : Prop :=
  PCC.prev_tesla_accel s' = PCC.prev_tesla_accel s
  /\ PCC.PedalForZeroTorque s' = PCC.PedalForZeroTorque s
  /\ PCC.lastTorqueForPedalForZeroTorque s' = PCC.lastTorqueForPedalForZeroTorque s
  /\ PCC.lead_1 s' = PCC.lead_1 s
  /\ PCC.continuous_lead_sightings s' = PCC.continuous_lead_sightings s
  /\ PCC.lead_last_seen_time_ms s' = PCC.lead_last_seen_time_ms s
  /\ PCC.speed_limit_kph s' = PCC.speed_limit_kph s
  /\ PCC.prev_speed_limit_kph s' = PCC.prev_speed_limit_kph s
  /\ PCC.last_speed_kph s' = PCC.last_speed_kph s
  /\ PCC.v_pid s' = PCC.v_pid s
  /\ PCC.prev_tesla_pedal s' = PCC.prev_tesla_pedal s
  /\ PCC.pedal_steady s' = PCC.pedal_steady s.

(** Full gas with a radar sample (the lead 5 m ahead), the state and the
command after such a call from the engaged controller; and a call with a
follow time of -1 s and a lead 20 m ahead that closes and decelerates. *)
Definition full_gas_with_lead : PdlArgs.t :=
  PdlArgs.mk true (car 20 CruiseButtons.IDLE false false 0) 5
    (Actuators.mk 1 0) 20 false 0 false 0 false
    (Env.mk (Some lead_5m_closing) None 1000400).

Definition after_lead : PCC.t LongCtrlState.t unit :=
  match update_pdl_with stub engaged full_gas_with_lead with
  | Ok (s, _) => s
  | Raise _ => engaged
  end.

Definition out_lead : Q * Q * Z :=
  match update_pdl_with stub engaged full_gas_with_lead with
  | Ok (_, out) => out
  | Raise _ => (0, 0, 0%Z)
  end.

Definition negative_follow_time : PdlArgs.t :=
  PdlArgs.mk true
    (CS.mk 20 0 0 0 false false false false false false CruiseButtons.IDLE 0
       0 0 1 0 (-1) "S" "OP" 0)
    5 (Actuators.mk 1 0) 20 false 0 false 0 false
    (Env.mk (Some (Lead.mk 20 (-1) (-1) 19 0 true)) None 1000400).

(** The planner run on the controller that holds the 5 m visual lead. *)
Definition after_plan : PCC.t LongCtrlState.t unit :=
  match calc_follow_speed_ms after_lead
          (car 20 CruiseButtons.IDLE false false 0) false with
  | Ok (s, _) => s
  | Raise _ => after_lead
  end.

Definition plan_speed : Q :=
  match calc_follow_speed_ms after_lead
          (car 20 CruiseButtons.IDLE false false 0) false with
  | Ok (_, Some v) => v
  | _ => 0
  end.

(** A car with the dedicated radar and a follow-time setting of 0. *)
Definition zero_follow_time_car : CS.t :=
  CS.mk 20 0 0 0 false false false true false false CruiseButtons.IDLE 0
    0 0 1 0 0 "S" "OP" 0.

Definition lead_20m : Lead.t := Lead.mk 20 (-1) 0 19 0 true.

(** A valid curve 100 m ahead. *)
Definition curve_ahead : MapData.t := MapData.mk true 0.01 100.

(** A lead 5 m ahead, pulling away at 1 m/s. *)
Definition lead_5m_departing : Lead.t := Lead.mk 5 1 0 21 0 true.

(** A lead 5 m ahead whose relative speed is just below 3 kph. *)
Definition lead_5m_just_below_3_kph : Lead.t :=
  Lead.mk 5 0.8333333333333331 0 20.8 0 true.



(** * Properties *)

(** ** Comparisons, [max], [min], [clip] *)

Lemma Qltb_lt (x y : Q) : (x <? y) = true <-> x < y.
Proof.
  unfold Qltb. rewrite negb_true_iff. split; intro H.
  - apply Qnot_le_lt. intro C. apply Qle_bool_iff in C. congruence.
  - destruct (Qle_bool y x) eqn:Hle; [|reflexivity].
    apply Qle_bool_iff in Hle. lra.
Qed.

Lemma Qltb_ge (x y : Q) : (x <? y) = false <-> y <= x.
Proof.
  unfold Qltb. rewrite negb_false_iff. apply Qle_bool_iff.
Qed.

Lemma Qleb_gt (x y : Q) : (x <=? y) = false <-> y < x.
Proof.
  split; intro H.
  - apply Qnot_le_lt. intro C. apply Qle_bool_iff in C. congruence.
  - destruct (Qle_bool x y) eqn:Hle; [|reflexivity].
    apply Qle_bool_iff in Hle. lra.
Qed.

Lemma Qeqb_neq (x y : Q) : (x =? y) = false <-> ~ x == y.
Proof.
  split; intro H.
  - intro C. apply Qeq_bool_iff in C. congruence.
  - destruct (Qeq_bool x y) eqn:Heq; [|reflexivity].
    apply Qeq_bool_iff in Heq. contradiction.
Qed.

(** Turns the boolean comparisons among the hypotheses into propositions. *)
Ltac qprop :=
  repeat match goal with
  | H : (_ <? _) = true |- _ => apply Qltb_lt in H
  | H : (_ <? _) = false |- _ => apply Qltb_ge in H
  | H : (_ <=? _) = true |- _ => apply Qle_bool_iff in H
  | H : (_ <=? _) = false |- _ => apply Qleb_gt in H
  | H : (_ =? _) = true |- _ => apply Qeq_bool_iff in H
  | H : (_ =? _) = false |- _ => apply Qeqb_neq in H
  end.

(** Case analysis on the conditions of the goal, innermost first. *)
Ltac split_ifs :=
  repeat match goal with
         | |- context [if ?c then _ else _] =>
             lazymatch c with
             | context [if _ then _ else _] => fail
             | _ => destruct c eqn:?
             end
         end.

Lemma pmax_spec (a b : Q) :
  (a < b /\ pmax a b = b) \/ (b <= a /\ pmax a b = a).
Proof.
  unfold pmax. destruct (a <? b) eqn:H; qprop; auto.
Qed.

Lemma pmin_spec (a b : Q) :
  (b < a /\ pmin a b = b) \/ (a <= b /\ pmin a b = a).
Proof.
  unfold pmin. destruct (b <? a) eqn:H; qprop; auto.
Qed.

Lemma pabs_spec (x : Q) :
  (x < 0 /\ pabs x = - x) \/ (0 <= x /\ pabs x = x).
Proof.
  unfold pabs. destruct (x <? 0) eqn:H; qprop; auto.
Qed.

Lemma clip_range (x lo hi : Q) : lo <= hi -> lo <= clip x lo hi <= hi.
Proof.
  intro H. unfold clip.
  destruct (pmin_spec hi x) as [[? ->]|[? ->]];
    destruct (pmax_spec lo x) as [[? E]|[? E]];
    destruct (pmax_spec lo hi) as [[? E']|[? E']];
    rewrite ?E, ?E'; lra.
Qed.

Lemma py_div_ok (a b : Q) : ~ b == 0 -> py_div a b = Ok (a / b).
Proof.
  intro H. unfold py_div. apply Qeqb_neq in H. now rewrite H.
Qed.

Lemma MPH_TO_MS_pos : 0 < CV.MPH_TO_MS.
Proof. reflexivity. Qed.

(** ** Binary64 rounding

    [rne] is within a half of its argument, [ilog2] is a lower bound of the
    binary logarithm, and [round64] has a relative error of at most
    [eps64]. *)

Lemma rne_within (q : Q) : q - (1 # 2) <= inject_Z (rne q) <= q + (1 # 2).
Proof.
  unfold rne. pose proof (Qfloor_le q) as Hlo. pose proof (Qlt_floor q) as Hhi.
  rewrite inject_Z_plus in Hhi. change (inject_Z 1) with 1 in Hhi.
  assert (Hup : 1 # 2 <= q - inject_Z (Qfloor q) ->
                q - (1 # 2) <= inject_Z (Qfloor q + 1) <= q + (1 # 2)).
  { intro H. rewrite inject_Z_plus. change (inject_Z 1) with 1. lra. }
  destruct (q - inject_Z (Qfloor q) <? 1 # 2) eqn:H1.
  - unfold Qltb in H1. apply negb_true_iff in H1.
    assert (~ (1#2) <= q - inject_Z (Qfloor q)) by (rewrite <- Qle_bool_iff; congruence).
    lra.
  - unfold Qltb in H1. apply negb_false_iff, Qle_bool_iff in H1.
    destruct (1 # 2 <? q - inject_Z (Qfloor q)) eqn:H2; [exact (Hup H1)|].
    unfold Qltb in H2. apply negb_false_iff, Qle_bool_iff in H2.
    destruct (Z.even (Qfloor q)); [lra|exact (Hup H1)].
Qed.

Lemma two_neq_0 : ~ 2 == 0.
Proof. discriminate. Qed.

Lemma Qabs_make (q : Q) :
  Qabs q == inject_Z (Z.abs (Qnum q)) / inject_Z (Zpos (Qden q)).
Proof. destruct q as [n d]. cbn [Qabs Qnum Qden]. apply Qmake_Qdiv. Qed.

Lemma ilog2_le (q : Q) : ~ q == 0 -> 2 ^ ilog2 q <= Qabs q.
Proof.
  intro Hq. unfold ilog2.
  set (a := Z.abs (Qnum q)). set (d := Zpos (Qden q)).
  destruct (2 ^ (Z.log2 a - Z.log2 d) <=? Qabs q) eqn:Ht.
  - now apply Qle_bool_iff.
  - clear Ht.
    assert (Ha : (0 < a)%Z).
    { unfold a. destruct q as [n dd]. cbn [Qnum].
      assert (n <> 0)%Z; [|lia].
      intro Hn. apply Hq. subst n. reflexivity. }
    assert (Hd : (0 < d)%Z) by (unfold d; lia).
    destruct (Z.log2_spec a Ha) as [Hla _].
    destruct (Z.log2_spec d Hd) as [_ Hld].
    pose proof (Z.log2_nonneg a) as Hna. pose proof (Z.log2_nonneg d) as Hnd.
    set (la := Z.log2 a) in *. set (ld := Z.log2 d) in *.
    rewrite Qabs_make. fold a d.
    assert (HA : 2 ^ la <= inject_Z a).
    { change 2 with (inject_Z 2). rewrite <- Zpower_Qpower by lia.
      rewrite <- Zle_Qle. exact Hla. }
    assert (HP : inject_Z d < 2 ^ (Z.succ ld)).
    { change 2 with (inject_Z 2). rewrite <- Zpower_Qpower by lia.
      rewrite <- Zlt_Qlt. exact Hld. }
    assert (HX : 2 ^ (la - ld - 1) * 2 ^ (Z.succ ld) == 2 ^ la).
    { rewrite <- Qpower_plus by exact two_neq_0.
      replace (la - ld - 1 + Z.succ ld)%Z with la by lia. reflexivity. }
    assert (Hx0 : 0 < 2 ^ (la - ld - 1)) by (apply Qpower_0_lt; reflexivity).
    assert (Hd0 : 0 < inject_Z d)
      by (change 0 with (inject_Z 0); rewrite <- Zlt_Qlt; exact Hd).
    apply Qle_shift_div_l; [exact Hd0|].
    set (X := 2 ^ (la - ld - 1)) in *. set (P := 2 ^ Z.succ ld) in *.
    set (A := 2 ^ la) in *. set (dq := inject_Z d) in *. set (aq := inject_Z a) in *.
    clearbody X P A dq aq. nra.
Qed.

Lemma round64_within (q B : Q) :
  - B <= q <= B -> q - B * eps64 <= round64 q <= q + B * eps64.
Proof.
  intros [HB1 HB2]. unfold round64.
  destruct (q =? 0) eqn:Hz.
  - apply Qeq_bool_iff in Hz. unfold eps64. rewrite Hz in *. lra.
  - assert (Hq : ~ q == 0) by (intro H; apply Qeq_bool_iff in H; congruence).
    cbv zeta. rewrite Qred_correct.
    pose proof (ilog2_le q Hq) as He.
    set (e := ilog2 q) in *.
    pose proof (rne_within (q * 2 ^ (52 - e))) as [Hm1 Hm2].
    set (m := inject_Z (rne (q * 2 ^ (52 - e)))) in *. clearbody m.
    assert (Hs : 0 < 2 ^ (52 - e)) by (apply Qpower_0_lt; reflexivity).
    assert (Ht : 0 < 2 ^ (e - 52)) by (apply Qpower_0_lt; reflexivity).
    assert (Hst : 2 ^ (52 - e) * 2 ^ (e - 52) == 1).
    { rewrite <- Qpower_plus by exact two_neq_0.
      replace (52 - e + (e - 52))%Z with 0%Z by lia. reflexivity. }
    assert (Hte : 2 ^ (e - 52) == 2 ^ e * (1 # 4503599627370496)).
    { unfold Z.sub. rewrite Qpower_plus by exact two_neq_0. reflexivity. }
    assert (HqB : Qabs q <= B) by (apply Qabs_Qle_condition; split; assumption).
    set (s := 2 ^ (52 - e)) in *. set (t := 2 ^ (e - 52)) in *.
    set (p := 2 ^ e) in *. set (aq := Qabs q) in *.
    clearbody s t p aq. unfold eps64.
    assert (H1 : (m - q * s) * t <= (1 # 2) * t) by nra.
    assert (H2 : - (1 # 2) * t <= (m - q * s) * t) by nra.
    assert (H3 : (m - q * s) * t == m * t - q) by nra.
    assert (H4 : t <= B * (1 # 4503599627370496)) by nra.
    lra.
Qed.

(** The relative speed recomputed as [(actual + rel) - actual] in binary64
is within 1e-10 of the relative speed, for speeds up to 1000 kph. *)
Lemma recomputed_rel_within (A r : Q) :
  -1000 <= A <= 1000 -> -1000 <= r <= 1000 ->
  r - 0.0000000001 <= fsub (fadd A r) A <= r + 0.0000000001.
Proof.
  intros HA Hr. unfold fsub, fadd.
  pose proof (round64_within A 1000 ltac:(lra)) as Ha1.
  pose proof (round64_within r 1000 ltac:(lra)) as Hr1.
  set (a1 := round64 A) in *. set (r1 := round64 r) in *. clearbody a1 r1.
  unfold eps64 in *.
  pose proof (round64_within (a1 + r1) 2001 ltac:(unfold eps64; lra)) as HL.
  set (L := round64 (a1 + r1)) in *. clearbody L. unfold eps64 in *.
  pose proof (round64_within L 2002 ltac:(unfold eps64; lra)) as HL1.
  set (L1 := round64 L) in *. clearbody L1. unfold eps64 in *.
  pose proof (round64_within (L1 - a1) 3004 ltac:(unfold eps64; lra)) as HD.
  set (D := round64 (L1 - a1)) in *. clearbody D. unfold eps64 in *.
  lra.
Qed.

Lemma safe_distance_ge (v : Q) (cs : CS.t) : MIN_SAFE_DIST_M <= _safe_distance_m v cs.
Proof.
  unfold _safe_distance_m, MIN_SAFE_DIST_M.
  destruct (pmax_spec (CS.apFollowTimeInS cs * (v + 1)) 6)
    as [[? ->]|[? ->]]; lra.
Qed.

(** ** The time to collision *)

(** ** Tables *)

(** An interpolated value lies between any bounds of the table's values. *)
Lemma interp_seg_bounds (lo hi x : Q) (xp fp : list Q) :
  forall x0 y0, x0 < x -> lo <= y0 <= hi ->
  Forall (fun y => lo <= y <= hi) fp ->
  lo <= interp_seg x x0 y0 xp fp <= hi.
Proof.
  revert fp. induction xp as [|x1 xp IH]; intros fp x0 y0 Hx Hy Hfp.
  - cbn. exact Hy.
  - destruct fp as [|y1 fp]; [cbn; exact Hy|].
    inversion Hfp as [|? ? Hy1 Hfp']; subst. cbn [interp_seg].
    destruct (x <=? x1) eqn:Hc; qprop.
    + assert (Hd : 0 < x1 - x0) by lra.
      set (t := (x - x0) / (x1 - x0)).
      assert (Ht0 : 0 <= t) by (apply Qle_shift_div_l; lra).
      assert (Ht1 : t <= 1) by (apply Qle_shift_div_r; lra).
      assert (He : (x - x0) * (y1 - y0) / (x1 - x0) == t * (y1 - y0))
        by (unfold t; field; lra).
      rewrite He. split; nra.
    + apply IH; assumption.
Qed.

Lemma interp_map_bounds (lo hi x : Q) (p : Q * Q) (tbl : list (Q * Q)) :
  Forall (fun q => lo <= snd q <= hi) (p :: tbl) ->
  lo <= _interp_map x (p :: tbl) <= hi.
Proof.
  intro H. inversion H as [|? ? Hp Ht]; subst.
  unfold _interp_map. cbn [map interp].
  destruct (x <=? fst p) eqn:Hc; [exact Hp|]. qprop.
  apply interp_seg_bounds; [exact Hc|exact Hp|].
  clear -Ht. induction Ht; cbn; constructor; assumption.
Qed.

(** Closes the bounds of a table of constants. *)
Ltac table_bounds :=
  apply interp_map_bounds; repeat constructor; cbn [snd]; lra.

(** With a lead that closes and a follow time that is not negative, the
closing rate of [_sec_til_collision] is not zero. *)
Lemma closing_rate_pos (l : Lead.t) (cs : CS.t) :
  Lead.vRel l < 0 -> 0 <= CS.apFollowTimeInS cs ->
  pabs (Lead.vRel l + pmin 0 (Lead.aRel l) * CS.apFollowTimeInS cs)
  = - (Lead.vRel l + pmin 0 (Lead.aRel l) * CS.apFollowTimeInS cs)
  /\ 0 < - (Lead.vRel l + pmin 0 (Lead.aRel l) * CS.apFollowTimeInS cs).
Proof.
  intros Hv Ht.
  assert (Hm : pmin 0 (Lead.aRel l) <= 0)
    by (destruct (pmin_spec 0 (Lead.aRel l)) as [[? ->]|[? ->]]; lra).
  assert (Hp : pmin 0 (Lead.aRel l) * CS.apFollowTimeInS cs <= 0) by nra.
  destruct (pabs_spec (Lead.vRel l + pmin 0 (Lead.aRel l) * CS.apFollowTimeInS cs))
    as [[? ->]|[? _]]; [split; [reflexivity|lra]|exfalso; lra].
Qed.

Lemma sec_til_collision_ok (lead : option Lead.t) (cs : CS.t) :
  0 <= CS.apFollowTimeInS cs -> exists q, _sec_til_collision lead cs = Ok q.
Proof.
  intro Ht. unfold _sec_til_collision.
  destruct lead as [l|]; [|eauto].
  destruct (_is_present (Some l) && (Lead.vRel l <? 0)) eqn:Hc; [|eauto].
  apply andb_true_iff in Hc. destruct Hc as [_ Hv]. qprop.
  destruct (closing_rate_pos l cs Hv Ht) as [Ha Hpos].
  destruct (CS.useTeslaRadar cs).
  - rewrite py_div_ok by (rewrite Ha; lra). simpl. eauto.
  - rewrite py_div_ok by (rewrite Ha; lra). eauto.
Qed.




(** ** The deceleration limit *)

(** With a follow time that is not negative [_decel_limit] returns. *)
Lemma decel_limit_ok (accel_min v_ego : Q) (lead : option Lead.t) (cs : CS.t)
    (max_speed_kph : Q) :
  0 <= CS.apFollowTimeInS cs ->
  exists q, _decel_limit accel_min v_ego lead cs max_speed_kph = Ok q.
Proof.
  intro Ht. unfold _decel_limit. cbv zeta.
  destruct lead as [l|]; [|eauto].
  destruct (_is_present (Some l)); [|eauto].
  destruct (sec_til_collision_ok (Some l) cs Ht) as [q Hq]. rewrite Hq.
  cbn [bind].
  assert (Hnz : ~ pmax 0.1 q == 0)
    by (destruct (pmax_spec 0.1 q) as [[? ->]|[? ->]]; lra).
  rewrite !(py_div_ok _ _ Hnz). cbn [bind].
  split_ifs; eauto.
Qed.

(** C2, as the code has it.  For a lead at a distance strictly between 0 and
6 m (and a follow time that is not negative, so that the time to collision
is defined) [_decel_limit] returns -100.  A lead at 0 m is no lead: the
result is the one without lead, [accel_min * 0.5 * max_speed_mult] with a
multiplier 1, 1.5 or 2. *)
Theorem decel_limit_full_brake (accel_min v_ego : Q) (l : Lead.t) (cs : CS.t)
    (max_speed_kph : Q) :
  (0 <= CS.apFollowTimeInS cs ->
   0 < Lead.dRel l -> Lead.dRel l < MIN_SAFE_DIST_M ->
   _decel_limit accel_min v_ego (Some l) cs max_speed_kph = Ok (-100))
  /\ (Lead.dRel l <= 0 ->
      _decel_limit accel_min v_ego (Some l) cs max_speed_kph
      = _decel_limit accel_min v_ego None cs max_speed_kph
      /\ exists mult,
           (mult = 1 \/ mult = 1.5 \/ mult = 2)
           /\ _decel_limit accel_min v_ego None cs max_speed_kph
              = Ok (accel_min * 0.5 * mult)).
Proof.
  split.
  - intros Ht Hd0 Hd6.
    destruct (sec_til_collision_ok (Some l) cs Ht) as [q Hq].
    unfold _decel_limit. cbv zeta.
    assert (Hp : _is_present (Some l) = true) by (now apply Qltb_lt).
    rewrite Hp, Hq. cbn [bind].
    apply Qltb_lt in Hd0, Hd6. now rewrite Hd0, Hd6.
  - intro Hd.
    assert (Hp : _is_present (Some l) = false) by (now apply Qltb_ge).
    unfold _decel_limit. cbv zeta. rewrite Hp. split; [reflexivity|].
    destruct (max_speed_kph <? v_ego * CV.MS_TO_KPH);
      [destruct (5 <=? v_ego * CV.MS_TO_KPH - max_speed_kph);
       [|destruct (2 <=? v_ego * CV.MS_TO_KPH - max_speed_kph)]|];
      eexists; (split; [|reflexivity]); auto.
Qed.

Lemma decel_limit_full_brake_witness :
  _decel_limit (-1) 20 (Some lead_5m_closing)
    (car 20 CruiseButtons.IDLE false false 0) 100 = Ok (-100)
  /\ _decel_limit (-1) 20 (Some lead_0m)
       (car 20 CruiseButtons.IDLE false false 0) 100
     = _decel_limit (-1) 20 None (car 20 CruiseButtons.IDLE false false 0) 100.
Proof.
  split.
  - apply (proj1 (decel_limit_full_brake (-1) 20 lead_5m_closing
                    (car 20 CruiseButtons.IDLE false false 0) 100)).
    + vm_compute; discriminate.
    + reflexivity.
    + reflexivity.
  - apply (proj2 (decel_limit_full_brake (-1) 20 lead_0m
                    (car 20 CruiseButtons.IDLE false false 0) 100)).
    vm_compute; discriminate.
Defined.

(** C2, as stated, fails for a lead 0 m away: the lead counts as absent and
the limit is [accel_min * 0.5], here -0.5, not -100. *)
Lemma decel_limit_lead_at_zero :
  0 <= Lead.dRel lead_0m /\ Lead.dRel lead_0m < MIN_SAFE_DIST_M
  /\ exists q, _decel_limit (-1) 20 (Some lead_0m)
                 (car 20 CruiseButtons.IDLE false false 0) 100 = Ok q
               /\ q == -0.5 /\ ~ q == -100.
Proof.
  split; [vm_compute; discriminate|]. split; [reflexivity|].
  eexists. split; [vm_compute; reflexivity|].
  split; [reflexivity|]. intro H. vm_compute in H. discriminate H.
Qed.

(** ** The brake-fraction floor *)

Lemma brake_pedal_min_ok (v_ego v_target : Q) (lead : option Lead.t)
    (cs : CS.t) (max_speed_kph : Q) :
  exists q, _brake_pedal_min v_ego v_target lead cs max_speed_kph = Ok q.
Proof.
  unfold _brake_pedal_min.
  destruct (v_ego <=? 7 * CV.MPH_TO_MS) eqn:Hg; [eauto|].
  destruct (max_speed_kph <? v_ego * CV.MS_TO_KPH); [eauto|].
  qprop. pose proof MPH_TO_MS_pos as Hm.
  rewrite py_div_ok by lra. cbn [bind]. eauto.
Qed.

(** C10.  [_brake_pedal_min] returns a value for every input and never
raises: either the guard [v_ego <= 7 mph] returns early, or the divisor
[v_ego] of the speed deficit is positive and the division is defined. *)
Theorem brake_pedal_min_total (v_ego v_target : Q) (lead : option Lead.t)
    (cs : CS.t) (max_speed_kph : Q) :
  (exists q, _brake_pedal_min v_ego v_target lead cs max_speed_kph = Ok q)
  /\ (forall e, _brake_pedal_min v_ego v_target lead cs max_speed_kph <> Raise e)
  /\ ((v_ego <=? 7 * CV.MPH_TO_MS) = true
      \/ (0 < v_ego
          /\ py_div (100 * (v_ego - v_target)) v_ego
             = Ok (100 * (v_ego - v_target) / v_ego))).
Proof.
  assert (Hdiv : (v_ego <=? 7 * CV.MPH_TO_MS) = true
                 \/ (0 < v_ego
                     /\ py_div (100 * (v_ego - v_target)) v_ego
                        = Ok (100 * (v_ego - v_target) / v_ego))).
  { destruct (v_ego <=? 7 * CV.MPH_TO_MS) eqn:Hg; [now left|right].
    qprop. pose proof MPH_TO_MS_pos as Hm.
    assert (Hpos : 0 < v_ego) by lra.
    split; [exact Hpos|]. apply py_div_ok. lra. }
  pose proof (brake_pedal_min_ok v_ego v_target lead cs max_speed_kph) as Hok.
  split; [exact Hok|]. split; [|exact Hdiv].
  intros e He. destruct Hok as [q Hq]. congruence.
Qed.

(** ** The follow-speed planner *)

Section Planner.
Context {LoCt FleetSpeed : Type}.

(** Below the minimum safe distance the logic block ends in one of its first
two branches; the relative speed it hands on is the recomputed one. *)
Lemma follow_speed_logic_near (self : PCC.t LoCt FleetSpeed) (cs : CS.t)
    (l : Lead.t) (d rel safe actual new : Q) :
  0 < d -> d < MIN_SAFE_DIST_M ->
  follow_speed_logic self cs l d rel safe actual new
  = Ok (if 3 <=? fsub (fadd actual rel) actual then actual else MIN_PCC_V_KPH,
        fsub (fadd actual rel) actual).
Proof.
  intros H0 H6. unfold follow_speed_logic.
  assert (Hz : (d =? 0) = false) by (apply Qeqb_neq; lra).
  assert (Hfar : (MAX_RADAR_DISTANCE <? d) = false)
    by (apply Qltb_ge; unfold MAX_RADAR_DISTANCE, MIN_SAFE_DIST_M in *; lra).
  apply Qltb_lt in H0, H6.
  rewrite Hz, Hfar, H0, H6. cbn [orb andb]. cbv zeta.
  destruct (3 <=? fsub (fadd actual rel) actual); reflexivity.
Qed.

(** The relative speed in kph after the jitter filter, within the bounds of
the sensor value. *)
Lemma rel_speed_kph_bounds (l : Lead.t) (cs : CS.t) (a_rel lo hi : Q) :
  lo <= 0 -> 0 <= hi ->
  lo <= Lead.vRel l * CV.MS_TO_KPH <= hi ->
  lo <= ((if 0.5 <? pabs (Lead.vRel l) then Lead.vRel l else 0)
         + 0 * CS.apFollowTimeInS cs * a_rel) * CV.MS_TO_KPH <= hi.
Proof.
  unfold CV.MS_TO_KPH. intros Hlo Hhi H.
  destruct (0.5 <? pabs (Lead.vRel l)); lra.
Qed.

(** C1, as the code has it.  When the (radar-adjusted) lead distance lies
strictly between 0 and 6 m and the relative speed of the lead is at most
3 kph less 1e-9, with the car within 100 m/s and the lead closing by at most
100 m/s, [calc_follow_speed_ms] returns the target 0, whatever the state,
the enablement and the turn flags, and stores 0 as the last target.  The
margin covers the rounding of the relative speed that the engaged planner
recomputes as [(actual + rel) - actual]. *)
Theorem follow_speed_min_distance_rule (self : PCC.t LoCt FleetSpeed) (cs : CS.t)
    (alca_enabled : bool) (l : Lead.t) :
  PCC.lead_1 self = Some l ->
  0 < adjusted_lead_dist_m l cs ->
  adjusted_lead_dist_m l cs < MIN_SAFE_DIST_M ->
  Lead.vRel l * CV.MS_TO_KPH <= 3 - 0.000000001 ->
  -100 <= Lead.vRel l ->
  -100 <= CS.v_ego cs <= 100 ->
  exists self' v,
    calc_follow_speed_ms self cs alca_enabled = Ok (self', Some v)
    /\ v == 0
    /\ PCC.last_speed_kph self' = Some MIN_PCC_V_KPH.
Proof.
  intros Hl H0 H6 Hrel Hvl Hv. unfold calc_follow_speed_ms. rewrite Hl. cbv zeta.
  fold (adjusted_lead_dist_m l cs).
  set (d := adjusted_lead_dist_m l cs) in *.
  set (a_rel := if 0.5 <? pabs (Lead.aRel l) then Lead.aRel l else 0).
  assert (Hr : -360 <= ((if 0.5 <? pabs (Lead.vRel l) then Lead.vRel l else 0)
                        + 0 * CS.apFollowTimeInS cs * a_rel) * CV.MS_TO_KPH
               <= 3 - 0.000000001).
  { apply rel_speed_kph_bounds; [lra|lra|]. unfold CV.MS_TO_KPH in *. lra. }
  set (rel := ((if 0.5 <? pabs (Lead.vRel l) then Lead.vRel l else 0)
               + 0 * CS.apFollowTimeInS cs * a_rel) * CV.MS_TO_KPH) in *.
  assert (Ha : -360 <= CS.v_ego cs * CV.MS_TO_KPH <= 360)
    by (unfold CV.MS_TO_KPH; lra).
  set (actual := CS.v_ego cs * CV.MS_TO_KPH) in *.
  set (last := match PCC.last_speed_kph self with
               | Some v => v
               | None => actual
               end).
  assert (Hguard : forall r, r < 3 ->
            ((d <? MIN_SAFE_DIST_M) && (0 <? d)) && (r <? 3) = true).
  { intros r Hr3. apply Qltb_lt in H0, H6, Hr3. now rewrite H0, H6, Hr3. }
  assert (Hend : forall (s : PCC.t LoCt FleetSpeed) (r x : Q), r < 3 ->
            exists self' v,
              Ok (PCC.set_last_speed_kph s
                    (Some (if ((d <? MIN_SAFE_DIST_M) && (0 <? d)) && (r <? 3)
                           then MIN_PCC_V_KPH else x)),
                  Some ((if ((d <? MIN_SAFE_DIST_M) && (0 <? d)) && (r <? 3)
                         then MIN_PCC_V_KPH else x) * CV.KPH_TO_MS))
              = Ok (self', Some v)
              /\ v == 0 /\ PCC.last_speed_kph self' = Some MIN_PCC_V_KPH).
  { intros s r x Hr3. rewrite (Hguard r Hr3).
    eexists. eexists. split; [reflexivity|]. split; reflexivity. }
  destruct (PCC.enable_pedal_cruise
              (PCC.set_last_speed_kph self (Some last))) eqn:Hen.
  - rewrite (follow_speed_logic_near
               (PCC.set_last_speed_kph self (Some last)) cs l d rel
               (_safe_distance_m (CS.v_ego cs) cs) actual last H0 H6).
    cbn [bind]. cbv iota beta.
    apply Hend.
    pose proof (recomputed_rel_within actual rel ltac:(lra) ltac:(lra)). lra.
  - cbn [bind]. cbv iota beta. apply Hend. lra.
Qed.

End Planner.

(** The instance of the spec: lead at 5 m (seen by the radar), relative
speed 1 kph, controller enabled with target 100 kph at 15 m/s. *)
Lemma follow_speed_min_distance_rule_witness :
  exists self' v,
    calc_follow_speed_ms
      (PCC.set_pedal_speed_kph
         (PCC.set_enable_pedal_cruise
            (PCC.set_lead_1 (init stub 1)
               (Some (Lead.mk 5 (1 / 3.6) 0 15 0 true))) true) 100)
      (car 15 CruiseButtons.IDLE false true 0) false
    = Ok (self', Some v)
    /\ v == 0
    /\ PCC.last_speed_kph self' = Some MIN_PCC_V_KPH.
Proof.
  assert (Hrel : Lead.vRel (Lead.mk 5 (1 / 3.6) 0 15 0 true) * CV.MS_TO_KPH
                 <= 3 - 0.000000001)
    by (apply Qle_bool_iff; vm_compute; reflexivity).
  assert (Hvl : -100 <= Lead.vRel (Lead.mk 5 (1 / 3.6) 0 15 0 true))
    by (apply Qle_bool_iff; vm_compute; reflexivity).
  assert (Hlo : -100 <= CS.v_ego (car 15 CruiseButtons.IDLE false true 0))
    by (apply Qle_bool_iff; vm_compute; reflexivity).
  assert (Hhi : CS.v_ego (car 15 CruiseButtons.IDLE false true 0) <= 100)
    by (apply Qle_bool_iff; vm_compute; reflexivity).
  assert (H0 : 0 < adjusted_lead_dist_m (Lead.mk 5 (1 / 3.6) 0 15 0 true)
                     (car 15 CruiseButtons.IDLE false true 0))
    by reflexivity.
  assert (H6 : adjusted_lead_dist_m (Lead.mk 5 (1 / 3.6) 0 15 0 true)
                 (car 15 CruiseButtons.IDLE false true 0) < MIN_SAFE_DIST_M)
    by reflexivity.
  exact (follow_speed_min_distance_rule
           (PCC.set_pedal_speed_kph
              (PCC.set_enable_pedal_cruise
                 (PCC.set_lead_1 (init stub 1)
                    (Some (Lead.mk 5 (1 / 3.6) 0 15 0 true))) true) 100)
           (car 15 CruiseButtons.IDLE false true 0) false
           (Lead.mk 5 (1 / 3.6) 0 15 0 true)
           eq_refl H0 H6 Hrel Hvl (conj Hlo Hhi)).
Defined.

(** C1, as stated, fails just below 3 kph.  Engaged at 20 m/s behind a radar
lead at 5 m whose relative speed is 0.8333333333333331 m/s (less than 3 kph),
the planner recomputes the relative speed as (72 + 2.9999999999999996) - 72,
which is 3.0 in binary64: the rule does not fire and the target is the
current speed, 20 m/s. *)
Lemma min_distance_rule_misses_just_below_3_kph :
  PCC.lead_1 (PCC.set_lead_1 engaged (Some lead_5m_just_below_3_kph))
  = Some lead_5m_just_below_3_kph
  /\ 0 < adjusted_lead_dist_m lead_5m_just_below_3_kph
          (car 20 CruiseButtons.IDLE false true 0)
  /\ adjusted_lead_dist_m lead_5m_just_below_3_kph
       (car 20 CruiseButtons.IDLE false true 0) < MIN_SAFE_DIST_M
  /\ Lead.vRel lead_5m_just_below_3_kph * CV.MS_TO_KPH < 3
  /\ fsub (fadd (20 * CV.MS_TO_KPH)
                (Lead.vRel lead_5m_just_below_3_kph * CV.MS_TO_KPH))
          (20 * CV.MS_TO_KPH) == 3
  /\ exists self' v,
       calc_follow_speed_ms
         (PCC.set_lead_1 engaged (Some lead_5m_just_below_3_kph))
         (car 20 CruiseButtons.IDLE false true 0) false
       = Ok (self', Some v)
       /\ v == 20 /\ ~ v == 0.
Proof.
  split; [reflexivity|]. split; [reflexivity|]. split; [reflexivity|].
  split; [reflexivity|]. split; [vm_compute; reflexivity|].
  eexists. eexists. split; [vm_compute; reflexivity|].
  split; [vm_compute; reflexivity|]. intro H. vm_compute in H. discriminate H.
Qed.

(** ** The engagement state machine *)

Section Engagement.
Context {LoCt FleetSpeed : Type}.
Variable E : Externals LoCt FleetSpeed.

Lemma reset_id (self : PCC.t LoCt FleetSpeed) (v : Q) : reset E self v = self.
Proof. unfold reset. now destruct (PCC.LoC self). Qed.

Lemma brake_check_fired (self : PCC.t LoCt FleetSpeed) (cs : CS.t) :
  (snd (brake_check E self cs) = []
   /\ fst (brake_check E self cs) = self)
  \/ (snd (brake_check E self cs) = [T2_brake_disable]
      /\ fst (brake_check E self cs) = PCC.set_enable_pedal_cruise self false).
Proof.
  unfold brake_check. rewrite reset_id.
  destruct (CS.brake_pressed cs && PCC.enable_pedal_cruise self); auto.
Qed.

(** The chain runs at most one of its branches; with the controller
disengaged it can only run the main-stalk press or the cancel. *)
Lemma stalk_chain_fired (self : PCC.t LoCt FleetSpeed) (cs : CS.t) (t : Z) :
  (List.length (snd (stalk_chain E self cs t)) <= 1)%nat
  /\ Forall (fun tr => is_chain_transition tr = true) (snd (stalk_chain E self cs t))
  /\ (PCC.enable_pedal_cruise self = false ->
      snd (stalk_chain E self cs t) = []
      \/ (exists b, snd (stalk_chain E self cs t) = [T3_main_pull b])
      \/ snd (stalk_chain E self cs t) = [T4_cancel]).
Proof.
  unfold stalk_chain. split_ifs;
    cbn [snd List.length]; (split; [lia|split; [repeat constructor|]]);
    intro Hen; eauto;
    try (rewrite Hen in *; cbn in *; discriminate).
Qed.

(** What the chain and the notifications leave alone. *)
Lemma stalk_chain_frame (self : PCC.t LoCt FleetSpeed) (cs : CS.t) (t : Z) :
  PCC.pcc_available (fst (stalk_chain E self cs t)) = PCC.pcc_available self
  /\ PCC.prev_tesla_pedal (fst (stalk_chain E self cs t)) = PCC.prev_tesla_pedal self
  /\ PCC.pedal_steady (fst (stalk_chain E self cs t)) = PCC.pedal_steady self
  /\ PCC.speed_limit_kph (fst (stalk_chain E self cs t)) = PCC.speed_limit_kph self.
Proof.
  unfold stalk_chain. rewrite !reset_id.
  split_ifs; try (destruct (CS.cruise_buttons cs)); repeat split; reflexivity.
Qed.

Lemma notify_toggle_frame (self : PCC.t LoCt FleetSpeed) (cs : CS.t) (b : bool) :
  PCC.pcc_available (fst (notify_toggle E self cs b)) = PCC.pcc_available self
  /\ PCC.enable_pedal_cruise (fst (notify_toggle E self cs b))
     = PCC.enable_pedal_cruise self
  /\ PCC.pedal_speed_kph (fst (notify_toggle E self cs b)) = PCC.pedal_speed_kph self
  /\ PCC.stalk_pull_time_ms (fst (notify_toggle E self cs b))
     = PCC.stalk_pull_time_ms self
  /\ PCC.prev_stalk_pull_time_ms (fst (notify_toggle E self cs b))
     = PCC.prev_stalk_pull_time_ms self
  /\ PCC.prev_tesla_pedal (fst (notify_toggle E self cs b)) = PCC.prev_tesla_pedal self
  /\ PCC.pedal_steady (fst (notify_toggle E self cs b)) = PCC.pedal_steady self.
Proof.
  unfold notify_toggle. split_ifs; repeat split; reflexivity.
Qed.

(** C4, as the code has it.  A cycle of [update_stat] runs at most one of
the transitions 3 to 7 (the if / elif chain).  The brake disable (2) is a
check of its own before the chain: it may be followed, in the same cycle, by
the main-stalk press (3) or by the cancel (4), and by nothing else.  When
the pedal path is not available no transition runs. *)
Theorem update_stat_one_chain_transition (self : PCC.t LoCt FleetSpeed)
    (cs : CS.t) (frame t : Z) :
  (List.length
     (filter is_chain_transition (fired (snd (update_stat E self cs frame t))))
   <= 1)%nat
  /\ allowed_firing (fired (snd (update_stat E self cs frame t))) = true
  /\ (PCC.pcc_available (fst (update_stat E self cs frame t)) = false
      /\ fired (snd (update_stat E self cs frame t)) = []
      \/ PCC.pcc_available (fst (update_stat E self cs frame t)) = true).
Proof.
  unfold update_stat.
  destruct (_update_pedal_state E (ensure_LoC E self cs) cs frame) as [s0 ev0].
  destruct (PCC.pcc_available s0) eqn:Hav; cbn [negb].
  - pose proof (brake_check_fired s0 cs) as Hb.
    destruct (brake_check E s0 cs) as [s1 f2]. cbn [fst snd] in Hb.
    pose proof (stalk_chain_fired s1 cs t) as (Hlen & Hall & Hdis).
    pose proof (stalk_chain_frame s1 cs t) as (Hav2 & _).
    destruct (stalk_chain E s1 cs t) as [s2 f3]. cbn [fst snd] in *.
    pose proof (notify_toggle_frame s2 cs (PCC.enable_pedal_cruise s0))
      as (Hav3 & _).
    destruct (notify_toggle E s2 cs (PCC.enable_pedal_cruise s0)) as [s3 ev2].
    cbn [fst snd fired] in *.
    assert (Havail : PCC.pcc_available s3 = true).
    { rewrite Hav3, Hav2. destruct Hb as [[_ ->]|[_ ->]]; exact Hav. }
    destruct Hb as [[-> _]|[-> Hs1]]; cbn [app].
    + destruct f3 as [|x [|y f3]]; cbn [List.length] in Hlen; [| |lia].
      * cbn. auto.
      * inversion Hall as [|? ? Hx _]; subst. cbn [filter]. rewrite Hx.
        destruct x; cbn; auto.
    + assert (Hoff : PCC.enable_pedal_cruise s1 = false) by (now rewrite Hs1).
      destruct (Hdis Hoff) as [->|[[b ->]| ->]]; cbn; auto.
  - unfold unavailable_cycle. split_ifs; cbn; auto.
Qed.

End Engagement.

(** C4, as stated, fails: from the engaged controller, a cycle with the
brake pressed and the cancel button runs the brake disable and the cancel;
a cycle with the brake pressed and a second pull of the stalk runs the brake
disable and the double-pull enable, and ends engaged. *)
Lemma brake_and_stalk_in_one_cycle :
  PCC.enable_pedal_cruise engaged = true
  /\ PCC.pcc_available
       (fst (update_stat stub engaged
               (car 20 CruiseButtons.CANCEL true false 0) 5 1002000)) = true
  /\ fired (snd (update_stat stub engaged
                   (car 20 CruiseButtons.CANCEL true false 0) 5 1002000))
     = [T2_brake_disable; T4_cancel]
  /\ fired (snd (update_stat stub engaged
                   (car 20 CruiseButtons.MAIN true false 0) 5 1000600))
     = [T2_brake_disable; T3_main_pull true]
  /\ PCC.enable_pedal_cruise
       (fst (update_stat stub engaged
               (car 20 CruiseButtons.MAIN true false 0) 5 1000600)) = true.
Proof.
  repeat split; vm_compute; reflexivity.
Qed.

Section DoublePull.
Context {LoCt FleetSpeed : Type}.
Variable E : Externals LoCt FleetSpeed.

Lemma update_pedal_state_frame (self : PCC.t LoCt FleetSpeed) (cs : CS.t)
    (frame : Z) :
  same_driver_fields self
    (fst (_update_pedal_state E (ensure_LoC E self cs) cs frame))
  /\ PCC.prev_tesla_pedal (fst (_update_pedal_state E (ensure_LoC E self cs) cs frame))
     = PCC.prev_tesla_pedal self
  /\ PCC.pedal_steady (fst (_update_pedal_state E (ensure_LoC E self cs) cs frame))
     = PCC.pedal_steady self.
Proof.
  unfold same_driver_fields, _update_pedal_state, ensure_LoC.
  destruct (PCC.LoC self); split_ifs; repeat split; reflexivity.
Qed.

Lemma unavailable_cycle_frame (self : PCC.t LoCt FleetSpeed) (cs : CS.t)
    (frame : Z) (ev : list event) :
  PCC.pcc_available (fst (unavailable_cycle self cs frame ev))
  = PCC.pcc_available self
  /\ same_driver_fields self (fst (unavailable_cycle self cs frame ev))
  /\ fired (snd (unavailable_cycle self cs frame ev)) = []
  /\ PCC.prev_tesla_pedal (fst (unavailable_cycle self cs frame ev))
     = PCC.prev_tesla_pedal self
  /\ PCC.pedal_steady (fst (unavailable_cycle self cs frame ev))
     = PCC.pedal_steady self.
Proof.
  unfold same_driver_fields, unavailable_cycle.
  split_ifs; repeat split; reflexivity.
Qed.

(** The branch of the chain taken on a press edge of the main stalk. *)
Lemma stalk_chain_main_edge (s : PCC.t LoCt FleetSpeed) (cs : CS.t) (t : Z) :
  CS.cruise_buttons cs = CruiseButtons.MAIN ->
  PCC.prev_cruise_buttons s <> CruiseButtons.MAIN ->
  let ready :=
    (PCCState.OFF <? PCC.button_status s)%Z
    && CruiseState_is_off E (CS.pcm_acc_status cs)
    || CS.forcePedalOverCC cs in
  let double_pull := (t - PCC.stalk_pull_time_ms s <? STALK_DOUBLE_PULL_MS)%Z in
  let uom := if CS.imperial_speed_units cs then CV.MPH_TO_KPH else 1 in
  snd (stalk_chain E s cs t) = [T3_main_pull (ready && double_pull)]
  /\ PCC.stalk_pull_time_ms (fst (stalk_chain E s cs t)) = t
  /\ PCC.prev_stalk_pull_time_ms (fst (stalk_chain E s cs t))
     = PCC.stalk_pull_time_ms s
  /\ (ready && double_pull = true ->
      PCC.enable_pedal_cruise (fst (stalk_chain E s cs t)) = true
      /\ PCC.pedal_speed_kph (fst (stalk_chain E s cs t))
         = pmax (speed_kph_uom_rounded cs uom) (PCC.speed_limit_kph s))
  /\ (ready && double_pull = false ->
      PCC.enable_pedal_cruise (fst (stalk_chain E s cs t))
      = PCC.enable_pedal_cruise s
      /\ PCC.pedal_speed_kph (fst (stalk_chain E s cs t)) = PCC.pedal_speed_kph s).
Proof.
  intros Hb Hp ready double_pull uom.
  assert (Hedge : CruiseButtons.eqb (CS.cruise_buttons cs) CruiseButtons.MAIN
                  && negb (CruiseButtons.eqb (PCC.prev_cruise_buttons s)
                             CruiseButtons.MAIN) = true).
  { rewrite Hb. destruct (PCC.prev_cruise_buttons s); try reflexivity.
    now contradiction Hp. }
  unfold stalk_chain. rewrite Hedge. rewrite !reset_id. cbn -[Z.sub Z.ltb].
  fold ready. fold double_pull. fold uom.
  destruct (ready && double_pull); cbn; repeat split; intros; congruence.
Qed.

(** [int] of a number that is not negative is its floor. *)
Lemma py_int_nonneg (q : Q) :
  0 <= q -> inject_Z (py_int q) <= q /\ q < inject_Z (py_int q) + 1.
Proof.
  intro H.
  assert (Hf : py_int q = Qfloor q).
  { destruct q as [n d]. unfold py_int, Qfloor. cbn [Qnum Qden].
    apply Z.quot_div_nonneg; [|lia].
    unfold Qle in H. cbn in H. lia. }
  rewrite Hf. split; [apply Qfloor_le|].
  pose proof (Qlt_floor q) as Hlt. rewrite inject_Z_plus in Hlt. exact Hlt.
Qed.

(** The rounded speed is a multiple of the display unit within half a unit
of the speed in kph, up to the rounding of the binary64 operations (less
than 1e-9 for speeds up to 200 m/s), for a speed that is not negative. *)
Lemma speed_kph_uom_rounded_near (cs : CS.t) (imperial : bool) :
  let uom := if imperial then CV.MPH_TO_KPH else 1 in
  0 <= CS.v_ego cs <= 200 ->
  speed_kph_uom_rounded cs uom - 0.5 * uom - 0.000000001
  <= CS.v_ego cs * CV.MS_TO_KPH
  /\ CS.v_ego cs * CV.MS_TO_KPH
     < speed_kph_uom_rounded cs uom + 0.5 * uom + 0.000000001.
Proof.
  cbv zeta. intros Hv. unfold speed_kph_uom_rounded, fadd, fdiv, fmul.
  assert (H36 : round64 CV.MS_TO_KPH = 8106479329266893 # 2251799813685248)
    by (vm_compute; reflexivity).
  assert (H05 : round64 0.5 = 1 # 2) by (vm_compute; reflexivity).
  assert (H1 : round64 1 = 1) by (vm_compute; reflexivity).
  assert (Hmi : round64 CV.MPH_TO_KPH = 226495032459717 # 140737488355328)
    by (vm_compute; reflexivity).
  rewrite H36, H05.
  pose proof (round64_within (CS.v_ego cs) 200 ltac:(lra)) as Hv1.
  set (v := CS.v_ego cs) in *. set (v1 := round64 v) in *. clearbody v1.
  unfold eps64 in *.
  pose proof (round64_within (v1 * (8106479329266893 # 2251799813685248)) 800
                ltac:(lra)) as HP.
  set (P := round64 (v1 * _)) in *. clearbody P. unfold eps64 in *.
  pose proof (round64_within P 801 ltac:(lra)) as HP1.
  set (P1 := round64 P) in *. clearbody P1. unfold eps64 in *.
  unfold CV.MS_TO_KPH.
  destruct imperial.
  - rewrite Hmi. unfold Qdiv.
    change (/ (226495032459717 # 140737488355328))
      with (140737488355328 # 226495032459717).
    pose proof (round64_within (P1 * (140737488355328 # 226495032459717)) 801
                  ltac:(lra)) as HQ.
    set (q := round64 (P1 * _)) in *. clearbody q. unfold eps64 in *.
    pose proof (round64_within q 802 ltac:(lra)) as HQ1.
    set (q1 := round64 q) in *. clearbody q1. unfold eps64 in *.
    pose proof (round64_within (q1 + (1 # 2)) 803 ltac:(lra)) as HY.
    set (y := round64 (q1 + (1 # 2))) in *. clearbody y. unfold eps64 in *.
    destruct (py_int_nonneg y ltac:(lra)) as [Hlo Hhi].
    set (k := inject_Z (py_int y)) in *. clearbody k.
    unfold CV.MPH_TO_KPH. split; lra.
  - rewrite H1. unfold Qdiv. change (/ 1) with 1.
    pose proof (round64_within (P1 * 1) 801 ltac:(lra)) as HQ.
    set (q := round64 (P1 * 1)) in *. clearbody q. unfold eps64 in *.
    pose proof (round64_within q 802 ltac:(lra)) as HQ1.
    set (q1 := round64 q) in *. clearbody q1. unfold eps64 in *.
    pose proof (round64_within (q1 + (1 # 2)) 803 ltac:(lra)) as HY.
    set (y := round64 (q1 + (1 # 2))) in *. clearbody y. unfold eps64 in *.
    destruct (py_int_nonneg y ltac:(lra)) as [Hlo Hhi].
    set (k := inject_Z (py_int y)) in *. clearbody k.
    split; lra.
Qed.

(** At a half-unit speed the rounding of the product decides the integer:
19.86111111111111 m/s is 71.49999999999999... kph, the binary64 product is
71.5 and the rounded speed is 72. *)
Lemma speed_kph_uom_rounded_half_unit :
  speed_kph_uom_rounded (car 19.86111111111111 CruiseButtons.IDLE false false 0) 1
  == 72
  /\ 19.86111111111111 * CV.MS_TO_KPH + 0.5 < 72.
Proof. split; [vm_compute; reflexivity|reflexivity]. Qed.

(** C5, as the code has it.  In a cycle that finds the pedal path available,
with a press edge of the main stalk and the system ready (feature button
not Off and standard cruise off, or the override set), the enable branch
runs if and only if the time since the prior press is strictly below 750 ms.
When it runs the controller is engaged and the target is the maximum of the
current speed rounded to the display unit and the active speed limit; when
it does not, the target is untouched and the enable flag is what the brake
check left.  The press is recorded either way. *)
Theorem double_pull_engagement (self : PCC.t LoCt FleetSpeed) (cs : CS.t)
    (frame t : Z) :
  PCC.pcc_available (fst (update_stat E self cs frame t)) = true ->
  CS.cruise_buttons cs = CruiseButtons.MAIN ->
  PCC.prev_cruise_buttons self <> CruiseButtons.MAIN ->
  (PCCState.OFF <? PCC.button_status self)%Z
  && CruiseState_is_off E (CS.pcm_acc_status cs)
  || CS.forcePedalOverCC cs = true ->
  let self' := fst (update_stat E self cs frame t) in
  let out := snd (update_stat E self cs frame t) in
  let uom := if CS.imperial_speed_units cs then CV.MPH_TO_KPH else 1 in
  let elapsed := (t - PCC.stalk_pull_time_ms self)%Z in
  (In (T3_main_pull true) (fired out) <-> (elapsed < STALK_DOUBLE_PULL_MS)%Z)
  /\ ((elapsed < STALK_DOUBLE_PULL_MS)%Z ->
      PCC.enable_pedal_cruise self' = true
      /\ PCC.pedal_speed_kph self'
         = pmax (speed_kph_uom_rounded cs uom) (PCC.speed_limit_kph self))
  /\ ((STALK_DOUBLE_PULL_MS <= elapsed)%Z ->
      PCC.enable_pedal_cruise self'
      = PCC.enable_pedal_cruise self && negb (CS.brake_pressed cs)
      /\ PCC.pedal_speed_kph self' = PCC.pedal_speed_kph self)
  /\ PCC.stalk_pull_time_ms self' = t
  /\ PCC.prev_stalk_pull_time_ms self' = PCC.stalk_pull_time_ms self.
Proof.
  intros Hav Hbtn Hprev Hready. cbv zeta.
  revert Hav. unfold update_stat.
  pose proof (update_pedal_state_frame self cs frame)
    as ((Hen0 & Hpb0 & Hbs0 & Hst0 & Hps0 & Hsl0 & Hsp0) & _).
  destruct (_update_pedal_state E (ensure_LoC E self cs) cs frame) as [s0 ev0].
  cbn [fst] in *.
  destruct (PCC.pcc_available s0) eqn:Hav0; cbn [negb].
  2:{ intro Hav.
      destruct (unavailable_cycle_frame s0 cs frame ev0) as (Hu & _).
      congruence. }
  intros _.
  pose proof (brake_check_fired E s0 cs) as Hb.
  assert (Hbrk : PCC.enable_pedal_cruise (fst (brake_check E s0 cs))
                 = PCC.enable_pedal_cruise self && negb (CS.brake_pressed cs)).
  { unfold brake_check. rewrite reset_id, <- Hen0.
    destruct (CS.brake_pressed cs), (PCC.enable_pedal_cruise s0) eqn:He;
      cbn; congruence. }
  destruct (brake_check E s0 cs) as [s1 f2]. cbn [fst snd] in *.
  assert (Hs1 : PCC.prev_cruise_buttons s1 = PCC.prev_cruise_buttons self
                /\ PCC.button_status s1 = PCC.button_status self
                /\ PCC.stalk_pull_time_ms s1 = PCC.stalk_pull_time_ms self
                /\ PCC.speed_limit_kph s1 = PCC.speed_limit_kph self
                /\ PCC.pedal_speed_kph s1 = PCC.pedal_speed_kph self).
  { destruct Hb as [[_ ->]|[_ ->]]; cbn; repeat split; assumption. }
  destruct Hs1 as (Hpb1 & Hbs1 & Hst1 & Hsl1 & Hsp1).
  assert (Hprev1 : PCC.prev_cruise_buttons s1 <> CruiseButtons.MAIN)
    by (now rewrite Hpb1).
  pose proof (stalk_chain_main_edge s1 cs t Hbtn Hprev1) as Hc.
  cbv zeta in Hc. rewrite Hbs1, Hready, Hst1, Hsl1, Hsp1, Hbrk in Hc.
  cbn [andb] in Hc. destruct Hc as (Hf & Ht & Hpt & Hyes & Hno).
  destruct (stalk_chain E s1 cs t) as [s2 f3]. cbn [fst snd] in *.
  pose proof (notify_toggle_frame E s2 cs (PCC.enable_pedal_cruise s0))
    as (_ & Hen3 & Hsp3 & Hst3 & Hps3 & _).
  destruct (notify_toggle E s2 cs (PCC.enable_pedal_cruise s0)) as [s3 ev2].
  cbn [fst snd fired PCC.enable_pedal_cruise PCC.pedal_speed_kph
       PCC.stalk_pull_time_ms PCC.prev_stalk_pull_time_ms
       PCC.set_prev_cruise_buttons PCC.set_prev_pcm_acc_status] in *.
  rewrite Hen3, Hsp3, Hst3, Hps3, Hf.
  unfold STALK_DOUBLE_PULL_MS in *.
  destruct (t - PCC.stalk_pull_time_ms self <? 750)%Z eqn:Hd.
  - apply Z.ltb_lt in Hd. destruct (Hyes eq_refl) as [He Hs].
    split; [|split; [|split]].
    + split; [intros _; exact Hd|].
      intros _. apply in_or_app. right. now left.
    + intros _. now split.
    + intro Hge. lia.
    + now split.
  - apply Z.ltb_ge in Hd. destruct (Hno eq_refl) as [He Hs].
    split; [|split; [|split]].
    + split; [|intro Hlt; lia].
      intro Hin. apply in_app_or in Hin. destruct Hin as [Hin|Hin].
      * destruct Hb as [[-> _]|[-> _]]; cbn in Hin; intuition discriminate.
      * cbn in Hin. intuition discriminate.
    + intro Hlt. lia.
    + intros _. now split.
    + now split.
Qed.

End DoublePull.

(** The second pull 749 ms after the first engages, 751 ms after it does
not. *)
Lemma double_pull_engagement_witness :
  PCC.enable_pedal_cruise
    (fst (update_stat stub pulled_once
            (car 20 CruiseButtons.MAIN false false 0) 3 1000749)) = true
  /\ PCC.enable_pedal_cruise
       (fst (update_stat stub pulled_once
               (car 20 CruiseButtons.MAIN false false 0) 3 1000751)) = false.
Proof.
  assert (Hp : PCC.prev_cruise_buttons pulled_once <> CruiseButtons.MAIN)
    by (vm_compute; discriminate).
  split.
  - apply (double_pull_engagement stub pulled_once
             (car 20 CruiseButtons.MAIN false false 0) 3 1000749
             eq_refl eq_refl Hp eq_refl).
    reflexivity.
  - apply (double_pull_engagement stub pulled_once
             (car 20 CruiseButtons.MAIN false false 0) 3 1000751
             eq_refl eq_refl Hp eq_refl).
    vm_compute. discriminate.
Defined.

(** C5, as stated, fails when the pedal interceptor reports a fault: the
stalk is pulled a second time 300 ms after the first, the system is ready,
and the cycle returns before the stalk is looked at. *)
Lemma double_pull_ignored_on_pedal_fault :
  CS.cruise_buttons (car 20 CruiseButtons.MAIN false false 1) = CruiseButtons.MAIN
  /\ PCC.prev_cruise_buttons pulled_once <> CruiseButtons.MAIN
  /\ (PCCState.OFF <? PCC.button_status pulled_once)%Z
     && CruiseState_is_off stub
          (CS.pcm_acc_status (car 20 CruiseButtons.MAIN false false 1))
     || CS.forcePedalOverCC (car 20 CruiseButtons.MAIN false false 1) = true
  /\ (1000300 - PCC.stalk_pull_time_ms pulled_once < STALK_DOUBLE_PULL_MS)%Z
  /\ PCC.enable_pedal_cruise
       (fst (update_stat stub pulled_once
               (car 20 CruiseButtons.MAIN false false 1) 3 1000300)) = false
  /\ fired (snd (update_stat stub pulled_once
                   (car 20 CruiseButtons.MAIN false false 1) 3 1000300)) = [].
Proof.
  repeat split; try (vm_compute; reflexivity). vm_compute; discriminate.
Qed.

(** ** The pedal encoder *)

Lemma PEDAL_MAX_UP_val : PEDAL_MAX_UP == 2.5.
Proof. reflexivity. Qed.

Lemma PEDAL_MAX_DOWN_val : PEDAL_MAX_DOWN == 12.5.
Proof. reflexivity. Qed.

Lemma clip_ge (x lo hi c : Q) : c <= x -> c <= hi -> c <= clip x lo hi.
Proof.
  intros Hx Hhi. unfold clip.
  destruct (pmin_spec hi x) as [[? E1]|[? E1]];
    destruct (pmax_spec lo (pmin hi x)) as [[? E2]|[? E2]];
    rewrite E2; rewrite ?E1 in *; lra.
Qed.

Lemma clip_le (x lo hi c : Q) : x <= c -> lo <= c -> clip x lo hi <= c.
Proof.
  intros Hx Hlo. unfold clip.
  destruct (pmin_spec hi x) as [[? E1]|[? E1]];
    destruct (pmax_spec lo (pmin hi x)) as [[? E2]|[? E2]];
    rewrite E2; rewrite ?E1 in *; lra.
Qed.

Section Encoder.
Context {LoCt FleetSpeed : Type}.

Lemma pedal_hysteresis_frame (self : PCC.t LoCt FleetSpeed) (pedal : Q)
    (enabled : bool) :
  snd (pedal_hysteresis self pedal enabled)
  = PCC.pedal_steady (fst (pedal_hysteresis self pedal enabled))
  /\ PCC.prev_tesla_pedal (fst (pedal_hysteresis self pedal enabled))
     = PCC.prev_tesla_pedal self
  /\ PCC.enable_pedal_cruise (fst (pedal_hysteresis self pedal enabled))
     = PCC.enable_pedal_cruise self
  /\ PCC.pedal_speed_kph (fst (pedal_hysteresis self pedal enabled))
     = PCC.pedal_speed_kph self.
Proof.
  unfold pedal_hysteresis. split_ifs; repeat split; reflexivity.
Qed.

(** The value the encoder emits is the one it stores; it lies in [0, 100],
at most [PEDAL_MAX_UP] above the stored previous output and, with the
enable flag set, at most [PEDAL_MAX_DOWN] below it. *)
Lemma encode_pedal_slew (self self' : PCC.t LoCt FleetSpeed) (cs : CS.t)
    (enabled : bool) (output_gb mult : Q) (idx : Z) (out : Q * Q * Z) :
  encode_pedal self cs enabled output_gb mult idx = Ok (self', out) ->
  fst (fst out) = PCC.prev_tesla_pedal self'
  /\ 0 <= fst (fst out) <= 100
  /\ (0 <= PCC.prev_tesla_pedal self <= 100 ->
      fst (fst out) <= PCC.prev_tesla_pedal self + 2.5
      /\ (PCC.enable_pedal_cruise self = true ->
          PCC.prev_tesla_pedal self - 12.5 <= fst (fst out))).
Proof.
  unfold encode_pedal. cbv zeta.
  destruct (_brake_pedal_min _ _ _ _ _) as [bpm|e]; [|discriminate].
  cbn [bind].
  match goal with
  | |- context [pedal_hysteresis ?s ?p ?en] =>
      pose proof (pedal_hysteresis_frame s p en) as (Hsnd & Hprev & Hen & _);
      destruct (pedal_hysteresis s p en) as [sh steady]
  end.
  cbn [fst snd] in *. cbn in Hprev, Hen.
  intro H. injection H as <- <-. cbn.
  rewrite Hprev, Hen.
  pose proof PEDAL_MAX_UP_val as HU. pose proof PEDAL_MAX_DOWN_val as HD.
  set (U := PEDAL_MAX_UP) in *. set (D := PEDAL_MAX_DOWN) in *.
  clearbody U D.
  set (prev := PCC.prev_tesla_pedal self) in *.
  assert (Hin : prev - D <= clip steady (prev - D) (prev + U) <= prev + U)
    by (apply clip_range; lra).
  set (inner := clip steady (prev - D) (prev + U)) in *. clearbody inner.
  assert (Hout : 0 <= clip inner 0 MAX_PEDAL_VALUE <= 100)
    by (apply clip_range; unfold MAX_PEDAL_VALUE; lra).
  split; [reflexivity|].
  destruct (PCC.enable_pedal_cruise self).
  - split; [lra|]. intros Hp. split.
    + assert (clip inner 0 MAX_PEDAL_VALUE <= prev + U)
        by (apply clip_le; lra).
      lra.
    + intros _.
      assert (prev - D <= clip inner 0 MAX_PEDAL_VALUE)
        by (apply clip_ge; unfold MAX_PEDAL_VALUE; lra).
      lra.
  - split; [lra|]. intros Hp. split; [lra|]. discriminate.
Qed.

End Encoder.

Section PedalCycle.
Context {LoCt FleetSpeed : Type}.
Variable E : Externals LoCt FleetSpeed.

Lemma same_pedal_fields_trans (s1 s2 s3 : PCC.t LoCt FleetSpeed) :
  same_pedal_fields s1 s2 -> same_pedal_fields s2 s3 -> same_pedal_fields s1 s3.
Proof.
  unfold same_pedal_fields. intros (? & ? & ? & ?) (? & ? & ? & ?).
  repeat split; congruence.
Qed.

Lemma calibrate_pedal_zero_frame (s : PCC.t LoCt FleetSpeed) (cs : CS.t) :
  same_pedal_fields s (calibrate_pedal_zero s cs).
Proof.
  unfold same_pedal_fields, calibrate_pedal_zero.
  split_ifs; repeat split; reflexivity.
Qed.

Lemma apply_speed_limit_frame (s : PCC.t LoCt FleetSpeed) (lim : Q) (act : bool)
    (off : Q) :
  same_pedal_fields s (apply_speed_limit E s lim act off).
Proof.
  unfold same_pedal_fields, apply_speed_limit.
  split_ifs; repeat split; reflexivity.
Qed.

Lemma ingest_lead_frame (s : PCC.t LoCt FleetSpeed) (env : Env.t) :
  same_pedal_fields s (ingest_lead s env).
Proof.
  unfold same_pedal_fields, ingest_lead.
  destruct (Env.radSt env); split_ifs; repeat split; reflexivity.
Qed.

(** The state of [update_pdl] at its early-return test. *)
Lemma update_pdl_prologue_frame (s : PCC.t LoCt FleetSpeed) (a : PdlArgs.t) :
  same_pedal_fields s
    (PCC.set_pedal_idx
       (apply_speed_limit E
          (calibrate_pedal_zero
             (PCC.set_prev_speed_limit_kph s (PCC.speed_limit_kph s))
             (PdlArgs.cs a))
          (PdlArgs.speed_limit_ms a) (PdlArgs.set_speed_limit_active a)
          (PdlArgs.speed_limit_offset a))
       ((PCC.pedal_idx
           (apply_speed_limit E
              (calibrate_pedal_zero
                 (PCC.set_prev_speed_limit_kph s (PCC.speed_limit_kph s))
                 (PdlArgs.cs a))
              (PdlArgs.speed_limit_ms a) (PdlArgs.set_speed_limit_active a)
              (PdlArgs.speed_limit_offset a)) + 1) mod 16)%Z).
Proof.
  set (s0 := PCC.set_prev_speed_limit_kph s (PCC.speed_limit_kph s)).
  set (s1 := calibrate_pedal_zero s0 (PdlArgs.cs a)).
  set (s2 := apply_speed_limit E s1 _ _ _).
  apply (same_pedal_fields_trans s s0);
    [unfold same_pedal_fields; repeat split; reflexivity|].
  apply (same_pedal_fields_trans s0 s1); [apply calibrate_pedal_zero_frame|].
  apply (same_pedal_fields_trans s1 s2); [apply apply_speed_limit_frame|].
  unfold same_pedal_fields. repeat split; reflexivity.
Qed.

(** A call that returns early emits 0 and leaves the encoder's fields as
they were: the stored output, and the steady value of the hysteresis. *)
Lemma update_pdl_early_return (s : PCC.t LoCt FleetSpeed) (a : PdlArgs.t) :
  negb (PCC.pcc_available s) || negb (PdlArgs.enabled a) = true ->
  exists s', update_pdl_with E s a = Ok (s', (0, 0, PCC.pedal_idx s))
             /\ same_pedal_fields s s'.
Proof.
  intro H. unfold update_pdl_with, update_pdl. cbv zeta.
  pose proof (update_pdl_prologue_frame s a) as Hf.
  destruct Hf as (Hav & Hrest).
  rewrite Hav, H. eexists. split; [reflexivity|].
  split; [exact Hav|exact Hrest].
Qed.

(** A call that runs to the end returns what [encode_pedal] returns for the
request [gas - brake] and the multiplier 12, from a state with the same
stored output and enable flag. *)
Lemma update_pdl_full_path (s s' : PCC.t LoCt FleetSpeed) (a : PdlArgs.t)
    (out : Q * Q * Z) :
  update_pdl_with E s a = Ok (s', out) ->
  PCC.pcc_available s && PdlArgs.enabled a = true ->
  exists sE,
    encode_pedal sE (PdlArgs.cs a) (PdlArgs.enabled a)
      (Actuators.gas (PdlArgs.actuators a) - Actuators.brake (PdlArgs.actuators a))
      12 (PCC.pedal_idx s) = Ok (s', out)
    /\ same_pedal_fields s sE.
Proof.
  unfold update_pdl_with, update_pdl. cbv zeta.
  pose proof (update_pdl_prologue_frame s a) as Hf.
  set (sp := PCC.set_pedal_idx _ _) in *.
  intros H Hfull. apply andb_true_iff in Hfull. destruct Hfull as [Ha He].
  destruct Hf as (Hav & Hrest).
  rewrite Hav, Ha, He in H. cbn [negb orb] in H.
  pose proof (ingest_lead_frame sp (PdlArgs.env a)) as Hl.
  set (sl := ingest_lead sp (PdlArgs.env a)) in *.
  destruct (envelope E sl (PdlArgs.cs a)) as [[al jl]|e]; [|discriminate].
  cbn [bind] in H. unfold op_branch in H. cbn [bind] in H.
  eexists. split; [rewrite He; exact H|].
  eapply same_pedal_fields_trans; [split; [exact Hav|exact Hrest]|].
  eapply same_pedal_fields_trans; [exact Hl|].
  unfold same_pedal_fields. repeat split; reflexivity.
Qed.

(** With a follow time that is not negative [update_pdl] returns a command,
whatever the state and the other inputs. *)
Lemma update_pdl_returns (s : PCC.t LoCt FleetSpeed) (a : PdlArgs.t) :
  0 <= CS.apFollowTimeInS (PdlArgs.cs a) ->
  exists s' out, update_pdl_with E s a = Ok (s', out).
Proof.
  intro Ht. unfold update_pdl_with, update_pdl. cbv zeta.
  destruct (negb (PCC.pcc_available _) || negb (PdlArgs.enabled a)); [eauto|].
  unfold envelope. cbv zeta.
  match goal with
  | |- context [_decel_limit ?am ?v ?l ?c ?m] =>
      destruct (decel_limit_ok am v l c m Ht) as [dl Hdl]; rewrite Hdl
  end.
  cbn [bind]. unfold op_branch. cbn [bind]. unfold encode_pedal. cbv zeta.
  match goal with
  | |- context [_brake_pedal_min ?v ?vt ?l ?c ?m] =>
      destruct (brake_pedal_min_ok v vt l c m) as [bpm Hb]; rewrite Hb
  end.
  cbn [bind].
  match goal with
  | |- context [pedal_hysteresis ?st ?p ?en] =>
      destruct (pedal_hysteresis st p en) as [sh steady]
  end.
  eauto.
Qed.

(** [update_stat] leaves the stored pedal output and the steady value of
the hysteresis as they are. *)
Lemma update_stat_keeps_pedal_output (s : PCC.t LoCt FleetSpeed) (cs : CS.t)
    (frame t : Z) :
  PCC.prev_tesla_pedal (fst (update_stat E s cs frame t)) = PCC.prev_tesla_pedal s
  /\ PCC.pedal_steady (fst (update_stat E s cs frame t)) = PCC.pedal_steady s.
Proof.
  unfold update_stat.
  pose proof (update_pedal_state_frame E s cs frame) as (_ & Hp0 & Hs0).
  destruct (_update_pedal_state E (ensure_LoC E s cs) cs frame) as [s0 ev0].
  cbn [fst] in *.
  destruct (negb (PCC.pcc_available s0)).
  - destruct (unavailable_cycle_frame s0 cs frame ev0) as (_ & _ & _ & Hp & Hs).
    split; congruence.
  - pose proof (brake_check_fired E s0 cs) as Hb.
    destruct (brake_check E s0 cs) as [s1 f2]. cbn [fst snd] in Hb.
    assert (H1 : PCC.prev_tesla_pedal s1 = PCC.prev_tesla_pedal s0
                 /\ PCC.pedal_steady s1 = PCC.pedal_steady s0)
      by (destruct Hb as [[_ ->]|[_ ->]]; split; reflexivity).
    pose proof (stalk_chain_frame E s1 cs t) as (_ & Hp2 & Hs2 & _).
    destruct (stalk_chain E s1 cs t) as [s2 f3]. cbn [fst] in *.
    pose proof (notify_toggle_frame E s2 cs (PCC.enable_pedal_cruise s0))
      as (_ & _ & _ & _ & _ & Hp3 & Hs3).
    destruct (notify_toggle E s2 cs (PCC.enable_pedal_cruise s0)) as [s3 ev2].
    cbn [fst] in *. cbn. destruct H1. split; congruence.
Qed.

(** C3, as the code has it.  Over two consecutive calls of [update_pdl] that
both run the encoder (pedal path available, [enabled] set), whatever happens
in between leaving the stored output alone (as [update_stat] does), the
emitted value rises by at most [PEDAL_MAX_UP = 100 * dt / 2 = 2.5] and, with
the enable flag set in the second call, falls by at most
[PEDAL_MAX_DOWN = 100 * dt / 0.4 = 12.5]. *)
Theorem pedal_slew_rate (s s1 s1' s2 : PCC.t LoCt FleetSpeed)
    (a1 a2 : PdlArgs.t) (out1 out2 : Q * Q * Z) :
  update_pdl_with E s a1 = Ok (s1, out1) ->
  PCC.pcc_available s && PdlArgs.enabled a1 = true ->
  PCC.prev_tesla_pedal s1' = PCC.prev_tesla_pedal s1 ->
  update_pdl_with E s1' a2 = Ok (s2, out2) ->
  PCC.pcc_available s1' && PdlArgs.enabled a2 = true ->
  PEDAL_MAX_UP == 2.5 /\ PEDAL_MAX_DOWN == 12.5
  /\ fst (fst out2) <= fst (fst out1) + PEDAL_MAX_UP
  /\ (PCC.enable_pedal_cruise s1' = true ->
      fst (fst out1) - PEDAL_MAX_DOWN <= fst (fst out2)).
Proof.
  intros H1 Hf1 Hkeep H2 Hf2.
  split; [reflexivity|]. split; [reflexivity|].
  destruct (update_pdl_full_path s s1 a1 out1 H1 Hf1) as (sE1 & He1 & _).
  destruct (encode_pedal_slew _ _ _ _ _ _ _ _ He1) as (Hst1 & Hr1 & _).
  destruct (update_pdl_full_path s1' s2 a2 out2 H2 Hf2)
    as (sE2 & He2 & (_ & Hp2 & Hen2 & _)).
  destruct (encode_pedal_slew _ _ _ _ _ _ _ _ He2) as (_ & _ & Hslew).
  assert (Hprev : PCC.prev_tesla_pedal sE2 = fst (fst out1)) by congruence.
  rewrite Hprev, Hen2 in Hslew.
  pose proof PEDAL_MAX_UP_val as HU. pose proof PEDAL_MAX_DOWN_val as HD.
  destruct (Hslew Hr1) as [Hup Hdown].
  split; [lra|]. intro Hen. specialize (Hdown Hen). lra.
Qed.

End PedalCycle.

(** Two calls with full gas from the engaged controller: 2.5, then 5. *)
Lemma pedal_slew_rate_witness :
  fst (fst out_two) <= fst (fst out_one) + PEDAL_MAX_UP
  /\ fst (fst out_one) - PEDAL_MAX_DOWN <= fst (fst out_two).
Proof.
  assert (H1 : update_pdl_with stub engaged full_gas = Ok (after_one, out_one))
    by (vm_compute; reflexivity).
  assert (H2 : update_pdl_with stub after_one full_gas = Ok (after_two, out_two))
    by (vm_compute; reflexivity).
  destruct (pedal_slew_rate stub engaged after_one after_one after_two
              full_gas full_gas out_one out_two H1 eq_refl eq_refl H2 eq_refl)
    as (_ & _ & Hup & Hdown).
  split; [exact Hup|]. apply Hdown. vm_compute. reflexivity.
Defined.

(** C3, as stated, fails.  The first two calls with full gas emit 2.5 and 5:
a rise of 2.5, above 1.25.  After six such calls the output is 15; the next
call, with [enabled] false, emits 0: a fall of 15, above 12.5; and the call
after that, [enabled] again, emits 17.5 after the 0. *)
Lemma slew_bound_exceeded :
  (fst (fst out_one) == 2.5 /\ fst (fst out_two) == 5
   /\ ~ fst (fst out_two) <= fst (fst out_one) + 1.25)
  /\ exists s6 v6 s7 out7 s8 out8,
       run_pdl stub 6 full_gas engaged 0 = Ok (s6, v6)
       /\ update_pdl_with stub s6 full_gas_not_enabled = Ok (s7, out7)
       /\ update_pdl_with stub s7 full_gas = Ok (s8, out8)
       /\ v6 == 15 /\ fst (fst out7) == 0 /\ fst (fst out8) == 17.5
       /\ ~ v6 - 12.5 <= fst (fst out7)
       /\ ~ fst (fst out8) <= fst (fst out7) + 2.5.
Proof.
  split.
  - split; [vm_compute; reflexivity|]. split; [vm_compute; reflexivity|].
    intro H. vm_compute in H. now apply H.
  - do 6 eexists.
    split; [vm_compute; reflexivity|].
    split; [vm_compute; reflexivity|].
    split; [vm_compute; reflexivity|].
    split; [vm_compute; reflexivity|].
    split; [vm_compute; reflexivity|].
    split; [vm_compute; reflexivity|].
    split; intro H; vm_compute in H; now apply H.
Qed.

(** ** The hysteresis and the target speed on the other paths *)

(** The test at lines 415-416 of the module returns before the hysteresis:
whenever [update_pdl] reaches [pedal_hysteresis], [enabled] is true, and a
call with [enabled] false leaves [pedal_steady] as it was. *)
Lemma pedal_steady_kept_when_not_enabled {LoCt FleetSpeed : Type}
    (E : Externals LoCt FleetSpeed) (s : PCC.t LoCt FleetSpeed) (a : PdlArgs.t) :
  PdlArgs.enabled a = false ->
  exists s', update_pdl_with E s a = Ok (s', (0, 0, PCC.pedal_idx s))
             /\ PCC.pedal_steady s' = PCC.pedal_steady s.
Proof.
  intro H.
  destruct (update_pdl_early_return E s a) as (s' & Hr & (_ & _ & _ & Hst)).
  - rewrite H. now rewrite orb_true_r.
  - eauto.
Qed.

(** C8 at a failing input.  After one call with full gas the steady value is
99.  The cancel button then disengages the controller; the next call of
[update_pdl], with [enabled] false, ends with the steady value still 99. *)
Lemma pedal_steady_not_reset_when_disabled :
  PCC.pedal_steady after_one == 99
  /\ PCC.enable_pedal_cruise
       (fst (update_stat stub after_one
               (car 20 CruiseButtons.CANCEL false false 0) 6 1002000)) = false
  /\ exists s2 out2,
       update_pdl_with stub
         (fst (update_stat stub after_one
                 (car 20 CruiseButtons.CANCEL false false 0) 6 1002000))
         full_gas_not_enabled = Ok (s2, out2)
       /\ fst (fst out2) == 0
       /\ PCC.pedal_steady s2 == 99
       /\ ~ PCC.pedal_steady s2 == 0.
Proof.
  split; [vm_compute; reflexivity|]. split; [vm_compute; reflexivity|].
  do 2 eexists.
  split; [vm_compute; reflexivity|].
  split; [vm_compute; reflexivity|].
  split; [vm_compute; reflexivity|].
  intro H. vm_compute in H. discriminate H.
Qed.

(** The button path clamps the target to [0, 270], and the cancel sets it
to 0. *)
Lemma speed_adjust_in_range {LoCt FleetSpeed : Type}
    (E : Externals LoCt FleetSpeed) (s : PCC.t LoCt FleetSpeed) (cs : CS.t) (t : Z) :
  (snd (stalk_chain E s cs t) = [T5_speed_adjust] ->
   MIN_PCC_V_KPH <= PCC.pedal_speed_kph (fst (stalk_chain E s cs t)) <= MAX_PCC_V_KPH)
  /\ (snd (stalk_chain E s cs t) = [T4_cancel] ->
      PCC.pedal_speed_kph (fst (stalk_chain E s cs t)) = 0).
Proof.
  unfold stalk_chain. split_ifs; cbn [fst snd]; split; intro H;
    try discriminate H; try reflexivity.
  all: cbn; apply clip_range; unfold MIN_PCC_V_KPH, MAX_PCC_V_KPH; lra.
Qed.

(** C6 at failing inputs.  With the speed limit active, a limit of 2 m/s and
an offset of -3 m/s, [update_pdl] stores the target -3.6 kph; a double pull
of the stalk at 80 m/s stores the target 288 kph. *)
Lemma target_speed_leaves_range :
  (exists s' out,
     update_pdl_with stub engaged low_speed_limit = Ok (s', out)
     /\ PCC.pedal_speed_kph s' == -3.6
     /\ ~ MIN_PCC_V_KPH <= PCC.pedal_speed_kph s')
  /\ PCC.pedal_speed_kph
       (fst (update_stat stub pulled_once
               (car 80 CruiseButtons.MAIN false false 0) 3 1000300)) == 288
  /\ ~ PCC.pedal_speed_kph
         (fst (update_stat stub pulled_once
                 (car 80 CruiseButtons.MAIN false false 0) 3 1000300))
       <= MAX_PCC_V_KPH.
Proof.
  split; [|split].
  - do 2 eexists. split; [vm_compute; reflexivity|].
    split; [vm_compute; reflexivity|].
    intro H. vm_compute in H. now apply H.
  - vm_compute. reflexivity.
  - intro H. vm_compute in H. now apply H.
Qed.

(** ** The follow branch *)

Section FollowBranch.
Context {LoCt FleetSpeed : Type}.
Variable E : Externals LoCt FleetSpeed.

(** The envelope and the encoder read no UI mode. *)
Lemma envelope_ignores_mode (s : PCC.t LoCt FleetSpeed) (cs : CS.t) (l : string) :
  envelope E s (CS.set_button_label2 cs l) = envelope E s cs.
Proof. destruct cs. reflexivity. Qed.

Lemma encode_pedal_ignores_mode (s : PCC.t LoCt FleetSpeed) (cs : CS.t)
    (l : string) (enabled : bool) (gb mult : Q) (idx : Z) :
  encode_pedal s (CS.set_button_label2 cs l) enabled gb mult idx
  = encode_pedal s cs enabled gb mult idx.
Proof. destruct cs. reflexivity. Qed.

Lemma calibrate_pedal_zero_ignores_mode (s : PCC.t LoCt FleetSpeed) (cs : CS.t)
    (l : string) :
  calibrate_pedal_zero s (CS.set_button_label2 cs l) = calibrate_pedal_zero s cs.
Proof. destruct cs. reflexivity. Qed.

(** C9.  [update_pdl] is the controller with the follow branch removed: for
every state and every input the two return the same result, whatever mode
the UI buttons select (the follow mode included); the request of a call that runs to the end is
[actuators.gas - actuators.brake], with [v_pid] set to [pcm_speed]. *)
Theorem follow_branch_is_dead (self : PCC.t LoCt FleetSpeed) (enabled : bool)
    (cs : CS.t) (frame : Z) (actuators : Actuators.t) (pcm_speed : Q)
    (pcm_override : bool) (speed_limit_ms : Q) (set_speed_limit_active : bool)
    (speed_limit_offset : Q) (alca_enabled : bool) (env : Env.t) :
  update_pdl E self enabled cs frame actuators pcm_speed pcm_override
    speed_limit_ms set_speed_limit_active speed_limit_offset alca_enabled env
  = update_pdl_op_only E self enabled cs frame actuators pcm_speed pcm_override
      speed_limit_ms set_speed_limit_active speed_limit_offset alca_enabled env
  /\ PCCModes.is_selected FollowMode (CS.set_button_label2 cs (label FollowMode))
     = true
  /\ (forall l : string,
        update_pdl E self enabled (CS.set_button_label2 cs l) frame
          actuators pcm_speed pcm_override speed_limit_ms set_speed_limit_active
          speed_limit_offset alca_enabled env
        = update_pdl_op_only E self enabled cs frame actuators pcm_speed
            pcm_override speed_limit_ms set_speed_limit_active
            speed_limit_offset alca_enabled env)
  /\ (forall s' out,
        update_pdl E self enabled cs frame actuators pcm_speed pcm_override
          speed_limit_ms set_speed_limit_active speed_limit_offset alca_enabled
          env = Ok (s', out) ->
        PCC.pcc_available self && enabled = true ->
        PCC.last_output_gb s' = Actuators.gas actuators - Actuators.brake actuators
        /\ PCC.v_pid s' = pcm_speed).
Proof.
  assert (Heq : forall cs',
            update_pdl E self enabled cs' frame actuators pcm_speed pcm_override
              speed_limit_ms set_speed_limit_active speed_limit_offset
              alca_enabled env
            = update_pdl_op_only E self enabled cs' frame actuators pcm_speed
                pcm_override speed_limit_ms set_speed_limit_active
                speed_limit_offset alca_enabled env).
  { intro cs'. unfold update_pdl, update_pdl_op_only. cbv zeta.
    destruct (negb (PCC.pcc_available _) || negb enabled); [reflexivity|].
    destruct (envelope E _ cs') as [[al jl]|e]; reflexivity. }
  split; [apply Heq|]. split; [reflexivity|]. split.
  - intro l. rewrite Heq. unfold update_pdl_op_only. cbv zeta.
    rewrite calibrate_pedal_zero_ignores_mode.
    destruct (negb (PCC.pcc_available _) || negb enabled); [reflexivity|].
    rewrite envelope_ignores_mode.
    destruct (envelope E _ cs) as [[al jl]|e]; [|reflexivity].
    cbn [bind]. apply encode_pedal_ignores_mode.
  - intros s' out H Hfull. rewrite Heq in H. revert H.
    unfold update_pdl_op_only. cbv zeta.
    apply andb_true_iff in Hfull. destruct Hfull as [Ha He].
    match goal with
    | |- context [negb (PCC.pcc_available ?sp)] =>
        assert (Hav : PCC.pcc_available sp = PCC.pcc_available self)
    end.
    { apply (update_pdl_prologue_frame E self
               (PdlArgs.mk enabled cs frame actuators pcm_speed pcm_override
                  speed_limit_ms set_speed_limit_active speed_limit_offset
                  alca_enabled env)). }
    rewrite Hav, Ha, He. cbn [negb orb].
    destruct (envelope E _ cs) as [[al jl]|e]; [|discriminate].
    cbn [bind]. unfold encode_pedal. cbv zeta.
    destruct (_brake_pedal_min _ _ _ _ _) as [bpm|e]; [|discriminate].
    cbn [bind].
    match goal with
    | |- context [pedal_hysteresis ?s ?p ?en] =>
        assert (Hh : PCC.last_output_gb (fst (pedal_hysteresis s p en))
                     = Actuators.gas actuators - Actuators.brake actuators
                     /\ PCC.v_pid (fst (pedal_hysteresis s p en)) = pcm_speed)
          by (unfold pedal_hysteresis; split_ifs; split; reflexivity);
        destruct (pedal_hysteresis s p en) as [sh steady]
    end.
    cbn [fst] in Hh. intro H. injection H as <- _. cbn. exact Hh.
Qed.

End FollowBranch.

Lemma follow_branch_is_dead_witness :
  PCC.last_output_gb after_one = 1 - 0 /\ PCC.v_pid after_one = 20.
Proof.
  assert (H1 : update_pdl stub engaged true
                 (car 20 CruiseButtons.IDLE false false 0) 5 (Actuators.mk 1 0)
                 20 false 0 false 0 false (Env.mk None None 1000400)
               = Ok (after_one, out_one))
    by (vm_compute; reflexivity).
  exact (proj2 (proj2 (proj2 (follow_branch_is_dead stub engaged true
                         (car 20 CruiseButtons.IDLE false false 0) 5
                         (Actuators.mk 1 0) 20 false 0 false 0 false
                         (Env.mk None None 1000400))))
           after_one out_one H1 eq_refl).
Defined.

(** * Further properties of the module *)

(** X1.  [_visual_radar_adjusted_dist_m] maps every distance up to 7 m to 0
(and only those), grows linearly to 1000 at 1000 m and stays there; the
result lies in [0, 1000]. *)
Theorem visual_radar_adjusted_dist_range (m : Q) (cs : CS.t) :
  0 <= _visual_radar_adjusted_dist_m m cs <= 1000
  /\ (_visual_radar_adjusted_dist_m m cs == 0 <-> m <= 7)
  /\ (1000 < m -> _visual_radar_adjusted_dist_m m cs = 1000)
  /\ (7 < m -> m <= 1000 ->
      _visual_radar_adjusted_dist_m m cs == (m - 7) * 1000 / 993).
Proof.
  assert (Hmid : 7 < m -> m <= 1000 ->
                 _visual_radar_adjusted_dist_m m cs == (m - 7) * 1000 / 993).
  { intros H7 H1000. unfold _visual_radar_adjusted_dist_m, _interp_map.
    cbn [map fst snd interp interp_seg].
    apply Qleb_gt in H7. apply Qle_bool_iff in H1000.
    rewrite H7, H1000. field. }
  split; [unfold _visual_radar_adjusted_dist_m; table_bounds|].
  split; [|split; [|exact Hmid]].
  - split.
    + intro Hz. destruct (Qlt_le_dec 7 m) as [H7|H7]; [|exact H7].
      destruct (Qlt_le_dec 1000 m) as [Hk|Hk].
      * exfalso. revert Hz.
        unfold _visual_radar_adjusted_dist_m, _interp_map.
        cbn [map fst snd interp interp_seg].
        apply Qleb_gt in H7, Hk. rewrite H7, Hk. intro Hz. lra.
      * exfalso. rewrite (Hmid H7 Hk) in Hz.
        assert (He : (m - 7) * 1000 / 993 == (m - 7) * (1000 / 993)) by field.
        rewrite He in Hz.
        assert (Hc : 0 < 1000 / 993) by reflexivity.
        set (c := 1000 / 993) in *. clearbody c. nra.
    + intro H7. unfold _visual_radar_adjusted_dist_m, _interp_map.
      cbn [map fst snd interp]. apply Qle_bool_iff in H7. rewrite H7.
      reflexivity.
  - intro Hk. unfold _visual_radar_adjusted_dist_m, _interp_map.
    cbn [map fst snd interp interp_seg].
    assert (H7 : 7 < m) by lra.
    apply Qleb_gt in H7, Hk. now rewrite H7, Hk.
Qed.

Lemma visual_radar_adjusted_dist_range_witness :
  _visual_radar_adjusted_dist_m 503.5 (car 20 CruiseButtons.IDLE false false 0)
  == (503.5 - 7) * 1000 / 993.
Proof.
  apply (visual_radar_adjusted_dist_range 503.5
           (car 20 CruiseButtons.IDLE false false 0)).
  - reflexivity.
  - vm_compute; discriminate.
Defined.

(** X2.  [_brake_pedal_min] always returns a fraction in [-1, -0.3]. *)
Theorem brake_pedal_min_range (v_ego v_target : Q) (lead : option Lead.t)
    (cs : CS.t) (max_speed_kph : Q) :
  exists q, _brake_pedal_min v_ego v_target lead cs max_speed_kph = Ok q
            /\ -1 <= q <= -0.3.
Proof.
  unfold _brake_pedal_min.
  destruct (v_ego <=? 7 * CV.MPH_TO_MS) eqn:Hg;
    [eexists; split; [reflexivity|lra]|].
  destruct (max_speed_kph <? v_ego * CV.MS_TO_KPH);
    [eexists; split; [reflexivity|lra]|].
  qprop. pose proof MPH_TO_MS_pos as Hm.
  rewrite py_div_ok by lra. cbn [bind]. cbv zeta.
  eexists. split; [reflexivity|].
  set (p := 100 * (v_ego - v_target) / v_ego).
  assert (H1 : 0.3 <= _interp_map p [(0, 0.3); (1.5, 0.5); (5, 0.8); (7, 1); (50, 1)]
               <= 1) by table_bounds.
  set (m1 := _interp_map p _) in *. clearbody m1.
  match goal with
  | |- context [pmax m1 ?m2] =>
      assert (H2 : 0 <= m2 <= 1);
      [|set (b2 := m2) in *; clearbody b2;
        destruct (pmax_spec m1 b2) as [[? ->]|[? ->]]; lra]
  end.
  destruct lead as [l|]; [|lra].
  destruct (_is_present (Some l)); [|lra].
  assert (0.4 <= _interp_map (Lead.dRel l)
                   [(0.8 * _safe_distance_m (CS.v_ego cs) cs, 1);
                    (1.0 * _safe_distance_m (CS.v_ego cs) cs, 0.6);
                    (3.0 * _safe_distance_m (CS.v_ego cs) cs, 0.4)] <= 1)
    by table_bounds.
  lra.
Qed.



(** X4.  [PCCModes.from_label] gives back the mode of a mode's label and
[OpMode] for any other label; [is_selected] holds exactly for the mode the
label of the buttons stands for. *)
Theorem from_label_round_trip (m : Mode) (l : string) (cs : CS.t) :
  PCCModes.from_label (label m) = m
  /\ (l <> "OP"%string -> l <> "FOLLOW"%string -> PCCModes.from_label l = OpMode)
  /\ (PCCModes.is_selected m cs = true <-> PCCModes.from_buttons cs = m)
  /\ map label PCCModes._all_modes = ["OP"; "FOLLOW"]%string.
Proof.
  split; [destruct m; reflexivity|]. split; [|split; [|reflexivity]].
  - intros Hop Hfo. unfold PCCModes.from_label. cbn [find PCCModes._all_modes label].
    apply String.eqb_neq in Hop, Hfo.
    rewrite String.eqb_sym in Hop. rewrite String.eqb_sym in Hfo.
    now rewrite Hop, Hfo.
  - unfold PCCModes.is_selected.
    destruct m, (PCCModes.from_buttons cs); cbn; split; intro H;
      try reflexivity; discriminate.
Qed.

Lemma from_label_round_trip_witness :
  PCCModes.from_label "ACC" = OpMode.
Proof.
  assert (H1 : "ACC"%string <> "OP"%string) by discriminate.
  assert (H2 : "ACC"%string <> "FOLLOW"%string) by discriminate.
  exact (proj1 (proj2 (from_label_round_trip OpMode "ACC"
                         (car 20 CruiseButtons.IDLE false false 0))) H1 H2).
Defined.

(** ** More on the engagement state machine *)

Lemma CruiseButtons_eqb_eq (a b : CruiseButtons.t) :
  CruiseButtons.eqb a b = true <-> a = b.
Proof. destruct a, b; cbn; split; intro H; try reflexivity; discriminate. Qed.

Section EngagementCycle.
Context {LoCt FleetSpeed : Type}.
Variable E : Externals LoCt FleetSpeed.

(** A cycle that finds the pedal path available: the state [s1] after the
brake check, and what the cycle's end keeps of the chain's result. *)
Lemma update_stat_available_shape (s : PCC.t LoCt FleetSpeed) (cs : CS.t)
    (frame t : Z) :
  PCC.pcc_available (fst (update_stat E s cs frame t)) = true ->
  exists s1,
    PCC.enable_pedal_cruise s1
    = PCC.enable_pedal_cruise s && negb (CS.brake_pressed cs)
    /\ PCC.prev_cruise_buttons s1 = PCC.prev_cruise_buttons s
    /\ PCC.button_status s1 = PCC.button_status s
    /\ PCC.stalk_pull_time_ms s1 = PCC.stalk_pull_time_ms s
    /\ PCC.prev_stalk_pull_time_ms s1 = PCC.prev_stalk_pull_time_ms s
    /\ PCC.speed_limit_kph s1 = PCC.speed_limit_kph s
    /\ PCC.pedal_speed_kph s1 = PCC.pedal_speed_kph s
    /\ fired (snd (update_stat E s cs frame t))
       = (if CS.brake_pressed cs && PCC.enable_pedal_cruise s
          then [T2_brake_disable] else [])
         ++ snd (stalk_chain E s1 cs t)
    /\ can_sends (snd (update_stat E s cs frame t)) = []
    /\ PCC.enable_pedal_cruise (fst (update_stat E s cs frame t))
       = PCC.enable_pedal_cruise (fst (stalk_chain E s1 cs t))
    /\ PCC.pedal_speed_kph (fst (update_stat E s cs frame t))
       = PCC.pedal_speed_kph (fst (stalk_chain E s1 cs t))
    /\ PCC.stalk_pull_time_ms (fst (update_stat E s cs frame t))
       = PCC.stalk_pull_time_ms (fst (stalk_chain E s1 cs t))
    /\ PCC.prev_stalk_pull_time_ms (fst (update_stat E s cs frame t))
       = PCC.prev_stalk_pull_time_ms (fst (stalk_chain E s1 cs t))
    /\ PCC.prev_cruise_buttons (fst (update_stat E s cs frame t))
       = CS.cruise_buttons cs.
Proof.
  unfold update_stat.
  pose proof (update_pedal_state_frame E s cs frame)
    as ((Hen0 & Hpb0 & Hbs0 & Hst0 & Hps0 & Hsl0 & Hsp0) & _).
  destruct (_update_pedal_state E (ensure_LoC E s cs) cs frame) as [s0 ev0].
  cbn [fst] in *.
  destruct (PCC.pcc_available s0) eqn:Hav0; cbn [negb].
  2:{ intro Hav.
      destruct (unavailable_cycle_frame s0 cs frame ev0) as (Hu & _).
      congruence. }
  intros _. exists (fst (brake_check E s0 cs)).
  assert (Hb : fst (brake_check E s0 cs)
               = (if CS.brake_pressed cs && PCC.enable_pedal_cruise s
                  then PCC.set_enable_pedal_cruise s0 false else s0)
               /\ snd (brake_check E s0 cs)
                  = (if CS.brake_pressed cs && PCC.enable_pedal_cruise s
                     then [T2_brake_disable] else [])).
  { unfold brake_check. rewrite reset_id, Hen0.
    destruct (CS.brake_pressed cs && PCC.enable_pedal_cruise s); auto. }
  destruct Hb as [Hb1 Hb2].
  destruct (brake_check E s0 cs) as [s1 f2]. cbn [fst snd] in *. subst f2.
  pose proof (notify_toggle_frame E (fst (stalk_chain E s1 cs t)) cs
                (PCC.enable_pedal_cruise s0))
    as (_ & Hen3 & Hsp3 & Hst3 & Hps3 & _).
  destruct (stalk_chain E s1 cs t) as [s2 f3]. cbn [fst snd] in *.
  destruct (notify_toggle E s2 cs (PCC.enable_pedal_cruise s0)) as [s3 ev2].
  cbn [fst snd fired can_sends] in *.
  assert (Hs1 : PCC.enable_pedal_cruise s1
                = PCC.enable_pedal_cruise s && negb (CS.brake_pressed cs)
                /\ PCC.prev_cruise_buttons s1 = PCC.prev_cruise_buttons s
                /\ PCC.button_status s1 = PCC.button_status s
                /\ PCC.stalk_pull_time_ms s1 = PCC.stalk_pull_time_ms s
                /\ PCC.prev_stalk_pull_time_ms s1 = PCC.prev_stalk_pull_time_ms s
                /\ PCC.speed_limit_kph s1 = PCC.speed_limit_kph s
                /\ PCC.pedal_speed_kph s1 = PCC.pedal_speed_kph s).
  { rewrite Hb1.
    destruct (CS.brake_pressed cs), (PCC.enable_pedal_cruise s) eqn:He;
      cbn; repeat split; congruence. }
  destruct Hs1 as (? & ? & ? & ? & ? & ? & ?).
  repeat split; try assumption; cbn; congruence.
Qed.

(** The chain engages only on a press edge of the main stalk that is a
double pull with the system ready. *)
Lemma stalk_chain_enable_cases (s : PCC.t LoCt FleetSpeed) (cs : CS.t) (t : Z) :
  PCC.enable_pedal_cruise (fst (stalk_chain E s cs t)) = true ->
  PCC.enable_pedal_cruise s = true
  \/ (CS.cruise_buttons cs = CruiseButtons.MAIN
      /\ PCC.prev_cruise_buttons s <> CruiseButtons.MAIN
      /\ (PCCState.OFF <? PCC.button_status s)%Z
         && CruiseState_is_off E (CS.pcm_acc_status cs)
         || CS.forcePedalOverCC cs = true
      /\ (t - PCC.stalk_pull_time_ms s < STALK_DOUBLE_PULL_MS)%Z).
Proof.
  destruct (CruiseButtons.eqb (CS.cruise_buttons cs) CruiseButtons.MAIN
            && negb (CruiseButtons.eqb (PCC.prev_cruise_buttons s)
                       CruiseButtons.MAIN)) eqn:Hedge.
  - apply andb_true_iff in Hedge. destruct Hedge as [Hb Hp].
    apply CruiseButtons_eqb_eq in Hb. apply negb_true_iff in Hp.
    assert (Hp' : PCC.prev_cruise_buttons s <> CruiseButtons.MAIN).
    { intro C. apply CruiseButtons_eqb_eq in C. congruence. }
    destruct (stalk_chain_main_edge E s cs t Hb Hp') as (_ & _ & _ & Hyes & Hno).
    cbv zeta in Hyes, Hno.
    destruct ((PCCState.OFF <? PCC.button_status s)%Z
              && CruiseState_is_off E (CS.pcm_acc_status cs)
              || CS.forcePedalOverCC cs) eqn:Hr;
      destruct (t - PCC.stalk_pull_time_ms s <? STALK_DOUBLE_PULL_MS)%Z eqn:Hd;
      cbn [andb] in *.
    + intros _. right. apply Z.ltb_lt in Hd. auto.
    + destruct (Hno eq_refl) as [-> _]. auto.
    + destruct (Hno eq_refl) as [-> _]. auto.
    + destruct (Hno eq_refl) as [-> _]. auto.
  - unfold stalk_chain. rewrite Hedge. split_ifs;
      try (destruct (CS.cruise_buttons cs)); cbn; intro H;
      try discriminate H; auto.
Qed.

(** The chain on a cancel, and on a cycle without button edge. *)
Lemma stalk_chain_cancel (s : PCC.t LoCt FleetSpeed) (cs : CS.t) (t : Z) :
  CS.cruise_buttons cs = CruiseButtons.CANCEL ->
  stalk_chain E s cs t
  = (PCC.set_prev_stalk_pull_time_ms
       (PCC.set_stalk_pull_time_ms
          (PCC.set_pedal_speed_kph (PCC.set_enable_pedal_cruise s false) 0) 0)
       (-1000), [T4_cancel]).
Proof. intro H. unfold stalk_chain. rewrite H. reflexivity. Qed.

Lemma stalk_chain_no_edge (s : PCC.t LoCt FleetSpeed) (cs : CS.t) (t : Z) :
  CS.cruise_buttons cs = PCC.prev_cruise_buttons s ->
  CS.cruise_buttons cs <> CruiseButtons.CANCEL ->
  stalk_chain E s cs t
  = if PCC.enable_pedal_cruise s
       && negb (CS.pcm_acc_status cs =? 0)%Z && negb (CS.forcePedalOverCC cs)
    then (PCC.set_enable_pedal_cruise s false, [T6_cruise_takeover])
    else if PCC.enable_pedal_cruise s
            && (STALK_DOUBLE_PULL_MS <? t - PCC.stalk_pull_time_ms s)%Z
            && (STALK_DOUBLE_PULL_MS
                <? PCC.stalk_pull_time_ms s - PCC.prev_stalk_pull_time_ms s)%Z
    then (PCC.set_enable_pedal_cruise s false, [T7_single_pull_disable])
    else (s, []).
Proof.
  intros He Hc. unfold stalk_chain. rewrite <- He.
  assert (H1 : CruiseButtons.eqb (CS.cruise_buttons cs) CruiseButtons.MAIN
               && negb (CruiseButtons.eqb (CS.cruise_buttons cs)
                          CruiseButtons.MAIN) = false)
    by (destruct (CS.cruise_buttons cs); reflexivity).
  assert (H2 : CruiseButtons.eqb (CS.cruise_buttons cs) CruiseButtons.CANCEL
               = false)
    by (destruct (CS.cruise_buttons cs); try reflexivity; now contradiction Hc).
  assert (H3 : CruiseButtons.eqb (CS.cruise_buttons cs) (CS.cruise_buttons cs)
               = true)
    by (destruct (CS.cruise_buttons cs); reflexivity).
  rewrite H1, H2, H3. cbn [negb]. rewrite andb_false_r. reflexivity.
Qed.

(** The availability computed by [_update_pedal_state]. *)
Lemma update_pedal_state_available (s : PCC.t LoCt FleetSpeed) (cs : CS.t)
    (frame : Z) :
  let deadline :=
    if negb (CS.pedal_idx cs =? CS.prev_pedal_idx cs)%Z
    then (frame + 50)%Z else PCC.pedal_timeout_frame s in
  PCC.pcc_available (fst (_update_pedal_state E s cs frame))
  = (frame <? deadline)%Z && (CS.pedal_interceptor_state cs =? 0)%Z
    && (CS.forcePedalOverCC cs || CruiseState_is_off E (CS.pcm_acc_status cs))
  /\ PCC.pedal_timeout_frame (fst (_update_pedal_state E s cs frame)) = deadline
  /\ PCC.prev_pcc_available (fst (_update_pedal_state E s cs frame))
     = PCC.pcc_available s
  /\ PCC.pedal_idx (fst (_update_pedal_state E s cs frame)) = PCC.pedal_idx s.
Proof.
  unfold _update_pedal_state.
  destruct (negb (CS.pedal_idx cs =? CS.prev_pedal_idx cs)%Z);
    cbv zeta; split_ifs; repeat split; reflexivity.
Qed.

(** X5.  [_update_pedal_state]: a new interceptor message (index changed)
with no fault and standard cruise off (or the override) makes the pedal path
available and moves the deadline 50 frames ahead; a fault code other than 0
makes it unavailable; so does an unchanged index once the deadline is
reached.  The UI is reconfigured exactly when the availability changes. *)
Theorem pedal_availability (s : PCC.t LoCt FleetSpeed) (cs : CS.t) (frame : Z) :
  let s' := fst (_update_pedal_state E s cs frame) in
  (CS.pedal_idx cs <> CS.prev_pedal_idx cs ->
   PCC.pedal_timeout_frame s' = (frame + 50)%Z
   /\ (CS.pedal_interceptor_state cs = 0%Z ->
       CS.forcePedalOverCC cs || CruiseState_is_off E (CS.pcm_acc_status cs) = true ->
       PCC.pcc_available s' = true))
  /\ (CS.pedal_interceptor_state cs <> 0%Z -> PCC.pcc_available s' = false)
  /\ (CS.pedal_idx cs = CS.prev_pedal_idx cs ->
      (PCC.pedal_timeout_frame s <= frame)%Z ->
      PCC.pcc_available s' = false)
  /\ (snd (_update_pedal_state E s cs frame) = []
      <-> PCC.pcc_available s' = PCC.pcc_available s).
Proof.
  cbv zeta.
  destruct (update_pedal_state_available s cs frame) as (Hav & Hdl & Hprev & _).
  cbv zeta in Hav, Hdl. split; [|split; [|split]].
  - intro Hidx. apply Z.eqb_neq in Hidx. rewrite Hidx in Hav, Hdl. cbn [negb] in *.
    split; [exact Hdl|]. intros Hst Hacc. rewrite Hav, Hst, Hacc.
    assert (Hlt : (frame <? frame + 50)%Z = true) by (apply Z.ltb_lt; lia).
    now rewrite Hlt.
  - intro Hst. apply Z.eqb_neq in Hst. rewrite Hav, Hst.
    now rewrite andb_false_r.
  - intros Hidx Hto. apply Z.eqb_eq in Hidx. rewrite Hidx in Hav. cbn [negb] in Hav.
    apply Z.ltb_ge in Hto. now rewrite Hav, Hto.
  - rewrite <- Hprev. unfold _update_pedal_state. cbv zeta.
    match goal with
    | |- context [Bool.eqb ?a ?b] => destruct (Bool.eqb a b) eqn:Hc
    end; cbn [negb fst snd].
    + apply Bool.eqb_prop in Hc. split; [intros _; exact Hc|reflexivity].
    + split; [discriminate|]. intro Heq. rewrite Heq in Hc.
      now rewrite Bool.eqb_reflx in Hc.
Qed.

(** A cycle that finds the pedal path unavailable. *)
Lemma update_stat_unavailable_shape (s : PCC.t LoCt FleetSpeed) (cs : CS.t)
    (frame t : Z) :
  PCC.pcc_available (fst (update_stat E s cs frame t)) = false ->
  same_driver_fields s (fst (update_stat E s cs frame t))
  /\ fired (snd (update_stat E s cs frame t)) = []
  /\ (can_sends (snd (update_stat E s cs frame t)) = []
      /\ PCC.pedal_idx (fst (update_stat E s cs frame t)) = PCC.pedal_idx s
      \/ (frame mod 50 = 0)%Z
         /\ can_sends (snd (update_stat E s cs frame t))
            = [(0, 0%Z, PCC.pedal_idx s,
                if CS.useWithoutHarness cs then 0%Z else 2%Z)]
         /\ PCC.pedal_idx (fst (update_stat E s cs frame t))
            = ((PCC.pedal_idx s + 1) mod 16)%Z).
Proof.
  unfold update_stat.
  pose proof (update_pedal_state_frame E s cs frame) as (Hdr & _).
  destruct (update_pedal_state_available (ensure_LoC E s cs) cs frame)
    as (_ & _ & _ & Hidx).
  assert (Hidx0 : PCC.pedal_idx (ensure_LoC E s cs) = PCC.pedal_idx s)
    by (unfold ensure_LoC; destruct (PCC.LoC s); reflexivity).
  rewrite Hidx0 in Hidx.
  destruct (_update_pedal_state E (ensure_LoC E s cs) cs frame) as [s0 ev0].
  cbn [fst] in *.
  destruct (PCC.pcc_available s0) eqn:Hav0; cbn [negb].
  - intro Hav. exfalso. revert Hav.
    pose proof (brake_check_fired E s0 cs) as Hb.
    destruct (brake_check E s0 cs) as [s1 f2]. cbn [fst snd] in Hb.
    pose proof (stalk_chain_frame E s1 cs t) as (Hav2 & _).
    destruct (stalk_chain E s1 cs t) as [s2 f3]. cbn [fst] in *.
    pose proof (notify_toggle_frame E s2 cs (PCC.enable_pedal_cruise s0))
      as (Hav3 & _).
    destruct (notify_toggle E s2 cs (PCC.enable_pedal_cruise s0)) as [s3 ev2].
    cbn [fst] in *. cbn. rewrite Hav3, Hav2.
    destruct Hb as [[_ ->]|[_ ->]]; cbn; congruence.
  - intros _. unfold same_driver_fields in *. unfold unavailable_cycle.
    destruct Hdr as (? & ? & ? & ? & ? & ? & ?).
    split_ifs; cbn; (split; [repeat split; assumption|]);
      (split; [reflexivity|]); auto.
    all: right; rewrite Hidx; repeat split; now apply Z.eqb_eq.
Qed.

(** X6.  A cycle that finds the pedal path unavailable processes no driver
input: the enable flag, the target, the stalk times, the previous button
and the UI status stay as they were and no transition runs.  It sends at
most one message, the reset command [(0, 0, idx, bus)], and only on a frame
that is a multiple of 50; the pedal index advances with it.  A cycle that
finds the path available sends nothing. *)
Theorem unavailable_cycle_ignores_driver (s : PCC.t LoCt FleetSpeed) (cs : CS.t)
    (frame t : Z) :
  (PCC.pcc_available (fst (update_stat E s cs frame t)) = false ->
   same_driver_fields s (fst (update_stat E s cs frame t))
   /\ fired (snd (update_stat E s cs frame t)) = []
   /\ (can_sends (snd (update_stat E s cs frame t)) = []
       /\ PCC.pedal_idx (fst (update_stat E s cs frame t)) = PCC.pedal_idx s
       \/ (frame mod 50 = 0)%Z
          /\ can_sends (snd (update_stat E s cs frame t))
             = [(0, 0%Z, PCC.pedal_idx s,
                 if CS.useWithoutHarness cs then 0%Z else 2%Z)]
          /\ PCC.pedal_idx (fst (update_stat E s cs frame t))
             = ((PCC.pedal_idx s + 1) mod 16)%Z))
  /\ (PCC.pcc_available (fst (update_stat E s cs frame t)) = true ->
      can_sends (snd (update_stat E s cs frame t)) = []).
Proof.
  split.
  - apply update_stat_unavailable_shape.
  - intro Hav.
    destruct (update_stat_available_shape s cs frame t Hav)
      as (s1 & _ & _ & _ & _ & _ & _ & _ & _ & Hcs & _).
    exact Hcs.
Qed.

(** X7.  With the pedal path available the cancel button always disengages:
the enable flag is cleared, the target is 0 and the stalk times are back to
their initial values, whatever the state and the other inputs. *)
Theorem cancel_disengages (s : PCC.t LoCt FleetSpeed) (cs : CS.t) (frame t : Z) :
  PCC.pcc_available (fst (update_stat E s cs frame t)) = true ->
  CS.cruise_buttons cs = CruiseButtons.CANCEL ->
  PCC.enable_pedal_cruise (fst (update_stat E s cs frame t)) = false
  /\ PCC.pedal_speed_kph (fst (update_stat E s cs frame t)) = 0
  /\ PCC.stalk_pull_time_ms (fst (update_stat E s cs frame t)) = 0%Z
  /\ PCC.prev_stalk_pull_time_ms (fst (update_stat E s cs frame t)) = (-1000)%Z
  /\ In T4_cancel (fired (snd (update_stat E s cs frame t)))
  /\ can_sends (snd (update_stat E s cs frame t)) = [].
Proof.
  intros Hav Hc.
  destruct (update_stat_available_shape s cs frame t Hav)
    as (s1 & _ & _ & _ & _ & _ & _ & _ & Hf & Hcs & He & Hsp & Hst & Hps & _).
  rewrite (stalk_chain_cancel s1 cs t Hc) in *. cbn [fst snd] in *.
  rewrite He, Hsp, Hst, Hps, Hf.
  repeat split; try reflexivity; try assumption.
  apply in_or_app. right. now left.
Qed.

(** X8.  With the pedal path available and the brake pressed, the cycle
ends disengaged unless it carries a press edge of the main stalk. *)
Theorem brake_disengages (s : PCC.t LoCt FleetSpeed) (cs : CS.t) (frame t : Z) :
  PCC.pcc_available (fst (update_stat E s cs frame t)) = true ->
  CS.brake_pressed cs = true ->
  (CS.cruise_buttons cs <> CruiseButtons.MAIN
   \/ PCC.prev_cruise_buttons s = CruiseButtons.MAIN) ->
  PCC.enable_pedal_cruise (fst (update_stat E s cs frame t)) = false.
Proof.
  intros Hav Hbrk Hnoedge.
  destruct (update_stat_available_shape s cs frame t Hav)
    as (s1 & Hen1 & Hpb1 & _ & _ & _ & _ & _ & _ & _ & He & _).
  rewrite He. rewrite Hbrk, andb_false_r in Hen1.
  destruct (PCC.enable_pedal_cruise (fst (stalk_chain E s1 cs t))) eqn:Hc;
    [|reflexivity].
  destruct (stalk_chain_enable_cases s1 cs t Hc) as [H|(Hb & Hp & _)].
  - congruence.
  - rewrite Hpb1 in Hp. destruct Hnoedge; contradiction.
Qed.

(** X9.  The double pull is the only way to engage: a cycle that starts
disengaged and ends engaged found the pedal path available and carried a
press edge of the main stalk, with the system ready, less than 750 ms after
the prior press. *)
Theorem engaged_only_by_double_pull (s : PCC.t LoCt FleetSpeed) (cs : CS.t)
    (frame t : Z) :
  PCC.enable_pedal_cruise s = false ->
  PCC.enable_pedal_cruise (fst (update_stat E s cs frame t)) = true ->
  PCC.pcc_available (fst (update_stat E s cs frame t)) = true
  /\ CS.cruise_buttons cs = CruiseButtons.MAIN
  /\ PCC.prev_cruise_buttons s <> CruiseButtons.MAIN
  /\ (PCCState.OFF <? PCC.button_status s)%Z
     && CruiseState_is_off E (CS.pcm_acc_status cs)
     || CS.forcePedalOverCC cs = true
  /\ (t - PCC.stalk_pull_time_ms s < STALK_DOUBLE_PULL_MS)%Z.
Proof.
  intros Hoff Hon.
  destruct (PCC.pcc_available (fst (update_stat E s cs frame t))) eqn:Hav.
  - destruct (update_stat_available_shape s cs frame t Hav)
      as (s1 & Hen1 & Hpb1 & Hbs1 & Hst1 & _ & _ & _ & _ & _ & He & _).
    rewrite He in Hon. rewrite Hoff in Hen1. cbn [andb] in Hen1.
    destruct (stalk_chain_enable_cases s1 cs t Hon) as [H|(Hb & Hp & Hr & Hd)].
    + congruence.
    + rewrite Hpb1 in Hp. rewrite Hbs1 in Hr. rewrite Hst1 in Hd. auto.
  - destruct (update_stat_unavailable_shape s cs frame t Hav) as ((He & _) & _).
    congruence.
Qed.

(** X10.  A single pull disengages after the wait: in a cycle with the pedal
path available, the controller engaged, no brake, no button edge, no cancel
and standard cruise not reporting active (or the override), the controller
is disengaged exactly when more than 750 ms have passed since the last pull
and the last two pulls were more than 750 ms apart. *)
Theorem single_pull_disengages (s : PCC.t LoCt FleetSpeed) (cs : CS.t)
    (frame t : Z) :
  PCC.pcc_available (fst (update_stat E s cs frame t)) = true ->
  PCC.enable_pedal_cruise s = true ->
  CS.brake_pressed cs = false ->
  CS.cruise_buttons cs = PCC.prev_cruise_buttons s ->
  CS.cruise_buttons cs <> CruiseButtons.CANCEL ->
  (CS.pcm_acc_status cs = 0%Z \/ CS.forcePedalOverCC cs = true) ->
  PCC.enable_pedal_cruise (fst (update_stat E s cs frame t))
  = negb ((STALK_DOUBLE_PULL_MS <? t - PCC.stalk_pull_time_ms s)%Z
          && (STALK_DOUBLE_PULL_MS
              <? PCC.stalk_pull_time_ms s - PCC.prev_stalk_pull_time_ms s)%Z)
  /\ PCC.pedal_speed_kph (fst (update_stat E s cs frame t)) = PCC.pedal_speed_kph s.
Proof.
  intros Hav Hen Hbrk Hsame Hnc Hpcm.
  destruct (update_stat_available_shape s cs frame t Hav)
    as (s1 & Hen1 & Hpb1 & _ & Hst1 & Hps1 & _ & Hsp1 & _ & _ & He & Hsp & _).
  rewrite Hen, Hbrk in Hen1. cbn in Hen1.
  rewrite He, Hsp. rewrite <- Hpb1 in Hsame.
  rewrite (stalk_chain_no_edge s1 cs t Hsame Hnc).
  rewrite Hen1, Hst1, Hps1. cbn [andb].
  assert (Ht6 : negb (CS.pcm_acc_status cs =? 0)%Z && negb (CS.forcePedalOverCC cs)
                = false).
  { destruct Hpcm as [-> | ->]; [reflexivity|apply andb_false_r]. }
  rewrite Ht6.
  destruct ((STALK_DOUBLE_PULL_MS <? t - PCC.stalk_pull_time_ms s)%Z
            && (STALK_DOUBLE_PULL_MS
                <? PCC.stalk_pull_time_ms s - PCC.prev_stalk_pull_time_ms s)%Z);
    cbn; split; congruence.
Qed.

Lemma update_stat_pcc_available (s : PCC.t LoCt FleetSpeed) (cs : CS.t)
    (frame t : Z) :
  PCC.pcc_available (fst (update_stat E s cs frame t))
  = PCC.pcc_available (fst (_update_pedal_state E (ensure_LoC E s cs) cs frame)).
Proof.
  unfold update_stat.
  destruct (_update_pedal_state E (ensure_LoC E s cs) cs frame) as [s0 ev0].
  cbn [fst].
  destruct (PCC.pcc_available s0) eqn:Hav0; cbn [negb].
  - pose proof (brake_check_fired E s0 cs) as Hb.
    destruct (brake_check E s0 cs) as [s1 f2]. cbn [fst snd] in Hb.
    pose proof (stalk_chain_frame E s1 cs t) as (Hav2 & _).
    destruct (stalk_chain E s1 cs t) as [s2 f3]. cbn [fst] in *.
    pose proof (notify_toggle_frame E s2 cs (PCC.enable_pedal_cruise s0))
      as (Hav3 & _).
    destruct (notify_toggle E s2 cs (PCC.enable_pedal_cruise s0)) as [s3 ev2].
    cbn [fst] in *. cbn. rewrite Hav3, Hav2.
    destruct Hb as [[_ ->]|[_ ->]]; cbn; congruence.
  - destruct (unavailable_cycle_frame s0 cs frame ev0) as (Hu & _). congruence.
Qed.

Lemma stalk_chain_takeover (s : PCC.t LoCt FleetSpeed) (cs : CS.t) (t : Z) :
  In T6_cruise_takeover (snd (stalk_chain E s cs t)) ->
  PCC.enable_pedal_cruise s = true
  /\ CS.pcm_acc_status cs <> 0%Z
  /\ CS.forcePedalOverCC cs = false.
Proof.
  unfold stalk_chain. split_ifs; cbn [snd In]; intro H;
    repeat match goal with
           | H : _ \/ _ |- _ => destruct H
           | H : False |- _ => contradiction
           | H : _ = T6_cruise_takeover |- _ => try discriminate H; clear H
           end.
  match goal with
  | H : _ && _ && _ = true |- _ =>
      apply andb_true_iff in H; destruct H as [H Hf];
      apply andb_true_iff in H; destruct H as [He Hp]
  end.
  apply negb_true_iff in Hf, Hp. apply Z.eqb_neq in Hp. auto.
Qed.

(** X11.  The disable on a standard-cruise takeover runs only when the
controller is engaged, the override is off, and [CruiseState.is_off] holds
for a status code other than 0: for a status that is 0 exactly when the
cruise is off it never runs. *)
Theorem cruise_takeover_needs_nonzero_off_status (s : PCC.t LoCt FleetSpeed)
    (cs : CS.t) (frame t : Z) :
  In T6_cruise_takeover (fired (snd (update_stat E s cs frame t))) ->
  PCC.enable_pedal_cruise s = true
  /\ CS.brake_pressed cs = false
  /\ CS.forcePedalOverCC cs = false
  /\ CS.pcm_acc_status cs <> 0%Z
  /\ CruiseState_is_off E (CS.pcm_acc_status cs) = true.
Proof.
  intro Hin.
  destruct (PCC.pcc_available (fst (update_stat E s cs frame t))) eqn:Hav.
  2:{ destruct (update_stat_unavailable_shape s cs frame t Hav) as (_ & Hf & _).
      rewrite Hf in Hin. contradiction. }
  pose proof Hav as Hacc. rewrite update_stat_pcc_available in Hacc.
  destruct (update_pedal_state_available (ensure_LoC E s cs) cs frame)
    as (Hpa & _). cbv zeta in Hpa. rewrite Hpa in Hacc.
  apply andb_true_iff in Hacc. destruct Hacc as [_ Hacc].
  destruct (update_stat_available_shape s cs frame t Hav)
    as (s1 & Hen1 & _ & _ & _ & _ & _ & _ & Hf & _).
  rewrite Hf in Hin. apply in_app_or in Hin. destruct Hin as [Hin|Hin].
  { destruct (CS.brake_pressed cs && PCC.enable_pedal_cruise s);
      cbn in Hin; intuition discriminate. }
  destruct (stalk_chain_takeover s1 cs t Hin) as (He & Hp & Hfo).
  rewrite Hen1 in He. apply andb_true_iff in He. destruct He as [He Hb].
  apply negb_true_iff in Hb. rewrite Hfo in Hacc. cbn [orb] in Hacc. auto.
Qed.

(** X12.  The speed buttons: with the pedal path available, the controller
engaged and no brake, a button edge on resume / resume2 / decel / decel2
keeps the controller engaged and moves the target by +1 / +5 / -1 / -5
display units (resume starts from the larger of the target and the rounded
current speed), clipped to [0, 270]. *)
Theorem speed_buttons_adjust_target (s : PCC.t LoCt FleetSpeed) (cs : CS.t)
    (frame t : Z) :
  PCC.pcc_available (fst (update_stat E s cs frame t)) = true ->
  PCC.enable_pedal_cruise s = true ->
  CS.brake_pressed cs = false ->
  CS.cruise_buttons cs <> PCC.prev_cruise_buttons s ->
  let uom := if CS.imperial_speed_units cs then CV.MPH_TO_KPH else 1 in
  let rounded := speed_kph_uom_rounded cs uom in
  let target := PCC.pedal_speed_kph s in
  let target' := PCC.pedal_speed_kph (fst (update_stat E s cs frame t)) in
  (CS.cruise_buttons cs = CruiseButtons.RES_ACCEL ->
   target' = clip (pmax target rounded + uom) MIN_PCC_V_KPH MAX_PCC_V_KPH)
  /\ (CS.cruise_buttons cs = CruiseButtons.RES_ACCEL_2ND ->
      target' = clip (pmax target rounded + 5 * uom) MIN_PCC_V_KPH MAX_PCC_V_KPH)
  /\ (CS.cruise_buttons cs = CruiseButtons.DECEL_SET ->
      target' = clip (target - uom) MIN_PCC_V_KPH MAX_PCC_V_KPH)
  /\ (CS.cruise_buttons cs = CruiseButtons.DECEL_2ND ->
      target' = clip (target - 5 * uom) MIN_PCC_V_KPH MAX_PCC_V_KPH)
  /\ (CS.cruise_buttons cs <> CruiseButtons.MAIN ->
      CS.cruise_buttons cs <> CruiseButtons.CANCEL ->
      PCC.enable_pedal_cruise (fst (update_stat E s cs frame t)) = true
      /\ MIN_PCC_V_KPH <= target' <= MAX_PCC_V_KPH).
Proof.
  intros Hav Hen Hbrk Hedge. cbv zeta.
  destruct (update_stat_available_shape s cs frame t Hav)
    as (s1 & Hen1 & Hpb1 & _ & _ & _ & _ & Hsp1 & _ & _ & He & Hsp & _).
  rewrite Hen, Hbrk in Hen1. cbn in Hen1. rewrite He, Hsp.
  assert (Hne : CruiseButtons.eqb (CS.cruise_buttons cs) (PCC.prev_cruise_buttons s1)
                = false).
  { rewrite Hpb1.
    destruct (CruiseButtons.eqb (CS.cruise_buttons cs) (PCC.prev_cruise_buttons s))
      eqn:Hc; [|reflexivity].
    apply CruiseButtons_eqb_eq in Hc. contradiction. }
  assert (Hr : MIN_PCC_V_KPH <= MAX_PCC_V_KPH)
    by (unfold MIN_PCC_V_KPH, MAX_PCC_V_KPH; lra).
  unfold stalk_chain. rewrite Hen1, Hne. cbn [andb negb].
  destruct (CS.cruise_buttons cs) eqn:Hb; cbn; rewrite ?Hsp1, ?Hen1;
    (split; [intro H; try discriminate H; try reflexivity|]);
    (split; [intro H; try discriminate H; try reflexivity|]);
    (split; [intro H; try discriminate H; try reflexivity|]);
    (split; [intro H; try discriminate H; try reflexivity|]);
    intros Hm Hc; try (now contradiction Hm); try (now contradiction Hc);
    (split; [reflexivity|apply clip_range; exact Hr]).
Qed.

End EngagementCycle.
Lemma pedal_availability_witness :
  PCC.pcc_available
    (fst (_update_pedal_state stub (init stub PCCState.STANDBY)
            (car 20 CruiseButtons.IDLE false false 0) 7)) = true.
Proof.
  apply (pedal_availability stub (init stub PCCState.STANDBY)
           (car 20 CruiseButtons.IDLE false false 0) 7).
  - discriminate.
  - vm_compute; reflexivity.
  - vm_compute; reflexivity.
Defined.


Lemma unavailable_cycle_ignores_driver_witness :
  fired (snd (update_stat stub pulled_once
                (car 20 CruiseButtons.MAIN false false 1) 3 1000300)) = []
  /\ can_sends (snd (update_stat stub engaged
                       (car 20 CruiseButtons.IDLE false false 0) 5 1000400)) = [].
Proof.
  split.
  - apply (proj1 (unavailable_cycle_ignores_driver stub pulled_once
                    (car 20 CruiseButtons.MAIN false false 1) 3 1000300)).
    vm_compute; reflexivity.
  - apply (proj2 (unavailable_cycle_ignores_driver stub engaged
                    (car 20 CruiseButtons.IDLE false false 0) 5 1000400)).
    vm_compute; reflexivity.
Defined.

Lemma cancel_disengages_witness :
  PCC.enable_pedal_cruise
    (fst (update_stat stub engaged
            (car 20 CruiseButtons.CANCEL false false 0) 5 1000400)) = false.
Proof.
  assert (Hav : PCC.pcc_available
                  (fst (update_stat stub engaged
                          (car 20 CruiseButtons.CANCEL false false 0) 5 1000400))
                = true) by (vm_compute; reflexivity).
  exact (proj1 (cancel_disengages stub engaged
                  (car 20 CruiseButtons.CANCEL false false 0) 5 1000400
                  Hav eq_refl)).
Defined.

Lemma brake_disengages_witness :
  PCC.enable_pedal_cruise
    (fst (update_stat stub engaged
            (car 20 CruiseButtons.IDLE true false 0) 5 1000400)) = false.
Proof.
  assert (Hav : PCC.pcc_available
                  (fst (update_stat stub engaged
                          (car 20 CruiseButtons.IDLE true false 0) 5 1000400))
                = true) by (vm_compute; reflexivity).
  assert (Hb : CS.cruise_buttons (car 20 CruiseButtons.IDLE true false 0)
               <> CruiseButtons.MAIN) by discriminate.
  exact (brake_disengages stub engaged
           (car 20 CruiseButtons.IDLE true false 0) 5 1000400
           Hav eq_refl (or_introl Hb)).
Defined.

Lemma engaged_only_by_double_pull_witness :
  (1000300 - PCC.stalk_pull_time_ms pulled_once < STALK_DOUBLE_PULL_MS)%Z.
Proof.
  assert (Hoff : PCC.enable_pedal_cruise pulled_once = false)
    by (vm_compute; reflexivity).
  assert (Hon : PCC.enable_pedal_cruise
                  (fst (update_stat stub pulled_once
                          (car 20 CruiseButtons.MAIN false false 0) 3 1000300))
                = true) by (vm_compute; reflexivity).
  exact (proj2 (proj2 (proj2 (proj2
           (engaged_only_by_double_pull stub pulled_once
              (car 20 CruiseButtons.MAIN false false 0) 3 1000300 Hoff Hon))))).
Defined.

Lemma single_pull_disengages_witness :
  PCC.enable_pedal_cruise
    (fst (update_stat stub engaged
            (car 20 CruiseButtons.IDLE false false 0) 5 1002000))
  = negb ((STALK_DOUBLE_PULL_MS <? 1002000 - PCC.stalk_pull_time_ms engaged)%Z
          && (STALK_DOUBLE_PULL_MS
              <? PCC.stalk_pull_time_ms engaged
                 - PCC.prev_stalk_pull_time_ms engaged)%Z).
Proof.
  assert (Hav : PCC.pcc_available
                  (fst (update_stat stub engaged
                          (car 20 CruiseButtons.IDLE false false 0) 5 1002000))
                = true) by (vm_compute; reflexivity).
  assert (Hen : PCC.enable_pedal_cruise engaged = true)
    by (vm_compute; reflexivity).
  assert (Hsame : CS.cruise_buttons (car 20 CruiseButtons.IDLE false false 0)
                  = PCC.prev_cruise_buttons engaged)
    by (vm_compute; reflexivity).
  assert (Hnc : CS.cruise_buttons (car 20 CruiseButtons.IDLE false false 0)
                <> CruiseButtons.CANCEL) by discriminate.
  exact (proj1 (single_pull_disengages stub engaged
                  (car 20 CruiseButtons.IDLE false false 0) 5 1002000
                  Hav Hen eq_refl Hsame Hnc (or_introl eq_refl))).
Defined.

Lemma cruise_takeover_needs_nonzero_off_status_witness :
  CS.pcm_acc_status car_cruise_active <> 0%Z
  /\ CruiseState_is_off lenient_off (CS.pcm_acc_status car_cruise_active) = true.
Proof.
  assert (Hin : In T6_cruise_takeover
                  (fired (snd (update_stat lenient_off engaged car_cruise_active
                                 5 1000400))))
    by (vm_compute; left; reflexivity).
  destruct (cruise_takeover_needs_nonzero_off_status lenient_off engaged
              car_cruise_active 5 1000400 Hin) as (_ & _ & _ & Hp & Ho).
  split; [exact Hp|exact Ho].
Defined.

Lemma speed_buttons_adjust_target_witness :
  PCC.pedal_speed_kph
    (fst (update_stat stub engaged
            (car 20 CruiseButtons.RES_ACCEL false false 0) 5 1000400))
  = clip (pmax (PCC.pedal_speed_kph engaged)
            (speed_kph_uom_rounded
               (car 20 CruiseButtons.RES_ACCEL false false 0) 1) + 1)
      MIN_PCC_V_KPH MAX_PCC_V_KPH.
Proof.
  assert (Hne : CS.cruise_buttons (car 20 CruiseButtons.RES_ACCEL false false 0)
                <> PCC.prev_cruise_buttons engaged)
    by (vm_compute; discriminate).
  assert (Hav : PCC.pcc_available
                  (fst (update_stat stub engaged
                          (car 20 CruiseButtons.RES_ACCEL false false 0) 5
                          1000400)) = true)
    by (vm_compute; reflexivity).
  assert (Hen : PCC.enable_pedal_cruise engaged = true)
    by (vm_compute; reflexivity).
  exact (proj1 (speed_buttons_adjust_target stub engaged
                  (car 20 CruiseButtons.RES_ACCEL false false 0) 5 1000400
                  Hav Hen eq_refl Hne) eq_refl).
Defined.

(** ** More on the pedal cycle *)

Section PedalCycleMore.
Context {LoCt FleetSpeed : Type}.
Variable E : Externals LoCt FleetSpeed.

Lemma same_pdl_fields_trans (s1 s2 s3 : PCC.t LoCt FleetSpeed) :
  same_pdl_fields s1 s2 -> same_pdl_fields s2 s3 -> same_pdl_fields s1 s3.
Proof.
  unfold same_pdl_fields.
  intros (? & ? & ? & ? & ? & ? & ? & ? & ? & ? & ? & ?)
         (? & ? & ? & ? & ? & ? & ? & ? & ? & ? & ? & ?).
  repeat split; congruence.
Qed.

(** [update_stat] writes none of the fields [update_pdl] computes with. *)
Lemma update_stat_keeps_pdl_fields (s : PCC.t LoCt FleetSpeed) (cs : CS.t)
    (frame t : Z) :
  same_pdl_fields s (fst (update_stat E s cs frame t)).
Proof.
  unfold update_stat.
  apply (same_pdl_fields_trans s (ensure_LoC E s cs)).
  { unfold same_pdl_fields, ensure_LoC.
    destruct (PCC.LoC s); repeat split; reflexivity. }
  generalize (ensure_LoC E s cs). clear s. intro s.
  apply (same_pdl_fields_trans s (fst (_update_pedal_state E s cs frame))).
  { unfold same_pdl_fields, _update_pedal_state. cbv zeta.
    split_ifs; repeat split; reflexivity. }
  destruct (_update_pedal_state E s cs frame) as [s0 ev0]. cbn [fst].
  clear s. destruct (negb (PCC.pcc_available s0)).
  - unfold same_pdl_fields, unavailable_cycle. cbv zeta.
    split_ifs; repeat split; reflexivity.
  - apply (same_pdl_fields_trans s0 (fst (brake_check E s0 cs))).
    { unfold same_pdl_fields, brake_check. rewrite reset_id.
      split_ifs; repeat split; reflexivity. }
    destruct (brake_check E s0 cs) as [s1 f2]. cbn [fst].
    apply (same_pdl_fields_trans s1 (fst (stalk_chain E s1 cs t))).
    { unfold same_pdl_fields, stalk_chain. rewrite !reset_id.
      split_ifs; try (destruct (CS.cruise_buttons cs)); repeat split;
        reflexivity. }
    destruct (stalk_chain E s1 cs t) as [s2 f3]. cbn [fst].
    apply (same_pdl_fields_trans s2
             (fst (notify_toggle E s2 cs (PCC.enable_pedal_cruise s0)))).
    { unfold same_pdl_fields, notify_toggle. split_ifs; repeat split; reflexivity. }
    destruct (notify_toggle E s2 cs (PCC.enable_pedal_cruise s0)) as [s3 ev2].
    cbn [fst]. unfold same_pdl_fields. repeat split; reflexivity.
Qed.

(** What [encode_pedal] writes and what it returns. *)
Lemma encode_pedal_effect (s s' : PCC.t LoCt FleetSpeed) (cs : CS.t)
    (enabled : bool) (gb mult : Q) (idx : Z) (out : Q * Q * Z) :
  encode_pedal s cs enabled gb mult idx = Ok (s', out) ->
  out = (PCC.prev_tesla_pedal s', if PCC.enable_pedal_cruise s then 1 else 0, idx)
  /\ PCC.prev_tesla_accel s'
     = clip gb 0 1 * (if PCC.enable_pedal_cruise s then 1 else 0)
  /\ PCC.last_output_gb s' = gb
  /\ PCC.pedal_idx s' = PCC.pedal_idx s
  /\ PCC.pedal_speed_kph s' = PCC.pedal_speed_kph s
  /\ PCC.enable_pedal_cruise s' = PCC.enable_pedal_cruise s
  /\ PCC.PedalForZeroTorque s' = PCC.PedalForZeroTorque s
  /\ PCC.lastTorqueForPedalForZeroTorque s' = PCC.lastTorqueForPedalForZeroTorque s
  /\ PCC.lead_1 s' = PCC.lead_1 s
  /\ PCC.continuous_lead_sightings s' = PCC.continuous_lead_sightings s
  /\ PCC.lead_last_seen_time_ms s' = PCC.lead_last_seen_time_ms s
  /\ PCC.speed_limit_kph s' = PCC.speed_limit_kph s
  /\ PCC.prev_speed_limit_kph s' = PCC.prev_speed_limit_kph s.
Proof.
  unfold encode_pedal. cbv zeta.
  destruct (_brake_pedal_min _ _ _ _ _) as [bpm|e]; [|discriminate].
  cbn [bind].
  match goal with
  | |- context [pedal_hysteresis ?st ?p ?en] =>
      assert (Hh : fst (pedal_hysteresis st p en)
                   = PCC.set_pedal_steady st
                       (PCC.pedal_steady (fst (pedal_hysteresis st p en))))
        by (unfold pedal_hysteresis; destruct st; split_ifs; reflexivity);
      destruct (pedal_hysteresis st p en) as [sh steady]
  end.
  cbn [fst] in Hh. intro H. injection H as <- <-. rewrite Hh.
  repeat split; reflexivity.
Qed.

(** The steps of a call of [update_pdl] that returns. *)
Lemma update_pdl_steps (s s' : PCC.t LoCt FleetSpeed) (a : PdlArgs.t)
    (out : Q * Q * Z) :
  update_pdl_with E s a = Ok (s', out) ->
  let s2 :=
    apply_speed_limit E
      (calibrate_pedal_zero
         (PCC.set_prev_speed_limit_kph s (PCC.speed_limit_kph s)) (PdlArgs.cs a))
      (PdlArgs.speed_limit_ms a) (PdlArgs.set_speed_limit_active a)
      (PdlArgs.speed_limit_offset a) in
  let s3 := PCC.set_pedal_idx s2 ((PCC.pedal_idx s2 + 1) mod 16)%Z in
  (negb (PCC.pcc_available s) || negb (PdlArgs.enabled a) = true
   /\ s' = s3 /\ out = (0, 0, PCC.pedal_idx s))
  \/ (PCC.pcc_available s && PdlArgs.enabled a = true
      /\ encode_pedal
           (PCC.set_v_pid (ingest_lead s3 (PdlArgs.env a)) (PdlArgs.pcm_speed a))
           (PdlArgs.cs a) true
           (Actuators.gas (PdlArgs.actuators a)
            - Actuators.brake (PdlArgs.actuators a))
           12 (PCC.pedal_idx s) = Ok (s', out)).
Proof.
  unfold update_pdl_with, update_pdl. cbv zeta.
  pose proof (update_pdl_prologue_frame E s a) as (Hav & _).
  rewrite Hav.
  destruct (negb (PCC.pcc_available s) || negb (PdlArgs.enabled a)) eqn:Hc.
  - intro H. injection H as <- <-. left. auto.
  - apply orb_false_iff in Hc. destruct Hc as [Ha He].
    apply negb_false_iff in Ha, He. rewrite Ha, He.
    destruct (envelope E _ (PdlArgs.cs a)) as [[al jl]|e]; [|discriminate].
    cbn [bind]. unfold op_branch. cbn [bind]. intro H. right. auto.
Qed.

Lemma calibrate_pedal_zero_effect (s : PCC.t LoCt FleetSpeed) (cs : CS.t) :
  PCC.pedal_idx (calibrate_pedal_zero s cs) = PCC.pedal_idx s
  /\ PCC.pedal_speed_kph (calibrate_pedal_zero s cs) = PCC.pedal_speed_kph s
  /\ PCC.speed_limit_kph (calibrate_pedal_zero s cs) = PCC.speed_limit_kph s
  /\ PCC.prev_speed_limit_kph (calibrate_pedal_zero s cs)
     = PCC.prev_speed_limit_kph s
  /\ PCC.prev_tesla_accel (calibrate_pedal_zero s cs) = PCC.prev_tesla_accel s
  /\ PCC.lead_1 (calibrate_pedal_zero s cs) = PCC.lead_1 s
  /\ PCC.continuous_lead_sightings (calibrate_pedal_zero s cs)
     = PCC.continuous_lead_sightings s
  /\ PCC.lead_last_seen_time_ms (calibrate_pedal_zero s cs)
     = PCC.lead_last_seen_time_ms s.
Proof.
  unfold calibrate_pedal_zero. split_ifs; repeat split; reflexivity.
Qed.

Lemma apply_speed_limit_effect (s : PCC.t LoCt FleetSpeed) (lim : Q) (act : bool)
    (off : Q) :
  PCC.pedal_idx (apply_speed_limit E s lim act off) = PCC.pedal_idx s
  /\ PCC.prev_speed_limit_kph (apply_speed_limit E s lim act off)
     = PCC.prev_speed_limit_kph s
  /\ PCC.prev_tesla_accel (apply_speed_limit E s lim act off) = PCC.prev_tesla_accel s
  /\ PCC.PedalForZeroTorque (apply_speed_limit E s lim act off)
     = PCC.PedalForZeroTorque s
  /\ PCC.lastTorqueForPedalForZeroTorque (apply_speed_limit E s lim act off)
     = PCC.lastTorqueForPedalForZeroTorque s
  /\ PCC.lead_1 (apply_speed_limit E s lim act off) = PCC.lead_1 s
  /\ PCC.continuous_lead_sightings (apply_speed_limit E s lim act off)
     = PCC.continuous_lead_sightings s
  /\ PCC.lead_last_seen_time_ms (apply_speed_limit E s lim act off)
     = PCC.lead_last_seen_time_ms s.
Proof.
  unfold apply_speed_limit. split_ifs; repeat split; reflexivity.
Qed.

Lemma ingest_lead_effect (s : PCC.t LoCt FleetSpeed) (env : Env.t) :
  PCC.pedal_idx (ingest_lead s env) = PCC.pedal_idx s
  /\ PCC.pedal_speed_kph (ingest_lead s env) = PCC.pedal_speed_kph s
  /\ PCC.speed_limit_kph (ingest_lead s env) = PCC.speed_limit_kph s
  /\ PCC.prev_speed_limit_kph (ingest_lead s env) = PCC.prev_speed_limit_kph s
  /\ PCC.prev_tesla_accel (ingest_lead s env) = PCC.prev_tesla_accel s
  /\ PCC.PedalForZeroTorque (ingest_lead s env) = PCC.PedalForZeroTorque s
  /\ PCC.lastTorqueForPedalForZeroTorque (ingest_lead s env)
     = PCC.lastTorqueForPedalForZeroTorque s.
Proof.
  unfold ingest_lead. destruct (Env.radSt env); split_ifs; repeat split;
    reflexivity.
Qed.

(** X13.  The rolling index: a call of [update_pdl] returns the index the
controller held and advances it by one modulo 16, whether the pedal is
enabled or not; the index it leaves lies in [0, 16). *)
Theorem pedal_idx_cycles (s s' : PCC.t LoCt FleetSpeed) (a : PdlArgs.t)
    (out : Q * Q * Z) :
  update_pdl_with E s a = Ok (s', out) ->
  snd out = PCC.pedal_idx s
  /\ PCC.pedal_idx s' = ((PCC.pedal_idx s + 1) mod 16)%Z
  /\ (0 <= PCC.pedal_idx s' < 16)%Z.
Proof.
  intro H.
  assert (Hidx : snd out = PCC.pedal_idx s
                 /\ PCC.pedal_idx s' = ((PCC.pedal_idx s + 1) mod 16)%Z).
  { destruct (update_pdl_steps s s' a out H) as [(_ & -> & ->)|(_ & He)];
      cbv zeta in *.
    - split; [reflexivity|]. cbn.
      destruct (apply_speed_limit_effect
                  (calibrate_pedal_zero
                     (PCC.set_prev_speed_limit_kph s (PCC.speed_limit_kph s))
                     (PdlArgs.cs a))
                  (PdlArgs.speed_limit_ms a) (PdlArgs.set_speed_limit_active a)
                  (PdlArgs.speed_limit_offset a)) as (-> & _).
      destruct (calibrate_pedal_zero_effect
                  (PCC.set_prev_speed_limit_kph s (PCC.speed_limit_kph s))
                  (PdlArgs.cs a)) as (-> & _).
      reflexivity.
    - destruct (encode_pedal_effect _ _ _ _ _ _ _ _ He)
        as (-> & _ & _ & -> & _).
      split; [reflexivity|]. cbn.
      match goal with
      | |- PCC.pedal_idx (ingest_lead ?st ?en) = _ =>
          destruct (ingest_lead_effect st en) as (-> & _)
      end.
      cbn.
      destruct (apply_speed_limit_effect
                  (calibrate_pedal_zero
                     (PCC.set_prev_speed_limit_kph s (PCC.speed_limit_kph s))
                     (PdlArgs.cs a))
                  (PdlArgs.speed_limit_ms a) (PdlArgs.set_speed_limit_active a)
                  (PdlArgs.speed_limit_offset a)) as (-> & _).
      destruct (calibrate_pedal_zero_effect
                  (PCC.set_prev_speed_limit_kph s (PCC.speed_limit_kph s))
                  (PdlArgs.cs a)) as (-> & _).
      reflexivity. }
  destruct Hidx as [Ho Hi]. split; [exact Ho|]. split; [exact Hi|].
  rewrite Hi. apply Z.mod_pos_bound. lia.
Qed.

(** X14.  The command of [update_pdl]: the pedal value lies in [0, 100] and
the enable bit is 0 or 1.  A call that returns early (pedal path unavailable
or [enabled] false) emits value 0 and bit 0 and leaves the stored output as
it was; a call that runs to the end emits the value it stores, with the bit
of [enable_pedal_cruise], and the value is 0 when that flag is clear. *)
Theorem pedal_output_gating (s s' : PCC.t LoCt FleetSpeed) (a : PdlArgs.t)
    (out : Q * Q * Z) :
  update_pdl_with E s a = Ok (s', out) ->
  0 <= fst (fst out) <= 100
  /\ (snd (fst out) = 0 \/ snd (fst out) = 1)
  /\ (negb (PCC.pcc_available s) || negb (PdlArgs.enabled a) = true ->
      fst (fst out) = 0 /\ snd (fst out) = 0
      /\ PCC.prev_tesla_pedal s' = PCC.prev_tesla_pedal s)
  /\ (PCC.pcc_available s && PdlArgs.enabled a = true ->
      PCC.prev_tesla_pedal s' = fst (fst out)
      /\ snd (fst out) = (if PCC.enable_pedal_cruise s then 1 else 0)
      /\ (PCC.enable_pedal_cruise s = false -> fst (fst out) == 0)).
Proof.
  intro H.
  destruct (PCC.pcc_available s && PdlArgs.enabled a) eqn:Hfull.
  - destruct (update_pdl_full_path E s s' a out H Hfull)
      as (sE & He & (_ & _ & Hen & _)).
    destruct (encode_pedal_slew _ _ _ _ _ _ _ _ He) as (Hst & Hr & _).
    destruct (encode_pedal_effect _ _ _ _ _ _ _ _ He) as (Hout & _).
    rewrite Hen in Hout.
    split; [exact Hr|]. split; [|split].
    + rewrite Hout. cbn. destruct (PCC.enable_pedal_cruise s); auto.
    + intro Hc. apply andb_true_iff in Hfull. destruct Hfull as [Ha Hb].
      rewrite Ha, Hb in Hc. discriminate Hc.
    + intros _. split; [now rewrite Hst|]. split.
      * rewrite Hout. reflexivity.
      * intro Hoff. revert He. unfold encode_pedal. cbv zeta.
        destruct (_brake_pedal_min _ _ _ _ _) as [bpm|e]; [|discriminate].
        cbn [bind].
        match goal with
        | |- context [pedal_hysteresis ?st ?p ?en] =>
            pose proof (pedal_hysteresis_frame st p en) as (_ & _ & Hhe & _);
            destruct (pedal_hysteresis st p en) as [sh steady]
        end.
        cbn [fst] in Hhe. cbn in Hhe. intro He. injection He as _ <-.
        cbn. rewrite Hhe, Hen, Hoff. lra.
  - destruct (update_pdl_early_return E s a) as (s0 & Hr & (_ & Hp & _)).
    { apply andb_false_iff in Hfull. destruct Hfull as [-> | ->];
        [reflexivity|apply orb_true_r]. }
    rewrite Hr in H. injection H as <- <-. cbn.
    split; [lra|]. split; [auto|]. split; [auto|discriminate].
Qed.

Lemma calibrate_pedal_zero_calibration (s : PCC.t LoCt FleetSpeed) (cs : CS.t) :
  calibration_ok s ->
  calibration_ok (calibrate_pedal_zero s cs)
  /\ pabs (PCC.lastTorqueForPedalForZeroTorque (calibrate_pedal_zero s cs))
     <= pabs (PCC.lastTorqueForPedalForZeroTorque s).
Proof.
  unfold calibration_ok, calibrate_pedal_zero. intros (Ha & Hz).
  match goal with
  | |- context [if ?c then _ else _] => destruct c eqn:Hc
  end; cbn.
  - repeat (apply andb_true_iff in Hc; destruct Hc as [Hc ?]). qprop.
    repeat split; lra.
  - repeat split; lra.
Qed.

(** X15.  The zero-torque calibration keeps its values in range: from the
initial state on, across [update_pdl] and [update_stat], the stored
acceleration request stays in [0, 1] and the zero-torque pedal value in
(0, 18]; a call of [update_pdl] never lets the magnitude of the torque
recorded at calibration grow. *)
Theorem calibration_stays_in_range (s s' : PCC.t LoCt FleetSpeed) (a : PdlArgs.t)
    (out : Q * Q * Z) (cs : CS.t) (frame t btn : Z) :
  calibration_ok (init E btn)
  /\ (calibration_ok s -> calibration_ok (fst (update_stat E s cs frame t)))
  /\ (calibration_ok s -> update_pdl_with E s a = Ok (s', out) ->
      calibration_ok s'
      /\ pabs (PCC.lastTorqueForPedalForZeroTorque s')
         <= pabs (PCC.lastTorqueForPedalForZeroTorque s)).
Proof.
  split; [|split].
  - unfold calibration_ok. cbn. lra.
  - unfold calibration_ok.
    destruct (update_stat_keeps_pdl_fields s cs frame t) as (-> & -> & _).
    auto.
  - intros Hok H.
    assert (Hok0 : calibration_ok
                     (PCC.set_prev_speed_limit_kph s (PCC.speed_limit_kph s)))
      by exact Hok.
    destruct (calibrate_pedal_zero_calibration _ (PdlArgs.cs a) Hok0)
      as ((Ha1 & Hz1) & Ht1).
    cbn [PCC.lastTorqueForPedalForZeroTorque PCC.set_prev_speed_limit_kph] in Ht1.
    set (s1 := calibrate_pedal_zero _ (PdlArgs.cs a)) in *.
    destruct (apply_speed_limit_effect s1 (PdlArgs.speed_limit_ms a)
                (PdlArgs.set_speed_limit_active a) (PdlArgs.speed_limit_offset a))
      as (_ & _ & Ha2 & Hz2 & Ht2 & _).
    destruct (update_pdl_steps s s' a out H) as [(_ & -> & _)|(_ & He)].
    + cbv zeta. fold s1.
      unfold calibration_ok. cbn. rewrite Ha2, Hz2, Ht2. auto.
    + cbv zeta in He. fold s1 in He. destruct (encode_pedal_effect _ _ _ _ _ _ _ _ He)
        as (_ & Hacc & _ & _ & _ & _ & Hz & Ht & _).
      match type of Hz with
      | _ = PCC.PedalForZeroTorque (PCC.set_v_pid (ingest_lead ?st ?en) _) =>
          destruct (ingest_lead_effect st en) as (_ & _ & _ & _ & _ & Hz3 & Ht3)
      end.
      cbn in Hz, Ht, Hz3, Ht3. rewrite Hz3, Hz2 in Hz. rewrite Ht3, Ht2 in Ht.
      unfold calibration_ok. rewrite Hacc, Hz, Ht.
      split; [|exact Ht1]. split; [|exact Hz1].
      assert (Hc : 0 <= clip (Actuators.gas (PdlArgs.actuators a)
                              - Actuators.brake (PdlArgs.actuators a)) 0 1 <= 1)
        by (apply clip_range; lra).
      destruct (PCC.enable_pedal_cruise _); lra.
Qed.


Lemma ingest_lead_tracks (s : PCC.t LoCt FleetSpeed) (env : Env.t) :
  (forall l, Env.radSt env = Some l ->
     PCC.lead_1 (ingest_lead s env) = Some l
     /\ PCC.continuous_lead_sightings (ingest_lead s env)
        = (if 0 <? Lead.dRel l
           then (PCC.continuous_lead_sightings s + 1)%Z else 0%Z)
     /\ PCC.lead_last_seen_time_ms (ingest_lead s env)
        = (if 0 <? Lead.dRel l
           then Env.time_ms env else PCC.lead_last_seen_time_ms s))
  /\ (Env.radSt env = None ->
      PCC.lead_1 (ingest_lead s env) = PCC.lead_1 s
      /\ PCC.continuous_lead_sightings (ingest_lead s env)
         = PCC.continuous_lead_sightings s
      /\ PCC.lead_last_seen_time_ms (ingest_lead s env)
         = PCC.lead_last_seen_time_ms s).
Proof.
  unfold ingest_lead. split.
  - intros l ->. cbn. destruct (0 <? Lead.dRel l); repeat split; reflexivity.
  - intros ->. repeat split; reflexivity.
Qed.

(** X17.  The lead tracker of [update_pdl]: a call that runs to the end
with a radar sample stores the sample, counts one more sighting when the
lead is present (distance above 0) and stamps the time, and resets the
count to 0 when it is not, leaving the last-seen time alone.  Without a
sample, or when the call returns early, lead, count and time are
untouched. *)
Theorem lead_tracker_ingest (s s' : PCC.t LoCt FleetSpeed) (a : PdlArgs.t)
    (out : Q * Q * Z) :
  update_pdl_with E s a = Ok (s', out) ->
  (forall l, PCC.pcc_available s && PdlArgs.enabled a = true ->
     Env.radSt (PdlArgs.env a) = Some l ->
     PCC.lead_1 s' = Some l
     /\ PCC.continuous_lead_sightings s'
        = (if 0 <? Lead.dRel l
           then (PCC.continuous_lead_sightings s + 1)%Z else 0%Z)
     /\ PCC.lead_last_seen_time_ms s'
        = (if 0 <? Lead.dRel l
           then Env.time_ms (PdlArgs.env a) else PCC.lead_last_seen_time_ms s))
  /\ (PCC.pcc_available s && PdlArgs.enabled a = false
      \/ Env.radSt (PdlArgs.env a) = None ->
      PCC.lead_1 s' = PCC.lead_1 s
      /\ PCC.continuous_lead_sightings s' = PCC.continuous_lead_sightings s
      /\ PCC.lead_last_seen_time_ms s' = PCC.lead_last_seen_time_ms s).
Proof.
  intro H.
  set (s0 := PCC.set_prev_speed_limit_kph s (PCC.speed_limit_kph s)).
  destruct (calibrate_pedal_zero_effect s0 (PdlArgs.cs a))
    as (_ & _ & _ & _ & _ & Hl1 & Hc1 & Ht1).
  destruct (apply_speed_limit_effect (calibrate_pedal_zero s0 (PdlArgs.cs a))
              (PdlArgs.speed_limit_ms a) (PdlArgs.set_speed_limit_active a)
              (PdlArgs.speed_limit_offset a))
    as (_ & _ & _ & _ & _ & Hl2 & Hc2 & Ht2).
  cbn in Hl1, Hc1, Ht1. rewrite Hl1 in Hl2. rewrite Hc1 in Hc2. rewrite Ht1 in Ht2.
  destruct (update_pdl_steps s s' a out H) as [(He & -> & _)|(Hf & He)].
  - cbv zeta. fold s0. split.
    + intros l Hfull _. apply andb_true_iff in Hfull. destruct Hfull as [Ha Hb].
      rewrite Ha, Hb in He. discriminate He.
    + intros _. cbn. auto.
  - cbv zeta in He. fold s0 in He.
    destruct (encode_pedal_effect _ _ _ _ _ _ _ _ He)
      as (_ & _ & _ & _ & _ & _ & _ & _ & Hl & Hc & Ht & _).
    cbn in Hl, Hc, Ht.
    match type of Hl with
    | _ = PCC.lead_1 (ingest_lead ?st ?en) =>
        destruct (ingest_lead_tracks st en) as (Hsome & Hnone)
    end.
    cbn in Hsome, Hnone. rewrite Hc2, Ht2 in Hsome. rewrite Hl2, Hc2, Ht2 in Hnone.
    rewrite Hl, Hc, Ht. split.
    + intros l _ Hr. exact (Hsome l Hr).
    + intros [Hno|Hr]; [congruence|exact (Hnone Hr)].
Qed.

(** X18.  The sighting count is positive only while the stored lead is
present: this holds in the initial state and is kept by every call of
[update_pdl] that returns and by every call of [update_stat]. *)
Theorem lead_counter_invariant (s s' : PCC.t LoCt FleetSpeed) (a : PdlArgs.t)
    (out : Q * Q * Z) (cs : CS.t) (frame t btn : Z) :
  lead_counter_ok (init E btn)
  /\ (lead_counter_ok s -> lead_counter_ok (fst (update_stat E s cs frame t)))
  /\ (lead_counter_ok s -> update_pdl_with E s a = Ok (s', out) ->
      lead_counter_ok s').
Proof.
  split; [|split].
  - unfold lead_counter_ok. cbn. split; lia.
  - unfold lead_counter_ok.
    destruct (update_stat_keeps_pdl_fields s cs frame t)
      as (_ & _ & _ & -> & -> & _).
    auto.
  - intros (Hge & Hpos) H.
    set (s0 := PCC.set_prev_speed_limit_kph s (PCC.speed_limit_kph s)).
    destruct (calibrate_pedal_zero_effect s0 (PdlArgs.cs a))
      as (_ & _ & _ & _ & _ & Hl1 & Hc1 & _).
    destruct (apply_speed_limit_effect (calibrate_pedal_zero s0 (PdlArgs.cs a))
                (PdlArgs.speed_limit_ms a) (PdlArgs.set_speed_limit_active a)
                (PdlArgs.speed_limit_offset a))
      as (_ & _ & _ & _ & _ & Hl2 & Hc2 & _).
    cbn in Hl1, Hc1. rewrite Hl1 in Hl2. rewrite Hc1 in Hc2.
    destruct (update_pdl_steps s s' a out H) as [(_ & -> & _)|(_ & He)].
    + cbv zeta. fold s0. unfold lead_counter_ok. cbn. rewrite Hl2, Hc2. auto.
    + cbv zeta in He. fold s0 in He.
      destruct (encode_pedal_effect _ _ _ _ _ _ _ _ He)
        as (_ & _ & _ & _ & _ & _ & _ & _ & Hl & Hc & _).
      cbn in Hl, Hc. unfold lead_counter_ok. rewrite Hl, Hc.
      match goal with
      | |- context [ingest_lead ?st ?en] =>
          destruct (ingest_lead_tracks st en) as (Hsome & Hnone)
      end.
      cbn in Hsome, Hnone. rewrite Hc2 in Hsome. rewrite Hl2, Hc2 in Hnone.
      destruct (Env.radSt (PdlArgs.env a)) as [l|] eqn:Hr.
      * destruct (Hsome l eq_refl) as (-> & -> & _). cbn.
        destruct (0 <? Lead.dRel l); split; auto; lia.
      * destruct (Hnone eq_refl) as (-> & -> & _). auto.
Qed.

(** X19.  With a follow time that is not negative [update_pdl] returns a
command for every state and input; a negative follow time can make it raise
[ZeroDivisionError] (a lead closing at 1 m/s and decelerating at 1 m/s2
with a follow time of -1 s). *)
Theorem update_pdl_raises_only_on_negative_follow_time
    (s : PCC.t LoCt FleetSpeed) (a : PdlArgs.t) :
  (0 <= CS.apFollowTimeInS (PdlArgs.cs a) ->
   exists s' out, update_pdl_with E s a = Ok (s', out))
  /\ (forall e, update_pdl_with E s a = Raise e ->
      CS.apFollowTimeInS (PdlArgs.cs a) < 0)
  /\ (PCC.pcc_available s && PdlArgs.enabled a = true ->
      Env.radSt (PdlArgs.env a) = Some (Lead.mk 20 (-1) (-1) 19 0 true) ->
      CS.apFollowTimeInS (PdlArgs.cs a) == -1 ->
      update_pdl_with E s a = Raise ZeroDivisionError).
Proof.
  assert (Hok : 0 <= CS.apFollowTimeInS (PdlArgs.cs a) ->
                exists s' out, update_pdl_with E s a = Ok (s', out)).
  { intro Ht.
    unfold update_pdl_with, update_pdl. cbv zeta.
    destruct (negb (PCC.pcc_available _) || negb (PdlArgs.enabled a)); [eauto|].
    unfold envelope. cbv zeta.
    match goal with
    | |- context [_decel_limit ?am ?v ?l ?c ?m] =>
        destruct (decel_limit_ok am v l c m Ht) as [dl Hdl]; rewrite Hdl
    end.
    cbn [bind]. unfold op_branch. cbn [bind]. unfold encode_pedal. cbv zeta.
    match goal with
    | |- context [_brake_pedal_min ?v ?vt ?l ?c ?m] =>
        destruct (brake_pedal_min_ok v vt l c m) as [bpm Hb]; rewrite Hb
    end.
    cbn [bind].
    match goal with
    | |- context [pedal_hysteresis ?st ?p ?en] =>
        destruct (pedal_hysteresis st p en) as [sh steady]
    end.
    eauto. }
  split; [exact Hok|]. split.
  - intros e He. destruct (Qlt_le_dec (CS.apFollowTimeInS (PdlArgs.cs a)) 0)
      as [Hlt|Hge]; [exact Hlt|].
    destruct (Hok Hge) as (s' & out & Hs). congruence.
  - intros Hfull Hr Ht. unfold update_pdl_with, update_pdl. cbv zeta.
    pose proof (update_pdl_prologue_frame E s a) as (Hav & _).
    apply andb_true_iff in Hfull. destruct Hfull as [Ha Hb].
    rewrite Hav, Ha, Hb. cbn [negb orb].
    match goal with
    | |- context [ingest_lead ?st ?en] =>
        destruct (ingest_lead_tracks st en) as (Hsome & _);
        destruct (Hsome _ Hr) as (Hl & _)
    end.
    unfold envelope. cbv zeta. rewrite Hl.
    unfold _decel_limit. cbv zeta. cbn [_is_present Lead.dRel].
    assert (Hp : (0 <? 20) = true) by reflexivity. rewrite Hp.
    unfold _sec_til_collision. cbn [_is_present Lead.dRel Lead.vRel Lead.aRel].
    rewrite Hp. assert (Hv : (-1 <? 0) = true) by reflexivity. rewrite Hv.
    cbn [andb].
    assert (Hz : pabs (-1 + pmin 0 (-1) * CS.apFollowTimeInS (PdlArgs.cs a)) == 0).
    { assert (Hm : pmin 0 (-1) = -1) by reflexivity. rewrite Hm.
      destruct (pabs_spec (-1 + -1 * CS.apFollowTimeInS (PdlArgs.cs a)))
        as [[? ->]|[? ->]]; lra. }
    assert (Hdiv : forall x,
              py_div x (pabs (-1 + pmin 0 (-1)
                                   * CS.apFollowTimeInS (PdlArgs.cs a)))
              = Raise ZeroDivisionError).
    { intro x. unfold py_div. apply Qeq_bool_iff in Hz. now rewrite Hz. }
    destruct (CS.useTeslaRadar (PdlArgs.cs a)); rewrite Hdiv; reflexivity.
Qed.

End PedalCycleMore.

Lemma engaged_full_gas_run :
  update_pdl_with stub engaged full_gas = Ok (after_one, out_one).
Proof. vm_compute. reflexivity. Qed.

Lemma engaged_lead_run :
  update_pdl_with stub engaged full_gas_with_lead = Ok (after_lead, out_lead).
Proof. vm_compute. reflexivity. Qed.

Lemma pedal_idx_cycles_witness :
  snd out_one = PCC.pedal_idx engaged
  /\ PCC.pedal_idx after_one = ((PCC.pedal_idx engaged + 1) mod 16)%Z.
Proof.
  destruct (pedal_idx_cycles stub engaged after_one full_gas out_one
              engaged_full_gas_run) as (H1 & H2 & _).
  split; [exact H1|exact H2].
Defined.

Lemma pedal_output_gating_witness :
  0 <= fst (fst out_one) <= 100.
Proof.
  exact (proj1 (pedal_output_gating stub engaged after_one full_gas out_one
                  engaged_full_gas_run)).
Defined.

Lemma calibration_stays_in_range_witness :
  calibration_ok after_one.
Proof.
  assert (Hok : calibration_ok engaged)
    by (unfold calibration_ok; repeat split; vm_compute;
        first [discriminate|reflexivity]).
  exact (proj1 (proj2 (proj2 (calibration_stays_in_range stub engaged after_one
                                full_gas out_one
                                (car 20 CruiseButtons.IDLE false false 0)
                                5 1000400 1))
                  Hok engaged_full_gas_run)).
Defined.



Lemma lead_tracker_ingest_witness :
  PCC.lead_1 after_lead = Some lead_5m_closing.
Proof.
  assert (Hfull : PCC.pcc_available engaged && PdlArgs.enabled full_gas_with_lead
                  = true) by (vm_compute; reflexivity).
  exact (proj1 (proj1 (lead_tracker_ingest stub engaged after_lead
                         full_gas_with_lead out_lead engaged_lead_run)
                  lead_5m_closing Hfull eq_refl)).
Defined.

Lemma lead_counter_invariant_witness :
  lead_counter_ok after_lead.
Proof.
  assert (Hok : lead_counter_ok engaged).
  { unfold lead_counter_ok. split.
    - vm_compute. discriminate.
    - vm_compute. discriminate. }
  exact (proj2 (proj2 (lead_counter_invariant stub engaged after_lead
                         full_gas_with_lead out_lead
                         (car 20 CruiseButtons.IDLE false false 0) 5 1000400 1))
           Hok engaged_lead_run).
Defined.

Lemma update_pdl_raises_only_on_negative_follow_time_witness :
  (exists s' out, update_pdl_with stub engaged full_gas = Ok (s', out))
  /\ update_pdl_with stub engaged negative_follow_time = Raise ZeroDivisionError.
Proof.
  split.
  - apply (proj1 (update_pdl_raises_only_on_negative_follow_time stub engaged
                    full_gas)).
    vm_compute. discriminate.
  - assert (Hfull : PCC.pcc_available engaged
                    && PdlArgs.enabled negative_follow_time = true)
      by (vm_compute; reflexivity).
    assert (Ht : CS.apFollowTimeInS (PdlArgs.cs negative_follow_time) == -1)
      by reflexivity.
    exact (proj2 (proj2 (update_pdl_raises_only_on_negative_follow_time stub
                           engaged negative_follow_time))
             Hfull eq_refl Ht).
Defined.

(** ** More on the planner and the encoder's filter *)

Lemma clip_in_range (x lo hi : Q) : lo <= x -> x <= hi -> clip x lo hi == x.
Proof.
  intros Hlo Hhi. unfold clip.
  destruct (pmin_spec hi x) as [[? E1]|[? E1]];
    destruct (pmax_spec lo (pmin hi x)) as [[? E2]|[? E2]];
    rewrite E2; rewrite ?E1 in *; lra.
Qed.

Lemma clip_bounds_any (x lo hi : Q) :
  lo <= clip x lo hi /\ clip x lo hi <= pmax lo hi.
Proof.
  unfold clip.
  destruct (pmin_spec hi x) as [[? E1]|[? E1]];
    destruct (pmax_spec lo (pmin hi x)) as [[? E2]|[? E2]];
    destruct (pmax_spec lo hi) as [[? E3]|[? E3]];
    rewrite E2, E3; rewrite ?E1 in *; split; lra.
Qed.

Section PlannerMore.
Context {LoCt FleetSpeed : Type}.

(** X20.  [calc_follow_speed_ms] returns [None] exactly when no lead sample
was ever stored, and then leaves the controller as it is; with a stored
lead every result is a speed. *)
Theorem planner_none_iff_no_lead (s : PCC.t LoCt FleetSpeed) (cs : CS.t)
    (alca : bool) :
  (PCC.lead_1 s = None -> calc_follow_speed_ms s cs alca = Ok (s, None))
  /\ (forall s', calc_follow_speed_ms s cs alca = Ok (s', None) ->
      PCC.lead_1 s = None).
Proof.
  unfold calc_follow_speed_ms. split.
  - intros ->. reflexivity.
  - intros s'. destruct (PCC.lead_1 s) as [l|]; [|reflexivity].
    cbv zeta.
    match goal with
    | |- bind ?m _ = _ -> _ => destruct m as [[n r]|e]
    end; cbn [bind]; discriminate.
Qed.

(** X21.  The target of [calc_follow_speed_ms], in kph, is stored as the
last target; it never exceeds 270 nor the user's maximum (nor 0 when that
maximum is negative); with a turn signal, a steering angle above 10 degrees
or a lane change it does not exceed the previous target (or is 0 when that
one is negative); otherwise it is not negative. *)
Theorem planner_target_bounds (s s' : PCC.t LoCt FleetSpeed) (cs : CS.t)
    (alca : bool) (v : Q) :
  calc_follow_speed_ms s cs alca = Ok (s', Some v) ->
  exists new,
    PCC.last_speed_kph s' = Some new
    /\ v = new * CV.KPH_TO_MS
    /\ new <= MAX_PCC_V_KPH
    /\ new <= pmax MIN_PCC_V_KPH (PCC.pedal_speed_kph s)
    /\ (CS.turn_signal_blinking cs
        || (ANGLE_STOP_ACCEL <? pabs (CS.angle_steers cs)) || alca = true ->
        new <= pmax MIN_PCC_V_KPH
                 match PCC.last_speed_kph s with
                 | Some last => last
                 | None => CS.v_ego cs * CV.MS_TO_KPH
                 end)
    /\ (CS.turn_signal_blinking cs
        || (ANGLE_STOP_ACCEL <? pabs (CS.angle_steers cs)) || alca = false ->
        MIN_PCC_V_KPH <= new).
Proof.
  unfold calc_follow_speed_ms.
  destruct (PCC.lead_1 s) as [l|]; [|discriminate]. cbv zeta.
  match goal with
  | |- bind ?m _ = _ -> _ => destruct m as [[n r]|e]
  end; cbn [bind]; [|discriminate].
  set (last := match PCC.last_speed_kph s with
               | Some v0 => v0
               | None => CS.v_ego cs * CV.MS_TO_KPH
               end).
  set (turn := CS.turn_signal_blinking cs
               || (ANGLE_STOP_ACCEL <? pabs (CS.angle_steers cs)) || alca).
  cbn [PCC.pedal_speed_kph PCC.set_last_speed_kph].
  set (x := clip (clip n MIN_PCC_V_KPH MAX_PCC_V_KPH) MIN_PCC_V_KPH
              (PCC.pedal_speed_kph s)).
  assert (Hx : MIN_PCC_V_KPH <= x
               /\ x <= pmax MIN_PCC_V_KPH (PCC.pedal_speed_kph s)
               /\ x <= MAX_PCC_V_KPH).
  { destruct (clip_bounds_any (clip n MIN_PCC_V_KPH MAX_PCC_V_KPH) MIN_PCC_V_KPH
                (PCC.pedal_speed_kph s)) as [H1 H2].
    split; [exact H1|]. split; [exact H2|].
    apply clip_le; [|unfold MIN_PCC_V_KPH, MAX_PCC_V_KPH; lra].
    apply clip_range. unfold MIN_PCC_V_KPH, MAX_PCC_V_KPH. lra. }
  clearbody x. destruct Hx as (Hx0 & Hxp & Hx270).
  assert (Hp0 : MIN_PCC_V_KPH <= pmax MIN_PCC_V_KPH (PCC.pedal_speed_kph s))
    by (destruct (pmax_spec MIN_PCC_V_KPH (PCC.pedal_speed_kph s))
          as [[? ->]|[? ->]]; lra).
  intro H. injection H as <- <-. eexists. split; [reflexivity|].
  split; [reflexivity|].
  unfold MIN_PCC_V_KPH, MAX_PCC_V_KPH in *.
  assert (Hl0 : 0 <= pmax 0 last /\ last <= pmax 0 last)
    by (destruct (pmax_spec 0 last) as [[? ->]|[? ->]]; split; lra).
  destruct Hl0 as [Hl0 Hl1].
  match goal with
  | |- context [if ?g then 0 else _] => destruct g
  end.
  - repeat split; try lra; intro; lra.
  - destruct turn eqn:Ht.
    + destruct (pmin_spec x last) as [[? ->]|[? ->]];
        repeat split; try lra; intro; try discriminate; lra.
    + repeat split; try lra; intro; try discriminate; lra.
Qed.

(** X22.  With the controller engaged, a stored lead whose adjusted distance
is 0 (no lead) or above 120 m, no turn signal, steering angle or lane
change, and a user maximum in [0, 270], the target is the user maximum. *)
Theorem planner_no_lead_gives_user_max (s : PCC.t LoCt FleetSpeed) (cs : CS.t)
    (l : Lead.t) :
  PCC.lead_1 s = Some l ->
  PCC.enable_pedal_cruise s = true ->
  adjusted_lead_dist_m l cs == 0 \/ MAX_RADAR_DISTANCE < adjusted_lead_dist_m l cs ->
  CS.turn_signal_blinking cs = false ->
  pabs (CS.angle_steers cs) <= ANGLE_STOP_ACCEL ->
  MIN_PCC_V_KPH <= PCC.pedal_speed_kph s <= MAX_PCC_V_KPH ->
  exists s' v,
    calc_follow_speed_ms s cs false = Ok (s', Some v)
    /\ v == PCC.pedal_speed_kph s * CV.KPH_TO_MS.
Proof.
  intros Hl Hen Hd Hturn Hang Hp. unfold calc_follow_speed_ms.
  rewrite Hl. cbv zeta. fold (adjusted_lead_dist_m l cs).
  set (d := adjusted_lead_dist_m l cs) in *.
  cbn [PCC.enable_pedal_cruise PCC.set_last_speed_kph]. rewrite Hen.
  unfold follow_speed_logic.
  assert (Hfar : (d =? 0) || (MAX_RADAR_DISTANCE <? d) = true).
  { destruct Hd as [Hz|Hf].
    - apply Qeq_bool_iff in Hz. now rewrite Hz.
    - apply Qltb_lt in Hf. rewrite Hf. apply orb_true_r. }
  rewrite Hfar. cbn [bind PCC.pedal_speed_kph PCC.set_last_speed_kph].
  apply Qltb_ge in Hang. rewrite Hturn, Hang. cbn [orb].
  assert (Hg : (d <? MIN_SAFE_DIST_M) && (0 <? d) = false).
  { unfold MAX_RADAR_DISTANCE, MIN_SAFE_DIST_M in *. destruct Hd as [Hz|Hf].
    - assert (H0 : (0 <? d) = false) by (apply Qltb_ge; lra).
      rewrite H0. apply andb_false_r.
    - assert (H6 : (d <? 6) = false) by (apply Qltb_ge; lra).
      now rewrite H6. }
  rewrite Hg. cbn [andb].
  eexists. eexists. split; [reflexivity|].
  unfold MIN_PCC_V_KPH, MAX_PCC_V_KPH in *.
  assert (H1 : clip (PCC.pedal_speed_kph s) 0 270 == PCC.pedal_speed_kph s)
    by (apply clip_in_range; lra).
  assert (H2 : clip (clip (PCC.pedal_speed_kph s) 0 270) 0 (PCC.pedal_speed_kph s)
               == clip (PCC.pedal_speed_kph s) 0 270)
    by (apply clip_in_range; lra).
  rewrite H2, H1. reflexivity.
Qed.

(** X23.  A follow time of 0: [_max_safe_speed_kph] raises
[ZeroDivisionError] for a present lead and returns 270 for an absent one;
the engaged planner raises it for a radar lead between 8 and 120 m (the
cruise zone). *)
Theorem zero_follow_time_raises (s : PCC.t LoCt FleetSpeed) (cs : CS.t)
    (alca : bool) (l : Lead.t) :
  CS.apFollowTimeInS cs == 0 ->
  (0 < Lead.dRel l -> _max_safe_speed_kph (Some l) cs = Raise ZeroDivisionError)
  /\ (Lead.dRel l <= 0 -> _max_safe_speed_kph (Some l) cs = Ok MAX_PCC_V_KPH)
  /\ _max_safe_speed_kph None cs = Ok MAX_PCC_V_KPH
  /\ (PCC.lead_1 s = Some l -> PCC.enable_pedal_cruise s = true ->
      CS.useTeslaRadar cs = true ->
      8 <= Lead.dRel l -> Lead.dRel l <= MAX_RADAR_DISTANCE ->
      calc_follow_speed_ms s cs alca = Raise ZeroDivisionError).
Proof.
  intro Ht.
  assert (Hdiv : forall x, py_div x (CS.apFollowTimeInS cs)
                           = Raise ZeroDivisionError).
  { intro x. unfold py_div. apply Qeq_bool_iff in Ht. now rewrite Ht. }
  assert (Hmax : 0 < Lead.dRel l ->
                 _max_safe_speed_kph (Some l) cs = Raise ZeroDivisionError).
  { intro Hd. unfold _max_safe_speed_kph. cbn [_is_present].
    apply Qltb_lt in Hd. rewrite Hd, Hdiv. reflexivity. }
  split; [exact Hmax|]. split; [|split; [reflexivity|]].
  - intro Hd. unfold _max_safe_speed_kph. cbn [_is_present].
    apply Qltb_ge in Hd. now rewrite Hd.
  - intros Hl Hen Hr H8 H120. unfold calc_follow_speed_ms.
    rewrite Hl. cbv zeta. rewrite Hr. cbn [negb].
    cbn [PCC.enable_pedal_cruise PCC.set_last_speed_kph]. rewrite Hen.
    unfold follow_speed_logic. cbv zeta.
    cbn [PCC.lead_1 PCC.set_last_speed_kph]. rewrite Hl.
    unfold MAX_RADAR_DISTANCE, MIN_SAFE_DIST_M in *.
    assert (Hsafe : _safe_distance_m (CS.v_ego cs) cs = 6).
    { unfold _safe_distance_m, pmax, MIN_SAFE_DIST_M.
      assert (Hlt : (CS.apFollowTimeInS cs * (CS.v_ego cs + 1) <? 6) = true)
        by (apply Qltb_lt; nra).
      now rewrite Hlt. }
    rewrite Hsafe.
    assert (C1 : (Lead.dRel l =? 0) = false) by (apply Qeqb_neq; lra).
    assert (C2 : (120 <? Lead.dRel l) = false) by (apply Qltb_ge; lra).
    assert (C3 : (0 <? Lead.dRel l) = true) by (apply Qltb_lt; lra).
    assert (C4 : (Lead.dRel l <? 6) = false) by (apply Qltb_ge; lra).
    assert (C5 : (Lead.dRel l <? 6 + 2) = false) by (apply Qltb_ge; lra).
    rewrite C1, C2, C3, C4, C5. cbn [orb andb].
    rewrite Hmax by lra. reflexivity.
Qed.

(** X24.  The hysteresis: when not enabled the steady value is set to 0;
when enabled it stays where it is while the new value is within one unit of
it, and otherwise moves just enough to be one unit away from the new value.
The value returned is the steady value. *)
Theorem hysteresis_band (s : PCC.t LoCt FleetSpeed) (pedal : Q) (enabled : bool) :
  let s' := fst (pedal_hysteresis s pedal enabled) in
  snd (pedal_hysteresis s pedal enabled) = PCC.pedal_steady s'
  /\ (enabled = false -> PCC.pedal_steady s' = 0)
  /\ (enabled = true ->
      pedal - PEDAL_HYST_GAP <= PCC.pedal_steady s' <= pedal + PEDAL_HYST_GAP
      /\ (PCC.pedal_steady s - PEDAL_HYST_GAP <= pedal
          <= PCC.pedal_steady s + PEDAL_HYST_GAP ->
          PCC.pedal_steady s' = PCC.pedal_steady s)
      /\ (PCC.pedal_steady s + PEDAL_HYST_GAP < pedal ->
          PCC.pedal_steady s' = pedal - PEDAL_HYST_GAP)
      /\ (pedal < PCC.pedal_steady s - PEDAL_HYST_GAP ->
          PCC.pedal_steady s' = pedal + PEDAL_HYST_GAP)).
Proof.
  cbv zeta. unfold pedal_hysteresis, PEDAL_HYST_GAP.
  destruct enabled; cbn [negb].
  - destruct (PCC.pedal_steady s + 1 <? pedal) eqn:Hup;
      [|destruct (pedal <? PCC.pedal_steady s - 1) eqn:Hdn];
      qprop; cbn; (split; [reflexivity|]); (split; [discriminate|]);
      intros _; repeat split; intros; try reflexivity; lra.
  - cbn. split; [reflexivity|]. split; [reflexivity|discriminate].
Qed.

End PlannerMore.

(** X25.  [max_v_in_mapped_curve_ms]: without map data, or with a curvature
that is not valid, there is no cap.  Otherwise the cap lies between the set
speed (in m/s) and the curve speed [sqrt(1.85 / max(1e-4, |curvature|))]: it
is the set speed at or past the turn (distance not positive) and the curve
speed from 8 s before the turn on (time measured at the set speed, at least
1 m/s). *)
Theorem mapped_curve_cap {LoCt FleetSpeed : Type} (E : Externals LoCt FleetSpeed)
    (md : MapData.t) (kph : Q) :
  let set_ms := kph * CV.KPH_TO_MS in
  let curve_ms :=
    math_sqrt E (1.85 / pmax 1e-4 (pabs (MapData.curvature md))) in
  max_v_in_mapped_curve_ms E None kph = None
  /\ (MapData.curvatureValid md = false ->
      max_v_in_mapped_curve_ms E (Some md) kph = None)
  /\ (MapData.curvatureValid md = true ->
      exists v, max_v_in_mapped_curve_ms E (Some md) kph = Some v
                /\ pmin set_ms curve_ms <= v <= pmax set_ms curve_ms
                /\ (MapData.distToTurn md <= 0 -> v = set_ms)
                /\ (8 * pmax set_ms 1 <= MapData.distToTurn md -> v == curve_ms)).
Proof.
  cbv zeta. split; [reflexivity|]. split.
  - intro Hv. unfold max_v_in_mapped_curve_ms. now rewrite Hv.
  - intro Hv. unfold max_v_in_mapped_curve_ms. rewrite Hv. cbv zeta.
    set (set_ms := kph * CV.KPH_TO_MS).
    set (curve_ms := math_sqrt E (1.85 / pmax 1e-4 (pabs (MapData.curvature md)))).
    assert (Hden : 1 <= pmax set_ms 1)
      by (destruct (pmax_spec set_ms 1) as [[? ->]|[? ->]]; lra).
    set (den := pmax set_ms 1) in *. clearbody den.
    eexists. split; [reflexivity|]. split; [|split].
    + clearbody set_ms curve_ms.
      assert (Hb : pmin set_ms curve_ms <= set_ms <= pmax set_ms curve_ms
                   /\ pmin set_ms curve_ms <= curve_ms <= pmax set_ms curve_ms).
      { destruct (pmin_spec set_ms curve_ms) as [[? ->]|[? ->]];
          destruct (pmax_spec set_ms curve_ms) as [[? ->]|[? ->]]; lra. }
      destruct Hb as [Hb1 Hb2].
      apply interp_map_bounds.
      apply Forall_cons; [exact Hb1|].
      apply Forall_cons; [exact Hb2|]. apply Forall_nil.
    + intro Hd.
      assert (Hq : MapData.distToTurn md / den <= 0).
      { apply Qle_shift_div_r; lra. }
      assert (Htt : pmax 0 (MapData.distToTurn md / den) = 0).
      { unfold pmax. apply Qltb_ge in Hq. now rewrite Hq. }
      rewrite Htt. reflexivity.
    + intro Hd.
      assert (Hq : 8 <= MapData.distToTurn md / den).
      { apply Qle_shift_div_l; lra. }
      assert (Htt : 8 <= pmax 0 (MapData.distToTurn md / den))
        by (destruct (pmax_spec 0 (MapData.distToTurn md / den))
              as [[? ->]|[? ->]]; lra).
      set (tt := pmax 0 (MapData.distToTurn md / den)) in *. clearbody tt.
      unfold _interp_map. cbn [map fst snd interp interp_seg].
      assert (H0 : (tt <=? 0) = false) by (apply Qleb_gt; lra).
      rewrite H0. destruct (tt <=? 8) eqn:H8; qprop; [|reflexivity].
      assert (Heq : tt == 8) by lra. rewrite Heq. field.
Qed.

Lemma planner_none_iff_no_lead_witness :
  calc_follow_speed_ms engaged (car 20 CruiseButtons.IDLE false false 0) false
  = Ok (engaged, None).
Proof.
  assert (Hl : PCC.lead_1 engaged = None) by (vm_compute; reflexivity).
  exact (proj1 (planner_none_iff_no_lead engaged
                  (car 20 CruiseButtons.IDLE false false 0) false) Hl).
Defined.

Lemma planner_target_bounds_witness :
  exists new, PCC.last_speed_kph after_plan = Some new
              /\ new <= MAX_PCC_V_KPH.
Proof.
  assert (Hrun : calc_follow_speed_ms after_lead
                   (car 20 CruiseButtons.IDLE false false 0) false
                 = Ok (after_plan, Some plan_speed))
    by (vm_compute; reflexivity).
  destruct (planner_target_bounds after_lead after_plan
              (car 20 CruiseButtons.IDLE false false 0) false plan_speed Hrun)
    as [new [Hlast [_ [Hmax _]]]].
  exists new. split; [exact Hlast|exact Hmax].
Defined.

Lemma planner_no_lead_gives_user_max_witness :
  exists s' v,
    calc_follow_speed_ms after_lead
      (car 20 CruiseButtons.IDLE false false 0) false = Ok (s', Some v)
    /\ v == PCC.pedal_speed_kph after_lead * CV.KPH_TO_MS.
Proof.
  assert (Hl : PCC.lead_1 after_lead = Some lead_5m_closing)
    by (vm_compute; reflexivity).
  assert (Hen : PCC.enable_pedal_cruise after_lead = true)
    by (vm_compute; reflexivity).
  assert (Hd : adjusted_lead_dist_m lead_5m_closing
                 (car 20 CruiseButtons.IDLE false false 0) == 0)
    by (vm_compute; reflexivity).
  assert (Hang : pabs (CS.angle_steers (car 20 CruiseButtons.IDLE false false 0))
                 <= ANGLE_STOP_ACCEL)
    by (apply Qle_bool_iff; vm_compute; reflexivity).
  assert (Hlo : MIN_PCC_V_KPH <= PCC.pedal_speed_kph after_lead)
    by (apply Qle_bool_iff; vm_compute; reflexivity).
  assert (Hhi : PCC.pedal_speed_kph after_lead <= MAX_PCC_V_KPH)
    by (apply Qle_bool_iff; vm_compute; reflexivity).
  exact (planner_no_lead_gives_user_max after_lead
           (car 20 CruiseButtons.IDLE false false 0) lead_5m_closing
           Hl Hen (or_introl Hd) eq_refl Hang (conj Hlo Hhi)).
Defined.

Lemma zero_follow_time_raises_witness :
  calc_follow_speed_ms (PCC.set_lead_1 engaged (Some lead_20m))
    zero_follow_time_car false = Raise ZeroDivisionError.
Proof.
  assert (Ht : CS.apFollowTimeInS zero_follow_time_car == 0)
    by (vm_compute; reflexivity).
  assert (Hen : PCC.enable_pedal_cruise (PCC.set_lead_1 engaged (Some lead_20m))
                = true) by (vm_compute; reflexivity).
  assert (H8 : 8 <= Lead.dRel lead_20m)
    by (apply Qle_bool_iff; vm_compute; reflexivity).
  assert (H120 : Lead.dRel lead_20m <= MAX_RADAR_DISTANCE)
    by (apply Qle_bool_iff; vm_compute; reflexivity).
  exact (proj2 (proj2 (proj2 (zero_follow_time_raises
                                (PCC.set_lead_1 engaged (Some lead_20m))
                                zero_follow_time_car false lead_20m Ht)))
           eq_refl Hen eq_refl H8 H120).
Defined.

Lemma hysteresis_band_witness :
  PCC.pedal_steady (fst (pedal_hysteresis after_one 50 false)) = 0.
Proof.
  exact (proj1 (proj2 (hysteresis_band after_one 50 false)) eq_refl).
Defined.

Lemma mapped_curve_cap_witness :
  exists v, max_v_in_mapped_curve_ms stub (Some curve_ahead) 72 = Some v.
Proof.
  destruct (proj2 (proj2 (mapped_curve_cap stub curve_ahead 72)) eq_refl)
    as [v [Hv _]].
  exists v. exact Hv.
Defined.

(** X26.  [_max_safe_speed_kph] for a present lead and a positive follow
time: it is the lead's speed when the lead is exactly at the safe distance,
above it when the lead is farther and below it when the lead is nearer. *)
Theorem max_safe_speed_tracks_safe_distance (l : Lead.t) (cs : CS.t) :
  0 < Lead.dRel l ->
  0 < CS.apFollowTimeInS cs ->
  let lead_kph := (CS.v_ego cs + Lead.vRel l) * CV.MS_TO_KPH in
  let safe := _safe_distance_m (CS.v_ego cs) cs in
  exists m,
    _max_safe_speed_kph (Some l) cs = Ok m
    /\ (Lead.dRel l == safe -> m == lead_kph)
    /\ (safe < Lead.dRel l -> lead_kph < m)
    /\ (Lead.dRel l < safe -> m < lead_kph).
Proof.
  intros Hd Ht. cbv zeta. unfold _max_safe_speed_kph. cbn [_is_present].
  apply Qltb_lt in Hd. rewrite Hd.
  rewrite py_div_ok by (intro Hz; rewrite Hz in Ht; discriminate).
  cbn [bind]. eexists. split; [reflexivity|].
  set (safe := _safe_distance_m (CS.v_ego cs) cs). clearbody safe.
  set (T := CS.apFollowTimeInS cs) in *. clearbody T.
  set (d := Lead.dRel l) in *. clearbody d.
  set (q := (d - safe) / T).
  assert (Hq : q * T == d - safe)
    by (unfold q; field; intro Hz; rewrite Hz in Ht; discriminate).
  clearbody q. unfold CV.MS_TO_KPH.
  repeat split; intro H; nra.
Qed.

Lemma max_safe_speed_tracks_safe_distance_witness :
  exists m, _max_safe_speed_kph (Some lead_20m)
              (car 20 CruiseButtons.IDLE false true 0) = Ok m
            /\ m < (20 + -1) * CV.MS_TO_KPH.
Proof.
  assert (Hd : 0 < Lead.dRel lead_20m) by reflexivity.
  assert (Ht : 0 < CS.apFollowTimeInS (car 20 CruiseButtons.IDLE false true 0))
    by reflexivity.
  assert (Hnear : Lead.dRel lead_20m
                  < _safe_distance_m 20 (car 20 CruiseButtons.IDLE false true 0))
    by (vm_compute; reflexivity).
  destruct (max_safe_speed_tracks_safe_distance lead_20m
              (car 20 CruiseButtons.IDLE false true 0) Hd Ht)
    as [m [Hm [_ [_ Hlt]]]].
  exists m. split; [exact Hm|exact (Hlt Hnear)].
Defined.

(** X27.  [_min_safe_vrel_kph]: -100 when the lead is faster than the given
speed; otherwise a value in [-50, 2], which is 2 up to 6 m and -50 from
1000 m on. *)
Theorem min_safe_vrel_range (l : Lead.t) (cs : CS.t) (actual_speed_kph : Q) :
  (actual_speed_kph < Lead.vLeadK l * CV.MS_TO_KPH ->
   _min_safe_vrel_kph l cs actual_speed_kph = -100)
  /\ (Lead.vLeadK l * CV.MS_TO_KPH <= actual_speed_kph ->
      -50 <= _min_safe_vrel_kph l cs actual_speed_kph <= 2
      /\ (Lead.dRel l <= MIN_SAFE_DIST_M ->
          _min_safe_vrel_kph l cs actual_speed_kph = 2)
      /\ (1000 <= Lead.dRel l ->
          _min_safe_vrel_kph l cs actual_speed_kph == -50)).
Proof.
  unfold _min_safe_vrel_kph. cbv zeta. split.
  - intro H. apply Qltb_lt in H. now rewrite H.
  - intro H. apply Qltb_ge in H. rewrite H. split; [|split].
    + unfold MIN_SAFE_DIST_M. table_bounds.
    + intro H6. unfold _interp_map. cbn [map fst snd interp].
      apply Qle_bool_iff in H6. now rewrite H6.
    + intro Hk. unfold _interp_map, MIN_SAFE_DIST_M.
      cbn [map fst snd interp interp_seg].
      assert (C1 : (Lead.dRel l <=? 6) = false) by (apply Qleb_gt; lra).
      assert (C2 : (Lead.dRel l <=? 100) = false) by (apply Qleb_gt; lra).
      rewrite C1, C2.
      destruct (Lead.dRel l <=? 1000) eqn:C3; qprop; [|reflexivity].
      assert (He : Lead.dRel l == 1000) by lra. rewrite He. reflexivity.
Qed.

Lemma min_safe_vrel_range_witness :
  _min_safe_vrel_kph lead_5m_closing
    (car 20 CruiseButtons.IDLE false false 0) 72 = 2.
Proof.
  assert (Hs : Lead.vLeadK lead_5m_closing * CV.MS_TO_KPH <= 72)
    by (apply Qle_bool_iff; vm_compute; reflexivity).
  assert (H6 : Lead.dRel lead_5m_closing <= MIN_SAFE_DIST_M)
    by (apply Qle_bool_iff; vm_compute; reflexivity).
  exact (proj1 (proj2 (proj2 (min_safe_vrel_range lead_5m_closing
                                (car 20 CruiseButtons.IDLE false false 0) 72)
                         Hs)) H6).
Defined.

(** X28.  Engaged, with the lead nearer than 6 m but pulling away by at
least 3 kph plus 1e-9 (and at most 100 m/s), no turn signal, steering angle
or lane change, and the current speed within [0, 270] kph and not above the
user's maximum, the planner returns the current speed: it neither brakes
nor accelerates.  The margin covers the rounding of the relative speed
recomputed as [(actual + rel) - actual]. *)
Theorem planner_holds_speed_behind_departing_lead {LoCt FleetSpeed : Type}
    (s : PCC.t LoCt FleetSpeed) (cs : CS.t) (l : Lead.t) :
  PCC.lead_1 s = Some l ->
  PCC.enable_pedal_cruise s = true ->
  0 < adjusted_lead_dist_m l cs ->
  adjusted_lead_dist_m l cs < MIN_SAFE_DIST_M ->
  3 + 0.000000001 <= Lead.vRel l * CV.MS_TO_KPH ->
  Lead.vRel l <= 100 ->
  CS.turn_signal_blinking cs = false ->
  pabs (CS.angle_steers cs) <= ANGLE_STOP_ACCEL ->
  0 <= CS.v_ego cs ->
  CS.v_ego cs * CV.MS_TO_KPH <= MAX_PCC_V_KPH ->
  CS.v_ego cs * CV.MS_TO_KPH <= PCC.pedal_speed_kph s ->
  exists s' v,
    calc_follow_speed_ms s cs false = Ok (s', Some v)
    /\ v == CS.v_ego cs
    /\ exists new, PCC.last_speed_kph s' = Some new
                   /\ new == CS.v_ego cs * CV.MS_TO_KPH.
Proof.
  intros Hl Hen H0 H6 Hrel Hrmax Hturn Hang Hv0 Hv270 Hvmax.
  unfold calc_follow_speed_ms. rewrite Hl. cbv zeta.
  fold (adjusted_lead_dist_m l cs).
  set (d := adjusted_lead_dist_m l cs) in *.
  cbn [PCC.enable_pedal_cruise PCC.set_last_speed_kph]. rewrite Hen.
  assert (Hbig : (0.5 <? pabs (Lead.vRel l)) = true).
  { apply Qltb_lt. unfold CV.MS_TO_KPH in Hrel.
    destruct (pabs_spec (Lead.vRel l)) as [[? ->]|[? ->]]; lra. }
  rewrite Hbig.
  set (a_rel := if 0.5 <? pabs (Lead.aRel l) then Lead.aRel l else 0).
  set (rel := (Lead.vRel l + 0 * CS.apFollowTimeInS cs * a_rel) * CV.MS_TO_KPH).
  assert (Hr : 3 + 0.000000001 <= rel <= 360)
    by (unfold rel, CV.MS_TO_KPH in *; lra).
  set (actual := CS.v_ego cs * CV.MS_TO_KPH) in *.
  unfold MAX_RADAR_DISTANCE, MIN_SAFE_DIST_M, MIN_PCC_V_KPH, MAX_PCC_V_KPH in *.
  assert (Hact : 0 <= actual) by (unfold actual, CV.MS_TO_KPH; lra).
  pose proof (recomputed_rel_within actual rel ltac:(lra) ltac:(lra)) as Hrec.
  rewrite (follow_speed_logic_near (PCC.set_last_speed_kph s (Some _)) cs l d
             rel (_safe_distance_m (CS.v_ego cs) cs) actual _ H0 H6).
  set (rel' := fsub (fadd actual rel) actual) in *. clearbody rel'.
  assert (C3 : (0 <? d) = true) by (apply Qltb_lt; lra).
  assert (C4 : (d <? 6) = true) by (apply Qltb_lt; lra).
  assert (C5 : (3 <=? rel') = true) by (apply Qle_bool_iff; lra).
  assert (C6 : (rel' <? 3) = false) by (apply Qltb_ge; lra).
  rewrite C5. cbn [bind].
  apply Qltb_ge in Hang. rewrite Hturn, Hang, ?C4, ?C3, ?C6. cbn [orb andb].
  cbn [PCC.pedal_speed_kph PCC.set_last_speed_kph PCC.last_speed_kph].
  assert (K1 : clip actual 0 270 == actual) by (apply clip_in_range; lra).
  assert (K2 : clip (clip actual 0 270) 0 (PCC.pedal_speed_kph s) == actual).
  { rewrite <- K1 at 2. apply clip_in_range; rewrite K1; lra. }
  eexists. eexists. split; [reflexivity|]. split.
  - rewrite K2. unfold actual, CV.KPH_TO_MS, CV.MS_TO_KPH. field.
  - eexists. split; [reflexivity|exact K2].
Qed.

Lemma planner_holds_speed_behind_departing_lead_witness :
  exists s' v,
    calc_follow_speed_ms (PCC.set_lead_1 engaged (Some lead_5m_departing))
      (car 20 CruiseButtons.IDLE false true 0) false = Ok (s', Some v)
    /\ v == 20.
Proof.
  assert (Hen : PCC.enable_pedal_cruise
                  (PCC.set_lead_1 engaged (Some lead_5m_departing)) = true)
    by (vm_compute; reflexivity).
  assert (H0 : 0 < adjusted_lead_dist_m lead_5m_departing
                     (car 20 CruiseButtons.IDLE false true 0))
    by (vm_compute; reflexivity).
  assert (H6 : adjusted_lead_dist_m lead_5m_departing
                 (car 20 CruiseButtons.IDLE false true 0) < MIN_SAFE_DIST_M)
    by (vm_compute; reflexivity).
  assert (Hrel : 3 + 0.000000001 <= Lead.vRel lead_5m_departing * CV.MS_TO_KPH)
    by (apply Qle_bool_iff; vm_compute; reflexivity).
  assert (Hrmax : Lead.vRel lead_5m_departing <= 100)
    by (apply Qle_bool_iff; vm_compute; reflexivity).
  assert (Hang : pabs (CS.angle_steers (car 20 CruiseButtons.IDLE false true 0))
                 <= ANGLE_STOP_ACCEL)
    by (apply Qle_bool_iff; vm_compute; reflexivity).
  assert (Hv0 : 0 <= CS.v_ego (car 20 CruiseButtons.IDLE false true 0))
    by (apply Qle_bool_iff; vm_compute; reflexivity).
  assert (Hv270 : CS.v_ego (car 20 CruiseButtons.IDLE false true 0)
                  * CV.MS_TO_KPH <= MAX_PCC_V_KPH)
    by (apply Qle_bool_iff; vm_compute; reflexivity).
  assert (Hvmax : CS.v_ego (car 20 CruiseButtons.IDLE false true 0)
                  * CV.MS_TO_KPH
                  <= PCC.pedal_speed_kph
                       (PCC.set_lead_1 engaged (Some lead_5m_departing)))
    by (apply Qle_bool_iff; vm_compute; reflexivity).
  destruct (planner_holds_speed_behind_departing_lead
              (PCC.set_lead_1 engaged (Some lead_5m_departing))
              (car 20 CruiseButtons.IDLE false true 0) lead_5m_departing
              eq_refl Hen H0 H6 Hrel Hrmax eq_refl Hang Hv0 Hv270 Hvmax)
    as [s' [v [Hrun [Hv _]]]].
  exists s', v. split; [exact Hrun|exact Hv].
Defined.
